(** * Handoff markdown generation (utils/markdown.ts)

    A shallow embedding of the tool-activity classification and handoff
    synthesis engine: display caps, category ordering, MCP namespace
    grouping, the per-category renderers and the document assembler,
    followed by the properties the specification states about them.

    Conventions of the embedding.
    - A JavaScript [number] that holds a count, a cap or a line number is a
      [Z]; template interpolation of such a number is its decimal notation.
    - A JavaScript string is a [string]; one [ascii] stands for one code unit.
    - An optional field is an [option]; an optional boolean flag that the
      code only ever tests for truthiness is a [bool] ([false] when absent).
    - [string[]] results of the renderers are [list string]; a loop that
      pushes to [lines] is a [fold_left] over the pushed state.
    - A plain object used as a dictionary is a [gmap] (only own keys). *)

From Stdlib Require Import ZArith String Ascii List Lia DecimalString Permutation Sorted.
From stdpp Require Import gmap strings list sorting.
Import ListNotations.
Open Scope Z_scope.

(** ** JavaScript built-ins used by the module *)

Module Js.

(** The quotation mark, as a one-character string. *)
Definition dq : string := String (ascii_of_nat 34) EmptyString.

(** The line feed, as a one-character string. *)
Definition nl : string := String (ascii_of_nat 10) EmptyString.

(** [`${n}`] for an integral number. *)
Definition num (z : Z) : string := NilZero.string_of_int (Z.to_int z).

(** Truthiness of an optional string: present and not empty. *)
Definition truthy (o : option string) : bool :=
  match o with
  | Some EmptyString => false
  | Some _ => true
  | None => false
  end.

(** Truthiness of an optional number: present and not zero. *)
Definition truthyNum (o : option Z) : bool :=
  match o with
  | Some n => negb (n =? 0)
  | None => false
  end.

(** [o || d] for an optional number. *)
Definition orNum (o : option Z) (d : Z) : Z :=
  if truthyNum o then default d o else d.

(** Relative index resolution of [Array.prototype.slice]. *)
Definition clampIndex (len i : Z) : Z :=
  if i <? 0 then Z.max (len + i) 0 else Z.min i len.

(** [l.slice(start, end)]; [None] for an omitted [end]. *)
Definition slice {A} (start : Z) (end_ : option Z) (l : list A) : list A :=
  let len := Z.of_nat (length l) in
  let k := clampIndex len start in
  let final := match end_ with Some e => clampIndex len e | None => len end in
  take (Z.to_nat (final - k)) (drop (Z.to_nat k) l).

(** [s.slice(start, end)] on a string. *)
Definition strSlice (start : Z) (end_ : option Z) (s : string) : string :=
  string_of_list_ascii (slice start end_ (list_ascii_of_string s)).

(** [s.length]. *)
Definition strLength (s : string) : Z := Z.of_nat (String.length s).

(** [p] is an initial segment of [s]. *)
Fixpoint isPrefix (p s : string) {struct p} : bool :=
  match p with
  | EmptyString => true
  | String a p' =>
      match s with
      | EmptyString => false
      | String b s' => Ascii.eqb a b && isPrefix p' s'
      end
  end.

(** [s.startsWith(p)]. *)
Definition startsWith (s p : string) : bool := isPrefix p s.

(** [s.split(sep)] for a non-empty separator: [skip] counts the characters
    of a separator occurrence still to be passed over, [cur] is the piece
    being read. *)
Fixpoint splitGo (sep : string) (skip : nat) (cur s : string) : list string :=
  match s with
  | EmptyString => [cur]
  | String c s' =>
      match skip with
      | S k => splitGo sep k cur s'
      | O =>
          if startsWith s sep
          then cur :: splitGo sep (Nat.pred (String.length sep)) EmptyString s'
          else splitGo sep O (cur +:+ String c EmptyString) s'
      end
  end.

Definition split (sep s : string) : list string := splitGo sep O EmptyString s.

(** [l.join(sep)]. *)
Fixpoint join (sep : string) (l : list string) : string :=
  match l with
  | [] => EmptyString
  | [x] => x
  | x :: l' => x +:+ sep +:+ join sep l'
  end.

(** [s.replace(a, b)] for one-character strings: the first occurrence only. *)
Fixpoint replaceChar (a b : ascii) (s : string) : string :=
  match s with
  | EmptyString => EmptyString
  | String c s' =>
      if Ascii.eqb c a then String b s' else String c (replaceChar a b s')
  end.

(** The names of the members of [Object.prototype], which every object
    written [{}] inherits: those of the language and those of its Annex B,
    which Node has. *)
Definition objectPrototypeKeys : list string :=
  [ "constructor"; "hasOwnProperty"; "isPrototypeOf"; "propertyIsEnumerable";
    "toLocaleString"; "toString"; "valueOf"; "__proto__";
    "__defineGetter__"; "__defineSetter__"; "__lookupGetter__"; "__lookupSetter__" ].

(** [Math.round(n / d)] for integers [n] and a positive [d]: the nearest
    integer, halves going up. *)
Definition roundDiv (n d : Z) : Z := (2 * n + d) / (2 * d).

(** The comparator insertion underlying [sort]: [x] comes before the first
    element it does not compare greater than. *)
Fixpoint sortInsert {A} (cmp : A -> A -> Z) (x : A) (l : list A) : list A :=
  match l with
  | [] => [x]
  | y :: l' => if cmp x y <=? 0 then x :: y :: l' else y :: sortInsert cmp x l'
  end.

(** [l.sort(cmp)]: the sort is stable ([x] is inserted in front of the
    elements that followed it and compare equal); for a comparator that
    orders by a key, every stable sort returns this list. *)
Fixpoint sort {A} (cmp : A -> A -> Z) (l : list A) : list A :=
  match l with
  | [] => []
  | x :: l' => sortInsert cmp x (sort cmp l')
  end.

End Js.

(** ** Data model (types/index.ts, as used by the renderers) *)

Inductive Category : Type :=
  | shell | write | edit | read | grep | glob | search | fetch | task | ask | mcp.

#[global] Instance Category_eq_dec : EqDecision Category.
Proof. solve_decision. Defined.

Record DiffStats : Type := { added : Z; removed : Z }.

(** The tagged union of structured payloads: the constructor is the
    [category] tag. *)
Inductive StructuredToolSample : Type :=
  | ShellSample (command : string) (exitCode : option Z) (errored : bool)
      (stdoutTail errorMessage : option string)
  | WriteSample (filePath : string) (isNewFile : bool) (diff : option string)
      (diffStats : option DiffStats)
  | EditSample (filePath : string) (diff : option string)
      (diffStats : option DiffStats)
  | ReadSample (filePath : string) (lineStart lineEnd : option Z)
  | GrepSample (pattern : string) (targetPath : option string)
      (matchCount : option Z)
  | GlobSample (pattern : string) (resultCount : option Z)
  | SearchSample (query : string) (resultCount : option Z)
  | FetchSample (url : string) (resultPreview : option string)
  | TaskSample (description : string) (agentType resultSummary : option string)
  | AskSample (question : string)
  | McpSample (toolName : string) (params result : option string).

Definition category (d : StructuredToolSample) : Category :=
  match d with
  | ShellSample _ _ _ _ _ => shell
  | WriteSample _ _ _ _ => write
  | EditSample _ _ _ => edit
  | ReadSample _ _ _ => read
  | GrepSample _ _ _ => grep
  | GlobSample _ _ => glob
  | SearchSample _ _ => search
  | FetchSample _ _ => fetch
  | TaskSample _ _ _ => task
  | AskSample _ => ask
  | McpSample _ _ _ => mcp
  end.

Record ToolSample : Type := { summary : string; data : option StructuredToolSample }.

Record ToolUsageSummary : Type := {
  name : string;
  count : Z;
  errorCount : option Z;
  samples : list ToolSample
}.

(** ** Display caps *)

Record DisplayCaps : Type := {
  shellDetailed : Z;
  shellStdoutLines : Z;
  writeEditDetailed : Z;
  writeEditDiffLines : Z;
  readEntries : Z;
  grepGlobSearchFetch : Z;
  mcpTaskAsk : Z
}.

Definition INLINE_CAPS : DisplayCaps := {|
  shellDetailed := 5;
  shellStdoutLines := 3;
  writeEditDetailed := 3;
  writeEditDiffLines := 50;
  readEntries := 15;
  grepGlobSearchFetch := 8;
  mcpTaskAsk := 3
|}.

Definition REFERENCE_CAPS : DisplayCaps := {|
  shellDetailed := 8;
  shellStdoutLines := 5;
  writeEditDetailed := 5;
  writeEditDiffLines := 200;
  readEntries := 20;
  grepGlobSearchFetch := 10;
  mcpTaskAsk := 5
|}.

(** ** Renderers *)

(** [lines.push(...items)] *)
Definition push (lines items : list string) : list string := lines ++ items.

(** [for (const x of xs) lines.push(...body(x))] *)
Definition pushEach {A} (body : A -> list string) (xs : list A)
    (lines : list string) : list string :=
  fold_left (fun acc x => push acc (body x)) xs lines.

(** [if (c) { body }] for a body that only pushes to [lines]. *)
Definition whenDo (c : bool) (body : list string -> list string)
    (lines : list string) : list string :=
  if c then body lines else lines.

(** [if (o) { body }] for an optional object [o] that the body reads. *)
Definition whenSome {A} (o : option A) (body : A -> list string -> list string)
    (lines : list string) : list string :=
  match o with
  | Some x => body x lines
  | None => lines
  end.

(** [tool.errorCount ? `, ${tool.errorCount} errors` : ''] *)
Definition errorStr (tool : ToolUsageSummary) : string :=
  if Js.truthyNum (errorCount tool)
  then ", " +:+ Js.num (default 0 (errorCount tool)) +:+ " errors"
  else EmptyString.

(** The fenced block of [renderShellSample], written out twice there, once
    for the stdout tail and once for the error message: [`> ${l}`] for each
    of the first [maxLines] lines of [text], between two fence lines. *)
Definition fencedLines (fence text : string) (maxLines : Z) : list string :=
  let shown := Js.slice 0 (Some maxLines) (Js.split Js.nl text) in
  let lines := [fence] in
  let lines := pushEach (fun l => ["> " +:+ l]) shown lines in
  push lines ["> ```"].

Definition renderShellSample (sample : ToolSample) (maxStdoutLines : Z) : list string :=
  match data sample with
  | Some (ShellSample command exitCode errored stdoutTail errorMessage) =>
      let lines := ["> `$ " +:+ command +:+ "`"] in
      let lines :=
        match exitCode with
        | Some code =>
            let errorTag := if errored then "  **[ERROR]**" else EmptyString in
            push lines ["> Exit: " +:+ Js.num code +:+ errorTag]
        | None => lines
        end in
      let lines :=
        if Js.truthy stdoutTail
        then push lines (fencedLines "> ```" (default EmptyString stdoutTail) maxStdoutLines)
        else if errored && Js.truthy errorMessage
        then push lines (fencedLines "> ```" (default EmptyString errorMessage) maxStdoutLines)
        else lines in
      push lines [EmptyString]
  | _ => ["> `" +:+ summary sample +:+ "`"; EmptyString]
  end.

Definition renderShellSection (tool : ToolUsageSummary) (caps : DisplayCaps) : list string :=
  let lines := ["### Shell (" +:+ Js.num (count tool) +:+ " calls" +:+ errorStr tool +:+ ")"; EmptyString] in
  let detailed := Js.slice 0 (Some (shellDetailed caps)) (samples tool) in
  let lines := pushEach (fun sample => renderShellSample sample (shellStdoutLines caps)) detailed lines in
  let remaining := count tool - Z.of_nat (length detailed) in
  if 0 <? remaining
  then
    let allOk := if negb (Js.truthyNum (errorCount tool)) then " (all exit 0)" else EmptyString in
    push (push lines ["*...and " +:+ Js.num remaining +:+ " more shell calls" +:+ allOk +:+ "*"])
         [EmptyString]
  else lines.

(** [` (+${added} -${removed})`] of the overflow file lists. *)
Definition overflowStats (st : option DiffStats) : string :=
  match st with
  | Some s => " (+" +:+ Js.num (added s) +:+ " -" +:+ Js.num (removed s) +:+ ")"
  | None => EmptyString
  end.

(** [l => !l.startsWith('---') && !l.startsWith('+++')] *)
Definition isDiffBodyLine (l : string) : bool :=
  negb (Js.startsWith l "---") && negb (Js.startsWith l "+++").

(** The [if (d.diff) { ... }] block shared verbatim by the write and the
    edit sample renderers. *)
Definition pushDiff (diff : option string) (maxDiffLines : Z) (lines : list string) : list string :=
  if Js.truthy diff
  then
    let diffLines := Js.split Js.nl (default EmptyString diff) in
    let bodyLines := List.filter isDiffBodyLine diffLines in
    let capped := Js.slice 0 (Some maxDiffLines) bodyLines in
    let lines := push lines ["> ```diff"] in
    let lines := pushEach (fun dl => ["> " +:+ dl]) capped lines in
    let lines := push lines ["> ```"] in
    let truncated := Z.of_nat (length bodyLines) - Z.of_nat (length capped) in
    if 0 <? truncated
    then push lines ["> *+" +:+ Js.num truncated +:+ " lines truncated*"]
    else lines
  else lines.

Definition renderWriteSample (sample : ToolSample) (maxDiffLines : Z) : list string :=
  match data sample with
  | Some (WriteSample filePath isNewFile diff diffStats) =>
      let newTag := if isNewFile then " (new file)" else EmptyString in
      let statsTag :=
        match diffStats with
        | Some st => " (+" +:+ Js.num (added st) +:+ " lines)"
        | None => EmptyString
        end in
      let lines := ["> **`" +:+ filePath +:+ "`**" +:+ newTag +:+ statsTag] in
      let lines := pushDiff diff maxDiffLines lines in
      push lines [EmptyString]
  | _ => ["> `" +:+ summary sample +:+ "`"; EmptyString]
  end.

Definition renderEditSample (sample : ToolSample) (maxDiffLines : Z) : list string :=
  match data sample with
  | Some (EditSample filePath diff diffStats) =>
      let statsTag :=
        match diffStats with
        | Some st =>
            " (+" +:+ Js.num (added st) +:+ " -" +:+ Js.num (removed st) +:+ " lines)"
        | None => EmptyString
        end in
      let lines := ["> **`" +:+ filePath +:+ "`**" +:+ statsTag] in
      let lines := pushDiff diff maxDiffLines lines in
      push lines [EmptyString]
  | _ => ["> `" +:+ summary sample +:+ "`"; EmptyString]
  end.

(** The file-list entry of a sample beyond the detailed cap, when it has one. *)
Definition writeOverflowEntry (sample : ToolSample) : list string :=
  match data sample with
  | Some (WriteSample filePath _ _ diffStats) => ["`" +:+ filePath +:+ "`" +:+ overflowStats diffStats]
  | _ => []
  end.

Definition editOverflowEntry (sample : ToolSample) : list string :=
  match data sample with
  | Some (EditSample filePath _ diffStats) => ["`" +:+ filePath +:+ "`" +:+ overflowStats diffStats]
  | _ => []
  end.

(** [overflow.length > 0 ? `: ${overflow.join(', ')}` : ''] *)
Definition fileList (overflow : list string) : string :=
  match overflow with
  | [] => EmptyString
  | _ => ": " +:+ Js.join ", " overflow
  end.

Definition renderWriteSection (tool : ToolUsageSummary) (caps : DisplayCaps) : list string :=
  let lines := ["### Write (" +:+ Js.num (count tool) +:+ " calls" +:+ errorStr tool +:+ ")"; EmptyString] in
  let detailed := Js.slice 0 (Some (writeEditDetailed caps)) (samples tool) in
  let lines := pushEach (fun sample => renderWriteSample sample (writeEditDiffLines caps)) detailed lines in
  let overflow := pushEach writeOverflowEntry (Js.slice (writeEditDetailed caps) None (samples tool)) [] in
  let remaining := count tool - Z.of_nat (length detailed) in
  if 0 <? remaining
  then push (push lines ["*...and " +:+ Js.num remaining +:+ " more writes" +:+ fileList overflow +:+ "*"])
            [EmptyString]
  else lines.

Definition renderEditSection (tool : ToolUsageSummary) (caps : DisplayCaps) : list string :=
  let lines := ["### Edit (" +:+ Js.num (count tool) +:+ " calls" +:+ errorStr tool +:+ ")"; EmptyString] in
  let detailed := Js.slice 0 (Some (writeEditDetailed caps)) (samples tool) in
  let lines := pushEach (fun sample => renderEditSample sample (writeEditDiffLines caps)) detailed lines in
  let overflow := pushEach editOverflowEntry (Js.slice (writeEditDetailed caps) None (samples tool)) [] in
  let remaining := count tool - Z.of_nat (length detailed) in
  if 0 <? remaining
  then push (push lines ["*...and " +:+ Js.num remaining +:+ " more edits" +:+ fileList overflow +:+ "*"])
            [EmptyString]
  else lines.

Definition renderReadEntry (sample : ToolSample) : list string :=
  match data sample with
  | Some (ReadSample filePath lineStart lineEnd) =>
      let range :=
        if Js.truthyNum lineStart && Js.truthyNum lineEnd
        then " (lines " +:+ Js.num (default 0 lineStart) +:+ "-" +:+ Js.num (default 0 lineEnd) +:+ ")"
        else if Js.truthyNum lineStart
        then " (from line " +:+ Js.num (default 0 lineStart) +:+ ")"
        else EmptyString in
      ["- `" +:+ filePath +:+ "`" +:+ range]
  | _ => ["- `" +:+ summary sample +:+ "`"]
  end.

Definition renderReadSection (tool : ToolUsageSummary) (caps : DisplayCaps) : list string :=
  let lines := ["### Read (" +:+ Js.num (count tool) +:+ " calls" +:+ errorStr tool +:+ ")"; EmptyString] in
  let shown := Js.slice 0 (Some (readEntries caps)) (samples tool) in
  let lines := pushEach renderReadEntry shown lines in
  let remaining := count tool - Z.of_nat (length shown) in
  let lines :=
    if 0 <? remaining
    then push lines ["- *...and " +:+ Js.num remaining +:+ " more files read*"]
    else lines in
  push lines [EmptyString].

Definition renderGrepEntry (sample : ToolSample) : list string :=
  match data sample with
  | Some (GrepSample pattern targetPath matchCount) =>
      let path := if Js.truthy targetPath then " in `" +:+ default EmptyString targetPath +:+ "`" else EmptyString in
      let cnt :=
        match matchCount with
        | Some n => " — " +:+ Js.num n +:+ " matches"
        | None => EmptyString
        end in
      ["- `" +:+ Js.dq +:+ pattern +:+ Js.dq +:+ "`" +:+ path +:+ cnt]
  | _ => ["- `" +:+ summary sample +:+ "`"]
  end.

Definition renderGrepSection (tool : ToolUsageSummary) (caps : DisplayCaps) : list string :=
  let lines := ["### Grep (" +:+ Js.num (count tool) +:+ " calls" +:+ errorStr tool +:+ ")"; EmptyString] in
  let shown := Js.slice 0 (Some (grepGlobSearchFetch caps)) (samples tool) in
  let lines := pushEach renderGrepEntry shown lines in
  let remaining := count tool - Z.of_nat (length shown) in
  let lines :=
    if 0 <? remaining
    then push lines ["- *...and " +:+ Js.num remaining +:+ " more grep searches*"]
    else lines in
  push lines [EmptyString].

Definition renderGlobEntry (sample : ToolSample) : list string :=
  match data sample with
  | Some (GlobSample pattern resultCount) =>
      let cnt :=
        match resultCount with
        | Some n => " — " +:+ Js.num n +:+ " files"
        | None => EmptyString
        end in
      ["- `" +:+ pattern +:+ "`" +:+ cnt]
  | _ => ["- `" +:+ summary sample +:+ "`"]
  end.

Definition renderGlobSection (tool : ToolUsageSummary) (caps : DisplayCaps) : list string :=
  let lines := ["### Glob (" +:+ Js.num (count tool) +:+ " calls" +:+ errorStr tool +:+ ")"; EmptyString] in
  let shown := Js.slice 0 (Some (grepGlobSearchFetch caps)) (samples tool) in
  let lines := pushEach renderGlobEntry shown lines in
  let remaining := count tool - Z.of_nat (length shown) in
  let lines :=
    if 0 <? remaining
    then push lines ["- *...and " +:+ Js.num remaining +:+ " more glob calls*"]
    else lines in
  push lines [EmptyString].

(** [COMPACT_LABELS[category]] *)
Definition COMPACT_LABELS (c : Category) : option string :=
  match c with
  | search => Some "Search"
  | fetch => Some "Fetch"
  | task => Some "Task"
  | ask => Some "Ask"
  | mcp => Some "MCP"
  | _ => None
  end.

Definition formatCompactSample (sample : ToolSample) (cat : Category) : string :=
  match data sample with
  | None => "`" +:+ summary sample +:+ "`"
  | Some (SearchSample query resultCount) =>
      let countStr :=
        match resultCount with
        | Some n => " — " +:+ Js.num n +:+ " results"
        | None => EmptyString
        end in
      Js.dq +:+ query +:+ Js.dq +:+ countStr
  | Some (FetchSample url resultPreview) =>
      let preview :=
        if Js.truthy resultPreview
        then " — " +:+ Js.dq +:+ default EmptyString resultPreview +:+ "..." +:+ Js.dq
        else EmptyString in
      "`" +:+ url +:+ "`" +:+ preview
  | Some (TaskSample description agentType resultSummary) =>
      let agentStr :=
        if Js.truthy agentType
        then " (type: `" +:+ default EmptyString agentType +:+ "`)"
        else EmptyString in
      let resultStr :=
        if Js.truthy resultSummary
        then " — " +:+ Js.dq +:+ default EmptyString resultSummary +:+ Js.dq
        else EmptyString in
      Js.dq +:+ description +:+ Js.dq +:+ agentStr +:+ resultStr
  | Some (AskSample question) => Js.dq +:+ question +:+ Js.dq
  | Some (McpSample toolName params result) =>
      let paramsStr :=
        if Js.truthy params then "(" +:+ default EmptyString params +:+ ")" else EmptyString in
      let resultStr :=
        if Js.truthy result
        then " — " +:+ Js.dq +:+ default EmptyString result +:+ Js.dq
        else EmptyString in
      "`" +:+ toolName +:+ paramsStr +:+ "`" +:+ resultStr
  | Some _ => "`" +:+ summary sample +:+ "`"
  end.

(** [['search', 'fetch'].includes(category) ? caps.grepGlobSearchFetch : caps.mcpTaskAsk] *)
Definition compactCap (cat : Category) (caps : DisplayCaps) : Z :=
  match cat with
  | search | fetch => grepGlobSearchFetch caps
  | _ => mcpTaskAsk caps
  end.

Definition renderCompactSection (tool : ToolUsageSummary) (cat : Category)
    (caps : DisplayCaps) : list string :=
  let label := if Js.truthy (COMPACT_LABELS cat) then default EmptyString (COMPACT_LABELS cat) else name tool in
  let lines := ["### " +:+ label +:+ " (" +:+ Js.num (count tool) +:+ " calls" +:+ errorStr tool +:+ ")"; EmptyString] in
  let cap := compactCap cat caps in
  let shown := Js.slice 0 (Some cap) (samples tool) in
  let lines := pushEach (fun sample => ["- " +:+ formatCompactSample sample cat]) shown lines in
  let remaining := count tool - Z.of_nat (length shown) in
  let lines :=
    if 0 <? remaining
    then push lines ["- *...and " +:+ Js.num remaining +:+ " more*"]
    else lines in
  push lines [EmptyString].

Definition renderFallbackSection (tool : ToolUsageSummary) : list string :=
  let lines := ["### " +:+ name tool +:+ " (" +:+ Js.num (count tool) +:+ " calls)"; EmptyString] in
  let lines := pushEach (fun sample => ["- `" +:+ summary sample +:+ "`"])
                        (Js.slice 0 (Some 5) (samples tool)) lines in
  let remaining := count tool - Z.min (Z.of_nat (length (samples tool))) 5 in
  let lines :=
    if 0 <? remaining
    then push lines ["- *...and " +:+ Js.num remaining +:+ " more*"]
    else lines in
  push lines [EmptyString].

(** ** Session data read by the assembler *)

Record UnifiedSession : Type := {
  id : string;
  source : string;
  cwd : string;
  repo : option string;
  branch : option string;
  (** [session.updatedAt.toISOString()], for a valid date *)
  updatedAtISO : string;
  sessionSummary : option string;
  model : option string
}.

Inductive Role : Type := user | assistant.

Record ConversationMessage : Type := { role : Role; content : string }.

Record TokenUsage : Type := { input : Z; output : Z }.

Record CacheTokens : Type := { cacheRead : Z; cacheCreation : Z }.

Record SessionNotes : Type := {
  notesModel : option string;
  tokenUsage : option TokenUsage;
  cacheTokens : option CacheTokens;
  thinkingTokens : option Z;
  activeTimeMs : option Z;
  reasoning : option (list string);
  compactSummary : option string
}.

(** [sessionNotes?.field] for an optional [sessionNotes]. *)
Definition notesField {A} (f : SessionNotes -> option A) (notes : option SessionNotes) : option A :=
  match notes with
  | Some n => f n
  | None => None
  end.

(** What [getCategoryOrder] returns: a number, or a member of
    [Object.prototype] (a function, or the prototype itself), which is not
    a number. *)
Inductive Priority : Type :=
  | Rank (p : Z)
  | Member.

(** Whether what [getCategoryOrder] returns is a number. *)
Definition isRank (v : Priority) : bool :=
  match v with
  | Rank _ => true
  | Member => false
  end.

#[global] Instance Priority_eq_dec : EqDecision Priority.
Proof. solve_decision. Defined.

(** ** Taxonomy, grouping and assembly *)

Section Engine.

(** The canonical tool-name sets of types/tool-names.ts, each in its
    iteration order, and the classifier built from them. *)
Variables SHELL_TOOLS READ_TOOLS WRITE_TOOLS EDIT_TOOLS GREP_TOOLS GLOB_TOOLS
  SEARCH_TOOLS FETCH_TOOLS TASK_TOOLS TASK_OUTPUT_TOOLS ASK_TOOLS : list string.
Variable classifyToolName : string -> option Category.

(** [n.toLocaleString()], which depends on the host locale. *)
Variable toLocaleString : Z -> string.

(** [Object.values(adapters)] as (name, label) pairs. *)
Variable adapters : list (string * string).

(** [Array.prototype.sort] of the host under the comparator of
    [renderToolActivity], for the lists on which that comparator yields NaN:
    it is then not a consistent comparator and the language leaves the order
    to the implementation. *)
Variable hostSort : list ToolUsageSummary -> list ToolUsageSummary.

(** [Object.fromEntries(...)]: a later entry with the same key wins. *)
Definition getSourceLabels : gmap string string :=
  fold_left (fun labels a => <[fst a := snd a]> labels) adapters ∅.

Definition categoryMapping : list (list string * Z) :=
  [ (SHELL_TOOLS, 0); (WRITE_TOOLS, 1); (EDIT_TOOLS, 2); (READ_TOOLS, 3);
    (GREP_TOOLS, 4); (GLOB_TOOLS, 5); (SEARCH_TOOLS, 6); (FETCH_TOOLS, 7);
    (TASK_TOOLS, 8); (TASK_OUTPUT_TOOLS, 8); (ASK_TOOLS, 9) ].

(** [for (const name of set) order[name] = priority] on the plain object
    [order], of which the map holds the own properties: the assignment makes
    one, but for the name [__proto__], whose setter ignores a number. *)
Definition assignPriority (order : gmap string Z) (entry : list string * Z) : gmap string Z :=
  fold_left
    (fun order name =>
       if String.eqb name "__proto__" then order else <[name := snd entry]> order)
    (fst entry) order.

Definition buildCategoryOrder : gmap string Z :=
  fold_left assignPriority categoryMapping ∅.

Definition CATEGORY_ORDER : gmap string Z := buildCategoryOrder.

(** [CATEGORY_ORDER[name] ?? 10]: the own property of that name; without
    one, the member of [Object.prototype] of that name, which is neither
    null nor undefined; without either, 10. *)
Definition getCategoryOrder (name : string) : Priority :=
  match CATEGORY_ORDER !! name with
  | Some p => Rank p
  | None => if bool_decide (name ∈ Js.objectPrototypeKeys) then Member else Rank 10
  end.

(** [getCategoryOrder(a.name) - getCategoryOrder(b.name)]: a number when
    both are numbers, NaN ([None]) when one is a function or an object. *)
Definition comparePriority (a b : ToolUsageSummary) : option Z :=
  match getCategoryOrder (name a), getCategoryOrder (name b) with
  | Rank x, Rank y => Some (x - y)
  | _, _ => None
  end.

Definition detectCategory (tool : ToolUsageSummary) : Category :=
  match head (samples tool) ≫= data with
  | Some firstData => category firstData
  | None => default mcp (classifyToolName (name tool))
  end.

(** *** MCP namespace grouping *)

Definition MCP_GROUP_SAMPLE_CAP : Z := 5.

(** [if (!nsGroups.has(ns)) nsGroups.set(ns, []); nsGroups.get(ns).push(tool)]
    on a [Map] kept in insertion order. *)
Fixpoint nsGroupsPush (ns : string) (tool : ToolUsageSummary)
    (nsGroups : list (string * list ToolUsageSummary)) : list (string * list ToolUsageSummary) :=
  match nsGroups with
  | [] => [(ns, [tool])]
  | (k, tools) :: rest =>
      if String.eqb k ns then (k, tools ++ [tool]) :: rest
      else (k, tools) :: nsGroupsPush ns tool rest
  end.

(** One iteration of the first loop over [summaries]. *)
Definition groupStep (st : list ToolUsageSummary * list (string * list ToolUsageSummary))
    (tool : ToolUsageSummary) : list ToolUsageSummary * list (string * list ToolUsageSummary) :=
  let '(result, nsGroups) := st in
  let cat := detectCategory tool in
  if negb (bool_decide (cat = mcp)) || negb (Js.startsWith (name tool) "mcp__")
  then (result ++ [tool], nsGroups)
  else
    let parts := Js.split "__" (name tool) in
    if Z.of_nat (length parts) <? 3
    then (result ++ [tool], nsGroups)
    else
      let ns := nth 1 parts EmptyString in
      (result, nsGroupsPush ns tool nsGroups).

(** The sample-merging loops of one group. *)
Definition mergeSamples (tools : list ToolUsageSummary) : list ToolSample :=
  fold_left
    (fun mergedSamples t =>
       fold_left
         (fun mergedSamples s =>
            if Z.of_nat (length mergedSamples) <? MCP_GROUP_SAMPLE_CAP
            then mergedSamples ++ [s] else mergedSamples)
         (samples t) mergedSamples)
    tools [].

(** One iteration of the second loop, over the entries of [nsGroups]. *)
Definition mergeStep (result : list ToolUsageSummary)
    (entry : string * list ToolUsageSummary) : list ToolUsageSummary :=
  let '(ns, tools) := entry in
  match tools with
  | [only] => result ++ [only]
  | _ =>
      let totalCount := fold_left (fun s t => s + count t) tools 0 in
      let totalErrors := fold_left (fun s t => s + Js.orNum (errorCount t) 0) tools 0 in
      let mergedSamples := mergeSamples tools in
      result ++ [ {| name := "MCP: " +:+ ns;
                     count := totalCount;
                     errorCount := if 0 <? totalErrors then Some totalErrors else None;
                     samples := mergedSamples |} ]
  end.

Definition groupMcpByNamespace (summaries : list ToolUsageSummary) : list ToolUsageSummary :=
  let '(result, nsGroups) := fold_left groupStep summaries ([], []) in
  fold_left mergeStep nsGroups result.

(** *** Tool Activity *)

(** The [switch (category)] of [renderToolActivity]; its [default] branch,
    [renderFallbackSection], is not reached by a category of the union. *)
Definition renderTool (tool : ToolUsageSummary) (caps : DisplayCaps) : list string :=
  let cat := detectCategory tool in
  match cat with
  | shell => renderShellSection tool caps
  | write => renderWriteSection tool caps
  | edit => renderEditSection tool caps
  | read => renderReadSection tool caps
  | grep => renderGrepSection tool caps
  | glob => renderGlobSection tool caps
  | search | fetch | task | ask | mcp => renderCompactSection tool cat caps
  end.

(** [[...grouped].sort((a, b) => getCategoryOrder(a.name) - getCategoryOrder(b.name))]:
    when every priority is a number the comparator orders by a key and the
    sort, which is stable, returns the list of [Js.sort]; a list of fewer
    than two elements is never compared; otherwise a comparison yields NaN
    and the order is the host's. *)
Definition sortByCategoryOrder (grouped : list ToolUsageSummary) : list ToolUsageSummary :=
  if forallb (fun t => isRank (getCategoryOrder (name t))) grouped
  then Js.sort (fun a b => default 0 (comparePriority a b)) grouped
  else if Z.of_nat (length grouped) <? 2 then grouped
  else hostSort grouped.

Definition renderToolActivity (toolSummaries : list ToolUsageSummary)
    (caps : DisplayCaps) : list string :=
  let grouped := groupMcpByNamespace toolSummaries in
  let sorted := sortByCategoryOrder grouped in
  pushEach (fun tool => push (renderTool tool caps) [EmptyString]) sorted [].

(** *** Document assembly *)

(** [mode === 'reference' ? REFERENCE_CAPS : INLINE_CAPS], on the run-time
    value of [mode]. *)
Definition selectCaps (mode : string) : DisplayCaps :=
  if String.eqb mode "reference" then REFERENCE_CAPS else INLINE_CAPS.

Definition closingSentence : string :=
  "**You are continuing this session. Pick up exactly where it left off — review the conversation above, check pending tasks, and keep going.**".

(** The [lines] array of [generateHandoffMarkdown] when it is joined. *)
Definition generateHandoffLines (session : UnifiedSession)
    (messages : list ConversationMessage) (filesModified pendingTasks : list string)
    (toolSummaries : list ToolUsageSummary) (sessionNotes : option SessionNotes)
    (mode : string) : list string :=
  let labels := getSourceLabels in
  let sourceLabel :=
    if Js.truthy (labels !! source session)
    then default EmptyString (labels !! source session) else source session in
  let lines :=
    [ "# Session Handoff Context"; EmptyString; EmptyString;
      "## Session Overview"; EmptyString;
      "| Field | Value |";
      "|-------|-------|";
      "| **Source** | " +:+ sourceLabel +:+ " |";
      "| **Session ID** | `" +:+ id session +:+ "` |";
      "| **Working Directory** | `" +:+ cwd session +:+ "` |" ] in
  let lines :=
    whenDo (Js.truthy (repo session))
      (fun lines =>
         push lines
           [ "| **Repository** | " +:+ default EmptyString (repo session) +:+
             (if Js.truthy (branch session)
              then " @ `" +:+ default EmptyString (branch session) +:+ "`"
              else EmptyString) +:+ " |" ])
      lines in
  let lines :=
    whenDo (Js.truthy (model session))
      (fun lines => push lines ["| **Model** | " +:+ default EmptyString (model session) +:+ " |"])
      lines in
  let lines :=
    whenDo (Js.truthy (notesField notesModel sessionNotes)
            && negb (bool_decide (notesField notesModel sessionNotes = model session)))
      (fun lines =>
         push lines ["| **Model** | " +:+ default EmptyString (notesField notesModel sessionNotes) +:+ " |"])
      lines in
  let lines :=
    push lines
      [ "| **Last Active** | " +:+
        Js.replaceChar "T" " " (Js.strSlice 0 (Some 16) (updatedAtISO session)) +:+ " |" ] in
  let lines :=
    whenSome (notesField tokenUsage sessionNotes)
      (fun u lines =>
         push lines
           [ "| **Tokens Used** | " +:+ toLocaleString (input u) +:+ " in / " +:+
             toLocaleString (output u) +:+ " out |" ])
      lines in
  let lines :=
    whenSome (notesField cacheTokens sessionNotes)
      (fun c lines =>
         push lines
           [ "| **Cache Tokens** | " +:+ toLocaleString (cacheRead c) +:+ " read / " +:+
             toLocaleString (cacheCreation c) +:+ " created |" ])
      lines in
  let lines :=
    whenDo (Js.truthyNum (notesField thinkingTokens sessionNotes))
      (fun lines =>
         push lines
           [ "| **Thinking Tokens** | " +:+
             toLocaleString (default 0 (notesField thinkingTokens sessionNotes)) +:+ " |" ])
      lines in
  let lines :=
    whenDo (Js.truthyNum (notesField activeTimeMs sessionNotes))
      (fun lines =>
         let mins := Js.roundDiv (default 0 (notesField activeTimeMs sessionNotes)) 60000 in
         push lines ["| **Active Time** | " +:+ Js.num mins +:+ " min |"])
      lines in
  let lines := push lines ["| **Files Modified** | " +:+ Js.num (Z.of_nat (length filesModified)) +:+ " |"] in
  let lines := push lines ["| **Messages** | " +:+ Js.num (Z.of_nat (length messages)) +:+ " |"] in
  let lines := push lines [EmptyString] in
  let lines := push lines [EmptyString] in
  let lines :=
    whenDo (Js.truthy (sessionSummary session))
      (fun lines =>
         let lines := push lines ["## Summary"] in
         let lines := push lines [EmptyString] in
         let lines := push lines ["> " +:+ default EmptyString (sessionSummary session)] in
         let lines := push lines [EmptyString] in
         push lines [EmptyString])
      lines in
  let lines :=
    whenDo (Js.truthy (notesField compactSummary sessionNotes))
      (fun lines =>
         let lines := push lines ["## Session Context (Compacted)"] in
         let lines := push lines [EmptyString] in
         let lines := push lines ["> " +:+ default EmptyString (notesField compactSummary sessionNotes)] in
         let lines := push lines [EmptyString] in
         push lines [EmptyString])
      lines in
  let lines :=
    whenDo (0 <? Z.of_nat (length toolSummaries))
      (fun lines =>
         let caps := selectCaps mode in
         let lines := push lines ["## Tool Activity"] in
         let lines := push lines [EmptyString] in
         let lines := push lines (renderToolActivity toolSummaries caps) in
         push lines [EmptyString])
      lines in
  let lines :=
    whenDo (0 <? Z.of_nat (length (default [] (notesField reasoning sessionNotes))))
      (fun lines =>
         let lines := push lines ["## Key Decisions"] in
         let lines := push lines [EmptyString] in
         let lines :=
           pushEach (fun thought => ["- " +:+ thought])
             (Js.slice 0 (Some 5) (default [] (notesField reasoning sessionNotes))) lines in
         let lines := push lines [EmptyString] in
         push lines [EmptyString])
      lines in
  let recentMessages := Js.slice (-10) None messages in
  let lines :=
    whenDo (0 <? Z.of_nat (length recentMessages))
      (fun lines =>
         let lines := push lines ["## Recent Conversation"] in
         let lines := push lines [EmptyString] in
         let lines :=
           pushEach
             (fun msg =>
                let roleName := match role msg with user => "User" | assistant => "Assistant" end in
                [ "### " +:+ roleName; EmptyString;
                  Js.strSlice 0 (Some 500) (content msg) +:+
                  (if 500 <? Js.strLength (content msg) then "…" else EmptyString);
                  EmptyString ])
             recentMessages lines in
         push lines [EmptyString])
      lines in
  let lines :=
    whenDo (0 <? Z.of_nat (length filesModified))
      (fun lines =>
         let lines := push lines ["## Files Modified"] in
         let lines := push lines [EmptyString] in
         let lines := pushEach (fun file => ["- `" +:+ file +:+ "`"]) filesModified lines in
         let lines := push lines [EmptyString] in
         push lines [EmptyString])
      lines in
  let lines :=
    whenDo (0 <? Z.of_nat (length pendingTasks))
      (fun lines =>
         let lines := push lines ["## Pending Tasks"] in
         let lines := push lines [EmptyString] in
         let lines := pushEach (fun t => ["- [ ] " +:+ t]) pendingTasks lines in
         let lines := push lines [EmptyString] in
         push lines [EmptyString])
      lines in
  let lines := push lines ["---"] in
  let lines := push lines [EmptyString] in
  push lines [closingSentence].

Definition generateHandoffMarkdown (session : UnifiedSession)
    (messages : list ConversationMessage) (filesModified pendingTasks : list string)
    (toolSummaries : list ToolUsageSummary) (sessionNotes : option SessionNotes)
    (mode : string) : string :=
  Js.join Js.nl
    (generateHandoffLines session messages filesModified pendingTasks toolSummaries
       sessionNotes mode).

End Engine.

(** * Vocabulary of the properties *)

(** ** Count conservation *)

(** The two shapes of an overflow line. *)
Definition isOverflowLine (l : string) : bool :=
  Js.startsWith l "*...and " || Js.startsWith l "- *...and ".

(** The layout of a section: one line for each sample it shows, or one
    quoted block for each. *)
Inductive Layout : Type :=
  | lineLayout
  | blockLayout.

Definition isQuotedLine (l : string) : bool := Js.startsWith l "> ".

(** A line that stands for a sample shown in a list: it starts with [- ]
    and is not an overflow line. *)
Definition isEntryLine (l : string) : bool :=
  Js.startsWith l "- " && negb (isOverflowLine l).

(** The number of quoted blocks of [out], its maximal runs of quoted lines;
    [inBlock] tells whether the line before [out] was quoted. *)
Fixpoint countBlocksFrom (inBlock : bool) (out : list string) : nat :=
  match out with
  | [] => 0
  | l :: rest =>
      if isQuotedLine l
      then (if inBlock then 0 else 1) + countBlocksFrom true rest
      else countBlocksFrom false rest
  end.

(** The number of samples a section shows in detail, read off its lines. *)
Definition entriesShown (layout : Layout) (out : list string) : Z :=
  match layout with
  | lineLayout => Z.of_nat (length (List.filter isEntryLine out))
  | blockLayout => Z.of_nat (countBlocksFrom false out)
  end.

(** The lines of one sample shown in detail: one entry line, or one or more
    quoted lines closed by an empty line. *)
Definition isEntry (layout : Layout) (ls : list string) : Prop :=
  match layout with
  | lineLayout =>
      exists text, ls = ["- " +:+ text] /\ isOverflowLine ("- " +:+ text) = false
  | blockLayout =>
      exists block,
        ls = block ++ [EmptyString] /\ block <> []
        /\ Forall (fun l => isQuotedLine l = true) block
  end.

(** [out], the rendering of [tool] under the detailed cap [cap], shows the
    first [min(samples.length, cap)] samples through [detail], each as one
    entry of the section's layout, so that the entries of [out] number
    [min(samples.length, cap)], and accounts for the rest of [count] in one
    overflow line, which is there only when something is left to account
    for. *)
Definition conserves (tool : ToolUsageSummary) (cap : Z) (layout : Layout)
    (detail : ToolSample -> list string) (out : list string) : Prop :=
  let shown := Z.min (Z.of_nat (length (samples tool))) cap in
  let detailed := take (Z.to_nat shown) (samples tool) in
  exists heading overflow trail,
    out = heading ++ flat_map detail detailed ++ overflow ++ trail
    /\ (forall sample, isEntry layout (detail sample))
    /\ entriesShown layout out = shown
    /\ List.filter isOverflowLine out = overflow
    /\ (shown < count tool ->
        exists pre post,
          overflow = [pre +:+ Js.num (count tool - shown) +:+ post]
          /\ (pre = "*...and " \/ pre = "- *...and ")
          /\ Js.startsWith post " more" = true)
    /\ (shown = count tool -> overflow = []).

Definition nonnegCaps (caps : DisplayCaps) : Prop :=
  0 <= shellDetailed caps /\ 0 <= shellStdoutLines caps /\
  0 <= writeEditDetailed caps /\ 0 <= writeEditDiffLines caps /\
  0 <= readEntries caps /\ 0 <= grepGlobSearchFetch caps /\ 0 <= mcpTaskAsk caps.

(** A line that is not an overflow line. *)
Definition plainLine (l : string) : Prop := isOverflowLine l = false.

(** A line of the frame of a section, its heading and its closing empty
    line: neither an overflow line, nor the line of a list entry, nor a
    quoted line. *)
Definition frameLine (l : string) : Prop :=
  negb (isOverflowLine l) && negb (Js.startsWith l "- ") && negb (isQuotedLine l) = true.


(** ** Shell and diff blocks *)

(** The exit line of a shell sample, with or without the error flag. *)
Definition exitLine (code : Z) (flagged : bool) : string :=
  "> Exit: " +:+ Js.num code +:+ (if flagged then "  **[ERROR]**" else EmptyString).

(** A fenced block quoting the first [n] lines of [text]. *)
Definition quotedBlock (fence text : string) (n : Z) : list string :=
  fence :: map (fun l => "> " +:+ l) (take (Z.to_nat n) (Js.split Js.nl text)) ++ ["> ```"].

(** The body of a shell sample: the stdout tail, or else the error message
    of an errored call, or else nothing. *)
Definition shellBody (errored : bool) (stdoutTail errorMessage : option string)
    (n : Z) : list string :=
  match stdoutTail, errorMessage with
  | Some (String c t), _ => quotedBlock "> ```" (String c t) n
  | _, Some (String c t) => if errored then quotedBlock "> ```" (String c t) n else []
  | _, _ => []
  end.

(** The lines of a diff that are kept: all but those starting with [---]
    or [+++]. *)
Definition diffBody (diff : string) : list string :=
  List.filter isDiffBodyLine (Js.split Js.nl diff).

(** The truncation note after a diff of [len] body lines capped at [n]. *)
Definition truncationNote (len n : Z) : list string :=
  if n <? len then ["> *+" +:+ Js.num (len - n) +:+ " lines truncated*"] else [].

(** The diff part of a write or edit sample. *)
Definition diffBlock (diff : string) (n : Z) : list string :=
  "> ```diff" :: map (fun l => "> " +:+ l) (take (Z.to_nat n) (diffBody diff)) ++
  ["> ```"] ++ truncationNote (Z.of_nat (length (diffBody diff))) n.

(** ** Category priorities *)

(** The priority of the last entry of a mapping whose set has [name]. *)
Fixpoint lastMatch (mapping : list (list string * Z)) (name : string) : option Z :=
  match mapping with
  | [] => None
  | (set, priority) :: rest =>
      match lastMatch rest name with
      | Some q => Some q
      | None => if decide (name ∈ set) then Some priority else None
      end
  end.

(** The number a priority stands for in a comparison of numbers. *)
Definition rankOf (v : Priority) : Z :=
  match v with
  | Rank p => p
  | Member => 0
  end.

(** Every aggregate of the list has a number for its priority. *)
Definition allRanked (priority : string -> Priority) (l : list ToolUsageSummary) : Prop :=
  Forall (fun t => isRank (priority (name t)) = true) l.

(** [a] is not after [b] in the category order: both priorities are numbers
    and the one of [a] is at most the one of [b]. *)
Definition rankLe (priority : string -> Priority) (a b : ToolUsageSummary) : Prop :=
  exists x y, priority (name a) = Rank x /\ priority (name b) = Rank y /\ x <= y.

(** The aggregates of a list whose priority is [v]. *)
Definition ofPriority (priority : string -> Priority) (v : Priority)
    (l : list ToolUsageSummary) : list ToolUsageSummary :=
  List.filter (fun t => bool_decide (priority (name t) = v)) l.

(** ** Namespace grouping, as the specification words it *)

Section GroupingSpec.

Variable classifyToolName : string -> option Category.

(** The namespace of an aggregate that takes part in the grouping: its
    category is [mcp] and its name reads [mcp__<namespace>__<action>]. *)
Definition namespaceOf (tool : ToolUsageSummary) : option string :=
  if bool_decide (detectCategory classifyToolName tool = mcp)
     && Js.startsWith (name tool) "mcp__"
  then
    let parts := Js.split "__" (name tool) in
    if Z.of_nat (length parts) <? 3 then None else Some (nth 1 parts EmptyString)
  else None.

Definition isCandidate (tool : ToolUsageSummary) : bool :=
  bool_decide (is_Some (namespaceOf tool)).

(** The aggregates that take no part in the grouping, in input order. *)
Definition nonCandidates (l : list ToolUsageSummary) : list ToolUsageSummary :=
  List.filter (fun t => negb (isCandidate t)) l.

(** The aggregates that take part in the grouping, in input order. *)
Definition candidates (l : list ToolUsageSummary) : list ToolUsageSummary :=
  List.filter isCandidate l.

(** The members of the bucket of [ns], in input order. *)
Definition members (ns : string) (l : list ToolUsageSummary) : list ToolUsageSummary :=
  List.filter (fun t => bool_decide (namespaceOf t = Some ns)) l.

(** The distinct elements of a list, in the order of their first occurrence. *)
Fixpoint firstOccurrences (l : list string) : list string :=
  match l with
  | [] => []
  | x :: l' => x :: List.filter (fun y => negb (String.eqb y x)) (firstOccurrences l')
  end.

(** One bucket per namespace, in the order the namespaces are first met. *)
Definition buckets (l : list ToolUsageSummary) : list (string * list ToolUsageSummary) :=
  map (fun ns => (ns, members ns l)) (firstOccurrences (omap namespaceOf l)).

(** The synthetic aggregate of a bucket. *)
Definition mergedEntry (ns : string) (tools : list ToolUsageSummary) : ToolUsageSummary :=
  let totalErrors := fold_right Z.add 0 (map (fun t => Js.orNum (errorCount t) 0) tools) in
  {| name := "MCP: " +:+ ns;
     count := fold_right Z.add 0 (map count tools);
     errorCount := if 0 <? totalErrors then Some totalErrors else None;
     samples := take 5 (concat (map samples tools)) |}.

(** What a bucket contributes to the result: its only member as it is, or
    the merge of its members. *)
Definition emitBucket (bucket : string * list ToolUsageSummary) : ToolUsageSummary :=
  match snd bucket with
  | [only] => only
  | tools => mergedEntry (fst bucket) tools
  end.

(** The ordering the claim words: every merged entry comes after every
    entry passed through from the input. *)
Definition mergedAfterPassThrough (input out : list ToolUsageSummary) : Prop :=
  forall i j merged passed,
    out !! i = Some merged -> out !! j = Some passed ->
    merged ∉ input -> passed ∈ input -> (j < i)%nat.

End GroupingSpec.

(** ** The parts of the document *)

(** A section of the document: nothing when its source data is empty, and
    otherwise its heading, a blank line and a body. *)
Definition sectionOf (heading : string) (present : bool) (block : list string) : Prop :=
  if present then exists body, block = heading :: EmptyString :: body else block = [].

Definition modelRow (m : string) : string := "| **Model** | " +:+ m +:+ " |".

Definition isModelRow (l : string) : bool := Js.startsWith l "| **Model** | ".

(** A row of a markdown table. *)
Definition isTableRow (l : string) : bool := Js.startsWith l "|".

(** The longest initial run of elements that satisfy [p]. *)
Fixpoint takeWhile {A} (p : A -> bool) (l : list A) : list A :=
  match l with
  | [] => []
  | x :: l' => if p x then x :: takeWhile p l' else []
  end.

(** The overview table of a document: the run of table rows after the
    title, the overview heading and the blank lines around them. *)
Definition overviewTableOf (lines : list string) : list string :=
  takeWhile isTableRow (drop 5 lines).

(** The Model rows of the overview table of a document. *)
Definition modelRowsOf (lines : list string) : list string :=
  List.filter isModelRow (overviewTableOf lines).

(** The lines of a document, read back from its text. *)
Definition linesOf (markdown : string) : list string := Js.split Js.nl markdown.

Section DocumentSpec.

Variables SHELL_TOOLS READ_TOOLS WRITE_TOOLS EDIT_TOOLS GREP_TOOLS GLOB_TOOLS
  SEARCH_TOOLS FETCH_TOOLS TASK_TOOLS TASK_OUTPUT_TOOLS ASK_TOOLS : list string.
Variable classifyToolName : string -> option Category.
Variable toLocaleString : Z -> string.
Variable adapters : list (string * string).
Variable hostSort : list ToolUsageSummary -> list ToolUsageSummary.

Definition titleBlock : list string :=
  ["# Session Handoff Context"; EmptyString; EmptyString; "## Session Overview"; EmptyString].

Definition sourceLabelOf (session : UnifiedSession) : string :=
  match getSourceLabels adapters !! source session with
  | Some (String c t) => String c t
  | _ => source session
  end.

(** The rows of the overview table above the model rows. *)
Definition rowsBeforeModel (session : UnifiedSession) : list string :=
  [ "| Field | Value |";
    "|-------|-------|";
    "| **Source** | " +:+ sourceLabelOf session +:+ " |";
    "| **Session ID** | `" +:+ id session +:+ "` |";
    "| **Working Directory** | `" +:+ cwd session +:+ "` |" ] ++
  (if Js.truthy (repo session)
   then [ "| **Repository** | " +:+ default EmptyString (repo session) +:+
          (if Js.truthy (branch session)
           then " @ `" +:+ default EmptyString (branch session) +:+ "`"
           else EmptyString) +:+ " |" ]
   else []).

(** The model rows: the session's model, then the notes' model when it is
    another one. *)
Definition modelRows (session : UnifiedSession) (sessionNotes : option SessionNotes) : list string :=
  (if Js.truthy (model session) then [modelRow (default EmptyString (model session))] else []) ++
  (if Js.truthy (notesField notesModel sessionNotes)
      && negb (bool_decide (notesField notesModel sessionNotes = model session))
   then [modelRow (default EmptyString (notesField notesModel sessionNotes))] else []).

(** The rows of the overview table below the model rows. *)
Definition rowsAfterModel (session : UnifiedSession) (messages : list ConversationMessage)
    (filesModified : list string) (sessionNotes : option SessionNotes) : list string :=
  [ "| **Last Active** | " +:+
    Js.replaceChar "T" " " (Js.strSlice 0 (Some 16) (updatedAtISO session)) +:+ " |" ] ++
  match notesField tokenUsage sessionNotes with
  | Some u => [ "| **Tokens Used** | " +:+ toLocaleString (input u) +:+ " in / " +:+
                toLocaleString (output u) +:+ " out |" ]
  | None => []
  end ++
  match notesField cacheTokens sessionNotes with
  | Some c => [ "| **Cache Tokens** | " +:+ toLocaleString (cacheRead c) +:+ " read / " +:+
                toLocaleString (cacheCreation c) +:+ " created |" ]
  | None => []
  end ++
  (if Js.truthyNum (notesField thinkingTokens sessionNotes)
   then [ "| **Thinking Tokens** | " +:+
          toLocaleString (default 0 (notesField thinkingTokens sessionNotes)) +:+ " |" ]
   else []) ++
  (if Js.truthyNum (notesField activeTimeMs sessionNotes)
   then [ "| **Active Time** | " +:+
          Js.num (Js.roundDiv (default 0 (notesField activeTimeMs sessionNotes)) 60000) +:+
          " min |" ]
   else []) ++
  [ "| **Files Modified** | " +:+ Js.num (Z.of_nat (length filesModified)) +:+ " |";
    "| **Messages** | " +:+ Js.num (Z.of_nat (length messages)) +:+ " |" ].

Definition summaryBlock (session : UnifiedSession) : list string :=
  if Js.truthy (sessionSummary session)
  then [ "## Summary"; EmptyString;
         "> " +:+ default EmptyString (sessionSummary session); EmptyString; EmptyString ]
  else [].

Definition compactedBlock (sessionNotes : option SessionNotes) : list string :=
  if Js.truthy (notesField compactSummary sessionNotes)
  then [ "## Session Context (Compacted)"; EmptyString;
         "> " +:+ default EmptyString (notesField compactSummary sessionNotes);
         EmptyString; EmptyString ]
  else [].

Definition activityBlock (toolSummaries : list ToolUsageSummary) (mode : string) : list string :=
  match toolSummaries with
  | [] => []
  | _ =>
      [ "## Tool Activity"; EmptyString ] ++
      renderToolActivity SHELL_TOOLS READ_TOOLS WRITE_TOOLS EDIT_TOOLS GREP_TOOLS GLOB_TOOLS
        SEARCH_TOOLS FETCH_TOOLS TASK_TOOLS TASK_OUTPUT_TOOLS ASK_TOOLS classifyToolName hostSort
        toolSummaries (selectCaps mode) ++
      [ EmptyString ]
  end.

Definition decisionsBlock (sessionNotes : option SessionNotes) : list string :=
  match notesField reasoning sessionNotes with
  | Some (thought :: thoughts) =>
      [ "## Key Decisions"; EmptyString ] ++
      map (fun t => "- " +:+ t) (take 5 (thought :: thoughts)) ++
      [ EmptyString; EmptyString ]
  | _ => []
  end.

Definition renderMessage (msg : ConversationMessage) : list string :=
  [ "### " +:+ match role msg with user => "User" | assistant => "Assistant" end;
    EmptyString;
    Js.strSlice 0 (Some 500) (content msg) +:+
    (if 500 <? Js.strLength (content msg) then "…" else EmptyString);
    EmptyString ].

Definition recentBlock (messages : list ConversationMessage) : list string :=
  match messages with
  | [] => []
  | _ =>
      [ "## Recent Conversation"; EmptyString ] ++
      flat_map renderMessage (drop (length messages - 10) messages) ++
      [ EmptyString ]
  end.

Definition filesBlock (filesModified : list string) : list string :=
  match filesModified with
  | [] => []
  | _ =>
      [ "## Files Modified"; EmptyString ] ++
      map (fun file => "- `" +:+ file +:+ "`") filesModified ++
      [ EmptyString; EmptyString ]
  end.

Definition tasksBlock (pendingTasks : list string) : list string :=
  match pendingTasks with
  | [] => []
  | _ =>
      [ "## Pending Tasks"; EmptyString ] ++
      map (fun t => "- [ ] " +:+ t) pendingTasks ++
      [ EmptyString; EmptyString ]
  end.

Definition closingBlock : list string := ["---"; EmptyString; closingSentence].

End DocumentSpec.

(** A list with at least one element. *)
Definition nonEmpty {A} (l : list A) : bool :=
  match l with
  | [] => false
  | _ => true
  end.

(** Each element followed by the separator. *)
Definition joinEach (sep : string) (l : list string) : string :=
  fold_right (fun x acc => x +:+ sep +:+ acc) EmptyString l.

(** ** Claims as the specification states them, where the code differs *)

(** Any sample with a structured payload decides the category. *)
Definition anySampleDecides (classifyToolName : string -> option Category)
    (tool : ToolUsageSummary) : Prop :=
  forall sample d,
    In sample (samples tool) -> data sample = Some d ->
    detectCategory classifyToolName tool = category d.

(** The exit line is flagged exactly when the exit code is not zero. *)
Definition flagFollowsExitCode (sample : ToolSample) (n : Z) : Prop :=
  forall command code errored stdoutTail errorMessage,
    data sample = Some (ShellSample command (Some code) errored stdoutTail errorMessage) ->
    In (exitLine code (negb (code =? 0))) (renderShellSample sample n).

(** A heading is among the lines of a document exactly when its source
    data is not empty. *)
Definition headingIffData (heading : string) (present : bool) (markdown : string) : Prop :=
  In heading (linesOf markdown) <-> present = true.

(** ** Sample inputs *)

Module Sample.

(** A taxonomy with one tool name per canonical set. *)
Definition shellTools : list string := ["Bash"].
Definition readTools : list string := ["Read"].
Definition writeTools : list string := ["Write"].
Definition editTools : list string := ["Edit"].
Definition grepTools : list string := ["Grep"].
Definition globTools : list string := ["Glob"].
Definition searchTools : list string := ["WebSearch"].
Definition fetchTools : list string := ["WebFetch"].
Definition taskTools : list string := ["Task"].
Definition taskOutputTools : list string := ["TaskOutput"].
Definition askTools : list string := ["AskUserQuestion"].

(** A classifier that knows no name. *)
Definition noClassifier (name : string) : option Category := None.

Definition localeString (n : Z) : string := Js.num n.

Definition registry : list (string * string) := [("claude", "Claude Code"); ("codex", "Codex CLI")].

Definition shellSample (command : string) (code : Z) (errored : bool) : ToolSample :=
  {| summary := command;
     data := Some (ShellSample command (Some code) errored None None) |}.

(** [{name: "Bash", count: 7, samples: [5 shell samples]}] *)
Definition bash : ToolUsageSummary :=
  {| name := "Bash"; count := 7; errorCount := None;
     samples := [ shellSample "ls" 0 false; shellSample "pwd" 0 false;
                  shellSample "git status" 0 false; shellSample "npm test" 0 false;
                  shellSample "git diff" 0 false ] |}.

(** A failed command whose sample does not carry the [errored] flag. *)
Definition failedUnflagged : ToolSample := shellSample "make" 1 false.

Definition plainTool (name : string) (count : Z) : ToolUsageSummary :=
  {| name := name; count := count; errorCount := None;
     samples := [ {| summary := name; data := None |} ] |}.

Definition listIssues : ToolUsageSummary := plainTool "mcp__github__list_issues" 3.
Definition createIssue : ToolUsageSummary := plainTool "mcp__github__create_issue" 2.
Definition jiraSearch : ToolUsageSummary := plainTool "mcp__jira__search" 1.

(** The grouping example of the specification. *)
Definition githubThenJira : list ToolUsageSummary := [listIssues; createIssue; jiraSearch].

Definition jiraThenGithub : list ToolUsageSummary := [jiraSearch; listIssues; createIssue].

Definition githubOnly : list ToolUsageSummary := [listIssues; createIssue].

Definition githubMerged : ToolUsageSummary :=
  {| name := "MCP: github"; count := 5; errorCount := None;
     samples := [ {| summary := "mcp__github__list_issues"; data := None |};
                  {| summary := "mcp__github__create_issue"; data := None |} ] |}.

(** An aggregate whose first sample has no payload and whose second has. *)
Definition mixedSamples : ToolUsageSummary :=
  {| name := "run_script"; count := 2; errorCount := None;
     samples := [ {| summary := "run_script(a.sh)"; data := None |};
                  shellSample "sh b.sh" 0 false ] |}.

(** A diff of two header lines and 300 body lines. *)
Definition longDiffTail : string :=
  Js.join Js.nl (["-- a/notes.txt"; "+++ b/notes.txt"] ++ repeat "+line" 300).

Definition longWrite : ToolSample :=
  {| summary := "Write notes.txt";
     data := Some (WriteSample "notes.txt" true (Some (String "-" longDiffTail)) None) |}.

(** The 300 body lines of a diff whose first added line reads [++i;]. *)
Definition incrementBody : list string := "+++i;" :: repeat "+line" 299.

(** The diff of those lines under its two header lines. *)
Definition incrementDiff : string :=
  Js.join Js.nl (["--- a/counter.c"; "+++ b/counter.c"] ++ incrementBody).

Definition incrementWrite : ToolSample :=
  {| summary := "Write counter.c";
     data := Some (WriteSample "counter.c" false (Some incrementDiff) None) |}.

Definition incrementEdit : ToolSample :=
  {| summary := "Edit counter.c";
     data := Some (EditSample "counter.c" (Some incrementDiff) None) |}.

Definition session : UnifiedSession :=
  {| id := "s-42"; source := "claude"; cwd := "/work/app"; repo := Some "acme/app";
     branch := Some "main"; updatedAtISO := "2026-01-02T03:04:05.000Z";
     sessionSummary := None; model := Some "model-a" |}.

Definition notes : SessionNotes :=
  {| notesModel := Some "model-b"; tokenUsage := None; cacheTokens := None;
     thinkingTokens := None; activeTimeMs := None; reasoning := None;
     compactSummary := None |}.

(** A user message that reads like a section heading. *)
Definition headingMessage : ConversationMessage :=
  {| role := user; content := "## Tool Activity" |}.

(** An aggregate whose name is that of a member of [Object.prototype],
    between a read and a shell aggregate. *)
Definition inheritedName : list ToolUsageSummary :=
  [plainTool "Read" 1; plainTool "constructor" 1; bash].

(** A host whose sort leaves a list as it is where the comparator yields
    NaN. *)
Definition hostSort (l : list ToolUsageSummary) : list ToolUsageSummary := l.

Definition handoff :=
  generateHandoffMarkdown shellTools readTools writeTools editTools grepTools globTools
    searchTools fetchTools taskTools taskOutputTools askTools noClassifier localeString registry hostSort.

Definition handoffLines :=
  generateHandoffLines shellTools readTools writeTools editTools grepTools globTools
    searchTools fetchTools taskTools taskOutputTools askTools noClassifier localeString registry hostSort.

Definition priority :=
  getCategoryOrder shellTools readTools writeTools editTools grepTools globTools
    searchTools fetchTools taskTools taskOutputTools askTools.

Definition mapping :=
  categoryMapping shellTools readTools writeTools editTools grepTools globTools
    searchTools fetchTools taskTools taskOutputTools askTools.

End Sample.


(** * Vocabulary of the further properties *)

(** The number of invocations a list of aggregates stands for. *)
Definition totalCount (l : list ToolUsageSummary) : Z :=
  fold_right Z.add 0 (map count l).

(** The number of errors a list of aggregates stands for. *)
Definition totalErrors (l : list ToolUsageSummary) : Z :=
  fold_right Z.add 0 (map (fun t => Js.orNum (errorCount t) 0) l).

(** The heading line of a tool section. *)
Definition isToolHeading (l : string) : bool := Js.startsWith l "### ".

(** A line of a tool section below its heading. *)
Definition belowHeading (l : string) : Prop := isToolHeading l = false.

(** The heading of the section of an aggregate: its category, or the label
    of a compact category, then the number of calls and of errors. *)
Definition toolHeading (classifyToolName : string -> option Category)
    (tool : ToolUsageSummary) : string :=
  let title :=
    match detectCategory classifyToolName tool with
    | shell => "Shell"
    | write => "Write"
    | edit => "Edit"
    | read => "Read"
    | grep => "Grep"
    | glob => "Glob"
    | search => "Search"
    | fetch => "Fetch"
    | task => "Task"
    | ask => "Ask"
    | mcp => "MCP"
    end in
  "### " +:+ title +:+ " (" +:+ Js.num (count tool) +:+ " calls" +:+ errorStr tool +:+ ")".

(** * Parsers that feed the handoff engine *)

(** [a || d] for an optional string [a]. *)
Definition orStr (o : option string) (d : string) : string :=
  if Js.truthy o then default EmptyString o else d.

(** Truthiness of a string: it is not empty. *)
Definition nonEmptyStr (s : string) : bool := Js.truthy (Some s).

(** A [Map] with string keys, kept in insertion order. *)
Fixpoint mapGet {V} (k : string) (m : list (string * V)) : option V :=
  match m with
  | [] => None
  | (k', v) :: m' => if String.eqb k' k then Some v else mapGet k m'
  end.

(** [m.set(k, v)]: an existing key keeps its place. *)
Fixpoint mapSet {V} (k : string) (v : V) (m : list (string * V)) : list (string * V) :=
  match m with
  | [] => [(k, v)]
  | (k', v') :: m' => if String.eqb k' k then (k', v) :: m' else (k', v') :: mapSet k v m'
  end.

(** [s.add(x)] on a [Set] kept in insertion order. *)
Definition setAdd (x : string) (s : list string) : list string :=
  if bool_decide (x ∈ s) then s else s ++ [x].

(** ** Copilot (parsers/copilot.ts) *)

Module Copilot.

(** [tr.arguments]: the keys of the object in their order, with the values
    of the fields, which the parser reads as strings. *)
Definition Args : Type := list (string * string).

(** [args[key] as string] *)
Definition arg (args : Args) (key : string) : option string :=
  snd <$> List.find (fun kv => String.eqb (fst kv) key) args.

Record ToolRequest : Type := {
  reqName : option string;
  reqArguments : option Args
}.

(** An event of events.jsonl, with the fields of [event.data] the parser
    reads; an [assistant.message] content is taken to be a string. *)
Record CopilotEvent : Type := {
  type : string;
  dataContent : option string;
  dataTransformedContent : option string;
  dataToolRequests : option (list ToolRequest)
}.

Section Parser.

(** [classifyToolName] of types/tool-names.ts *)
Variable classifyToolName : string -> option Category.

(** [JSON.stringify(args)] *)
Variable stringify : Args -> string.

(** [(args.path as string) || (args.file_path as string) || ''] *)
Definition filePathOf (args : Args) : string :=
  orStr (arg args "path") (orStr (arg args "file_path") EmptyString).

Definition buildCopilotSampleData (category : Category) (name : string) (args : Args)
    : StructuredToolSample :=
  let fp := filePathOf args in
  match category with
  | shell =>
      ShellSample (orStr (arg args "command") (orStr (arg args "cmd") EmptyString))
        None false None None
  | read => ReadSample fp None None
  | write => WriteSample fp false None None
  | edit => EditSample fp None None
  | grep =>
      GrepSample (orStr (arg args "pattern") (orStr (arg args "query") EmptyString))
        (if nonEmptyStr fp then Some fp else None) None
  | glob => GlobSample (orStr (arg args "pattern") fp) None
  | search => SearchSample (orStr (arg args "query") EmptyString) None
  | fetch => FetchSample (orStr (arg args "url") EmptyString) None
  | task => TaskSample (orStr (arg args "description") EmptyString) None None
  | ask => AskSample (Js.strSlice 0 (Some 80) (orStr (arg args "question") EmptyString))
  | mcp =>
      McpSample name
        (if 0 <? Z.of_nat (length args)
         then Some (Js.strSlice 0 (Some 100) (stringify args)) else None)
        None
  end.

(** The sample pushed for a request of tool [name] in [category]. *)
Definition requestSample (category : Category) (name : string) (args : Args) : ToolSample :=
  let data := buildCopilotSampleData category name args in
  let argsStr :=
    if 0 <? Z.of_nat (length args)
    then Js.strSlice 0 (Some 100) (stringify args) else EmptyString in
  {| summary := if nonEmptyStr argsStr then name +:+ "(" +:+ argsStr +:+ ")" else name;
     data := Some data |}.

(** The body of the inner loop of [extractCopilotToolSummaries] for one tool
    request; [entry] is the object held by the map, so that what is done to
    it is done to the map. *)
Definition requestStep (st : list (string * (Z * list ToolSample)) * list string)
    (tr : ToolRequest) : list (string * (Z * list ToolSample)) * list string :=
  let '(toolCounts, files) := st in
  let name := orStr (reqName tr) "unknown" in
  match classifyToolName name with
  | None => st
  | Some category =>
      let toolCounts :=
        match mapGet name toolCounts with
        | Some _ => toolCounts
        | None => mapSet name (0, []) toolCounts
        end in
      let entry := default (0, []) (mapGet name toolCounts) in
      let entry := (fst entry + 1, snd entry) in
      let args := default [] (reqArguments tr) in
      let fp := filePathOf args in
      let files :=
        if (bool_decide (category = write) || bool_decide (category = edit)) && nonEmptyStr fp
        then setAdd fp files else files in
      let entry :=
        if Z.of_nat (length (snd entry)) <? 5
        then (fst entry, snd entry ++ [requestSample category name args])
        else entry in
      (mapSet name entry toolCounts, files)
  end.

(** The body of the outer loop, for one event. *)
Definition eventStep (st : list (string * (Z * list ToolSample)) * list string)
    (event : CopilotEvent) : list (string * (Z * list ToolSample)) * list string :=
  if negb (String.eqb (type event) "assistant.message") then st
  else fold_left requestStep (default [] (dataToolRequests event)) st.

Definition extractCopilotToolSummaries (events : list CopilotEvent)
    : list ToolUsageSummary * list string :=
  let '(toolCounts, files) := fold_left eventStep events ([], []) in
  (map (fun '(name, (count, samples)) =>
          {| name := name; count := count; errorCount := None; samples := samples |})
       toolCounts,
   files).

(** The body of the loop of [extractCopilotContext] over the last events. *)
Definition messageStep (recentMessages : list ConversationMessage)
    (event : CopilotEvent) : list ConversationMessage :=
  if String.eqb (type event) "user.message" then
    let content := orStr (dataContent event) (orStr (dataTransformedContent event) EmptyString) in
    if nonEmptyStr content
    then recentMessages ++ [ {| role := user; content := content |} ]
    else recentMessages
  else if String.eqb (type event) "assistant.message" then
    let content := orStr (dataContent event) EmptyString in
    let toolRequests := default [] (dataToolRequests event) in
    if nonEmptyStr content
    then recentMessages ++ [ {| role := assistant; content := content |} ]
    else if 0 <? Z.of_nat (length toolRequests)
    then
      let toolNames :=
        Js.join ", " (map (fun t => default EmptyString (reqName t)) toolRequests) in
      recentMessages ++
        [ {| role := assistant; content := "[Used tools: " +:+ toolNames +:+ "]" |} ]
    else recentMessages
  else recentMessages.

(** The [recentMessages] of the context that [extractCopilotContext]
    returns, which are also the messages it passes to
    [generateHandoffMarkdown]. *)
Definition recentMessagesOf (session : UnifiedSession) (events : list CopilotEvent)
    : list ConversationMessage :=
  let recentMessages := fold_left messageStep (Js.slice (-20) None events) [] in
  let recentMessages :=
    if (Z.of_nat (length recentMessages) =? 0) && Js.truthy (sessionSummary session)
    then
      recentMessages ++
        [ {| role := user; content := default EmptyString (sessionSummary session) |};
          {| role := assistant;
             content := "[Session worked on: " +:+
                        default EmptyString (sessionSummary session) +:+ "]" |} ]
    else recentMessages in
  Js.slice (-10) None recentMessages.

(** *** Vocabulary of the properties of the Copilot parser *)

(** The tool requests of the assistant messages, in their order. *)
Definition requestsOf (events : list CopilotEvent) : list ToolRequest :=
  flat_map
    (fun e =>
       if String.eqb (type e) "assistant.message"
       then default [] (dataToolRequests e) else [])
    events.

Definition nameOf (tr : ToolRequest) : string := orStr (reqName tr) "unknown".

(** The requests of tools that the classifier knows. *)
Definition classified (reqs : list ToolRequest) : list ToolRequest :=
  List.filter
    (fun tr => match classifyToolName (nameOf tr) with Some _ => true | None => false end)
    reqs.

(** The classified requests of the tool [name]. *)
Definition callsOf (name : string) (reqs : list ToolRequest) : list ToolRequest :=
  List.filter (fun tr => String.eqb (nameOf tr) name) (classified reqs).

(** The sample of a classified request. *)
Definition sampleOf (tr : ToolRequest) : ToolSample :=
  requestSample (default mcp (classifyToolName (nameOf tr))) (nameOf tr)
    (default [] (reqArguments tr)).

(** The aggregate of the calls of one tool. *)
Definition summaryFor (name : string) (calls : list ToolRequest) : ToolUsageSummary :=
  {| name := name;
     count := Z.of_nat (length calls);
     errorCount := None;
     samples := map sampleOf (take 5 calls) |}.

(** The file a request writes or edits, when it names one. *)
Definition writtenPath (tr : ToolRequest) : option string :=
  match classifyToolName (nameOf tr) with
  | Some category =>
      let fp := filePathOf (default [] (reqArguments tr)) in
      if (bool_decide (category = write) || bool_decide (category = edit)) && nonEmptyStr fp
      then Some fp else None
  | None => None
  end.

End Parser.

End Copilot.

(** ** Amp (parsers/amp.ts) *)

Module Amp.

Record AmpContentBlock : Type := {
  blockType : string;
  blockText : option string
}.

(** A message of a thread; [messageContent] is [None] when [content] is
    missing or not an array. *)
Record AmpMessage : Type := {
  messageRole : string;
  messageContent : option (list AmpContentBlock)
}.

Record AmpTokens : Type := {
  tokensInput : option Z;
  tokensOutput : option Z
}.

Record AmpUsageEvent : Type := {
  eventModel : option string;
  eventTokens : option AmpTokens;
  operationType : option string
}.

(** A thread, with [env?.initial?.tags] as [tags] and [usageLedger?.events]
    as [events]; each is [None] when it is missing or not an array. *)
Record AmpThread : Type := {
  messages : list AmpMessage;
  tags : option (list string);
  events : option (list AmpUsageEvent)
}.

(** The [for (const tag of tags)] loop of [extractModel], which returns at
    the first tag that starts with [model:]. *)
Fixpoint firstModelTag (tags : list string) : option string :=
  match tags with
  | [] => None
  | tag :: rest =>
      if Js.startsWith tag "model:"
      then Some (Js.strSlice (Js.strLength "model:") None tag)
      else firstModelTag rest
  end.

Definition extractModel (thread : AmpThread) : option string :=
  match tags thread with
  | None => None
  | Some tags => firstModelTag tags
  end.

(** The body of the loop of [extractSessionNotes] over the ledger events,
    on [notes.model], [inputTokens] and [outputTokens]. *)
Definition ledgerStep (st : option string * Z * Z) (event : AmpUsageEvent)
    : option string * Z * Z :=
  let '(notesModel, inputTokens, outputTokens) := st in
  if bool_decide (operationType event = Some "title-generation") then st
  else
    let inputTokens :=
      match eventTokens event with
      | Some t => inputTokens + default 0 (tokensInput t)
      | None => inputTokens
      end in
    let outputTokens :=
      match eventTokens event with
      | Some t => outputTokens + default 0 (tokensOutput t)
      | None => outputTokens
      end in
    let notesModel :=
      if negb (Js.truthy notesModel) && Js.truthy (eventModel event)
      then eventModel event else notesModel in
    (notesModel, inputTokens, outputTokens).

Definition extractSessionNotes (thread : AmpThread) : SessionNotes :=
  let model := extractModel thread in
  let notesModel := if Js.truthy model then model else None in
  let '(notesModel, tokenUsage) :=
    match events thread with
    | Some events =>
        let '(notesModel, inputTokens, outputTokens) :=
          fold_left ledgerStep events (notesModel, 0, 0) in
        (notesModel,
         if (0 <? inputTokens) || (0 <? outputTokens)
         then Some {| input := inputTokens; output := outputTokens |} else None)
    | None => (notesModel, None)
    end in
  {| notesModel := notesModel;
     tokenUsage := tokenUsage;
     cacheTokens := None;
     thinkingTokens := None;
     activeTimeMs := None;
     reasoning := None;
     compactSummary := None |}.

Section Messages.

(** [s.trim()] *)
Variable trim : string -> string.

Definition extractMessageText (message : AmpMessage) : string :=
  match messageContent message with
  | None => EmptyString
  | Some content =>
      trim
        (Js.join Js.nl
           (map (fun block => default EmptyString (blockText block))
              (List.filter
                 (fun block =>
                    String.eqb (blockType block) "text"
                    && bool_decide (is_Some (blockText block)))
                 content)))
  end.

(** The body of the loop of [extractAmpContext] over the messages. *)
Definition messageStep (recentMessages : list ConversationMessage) (msg : AmpMessage)
    : list ConversationMessage :=
  let text := extractMessageText msg in
  if negb (nonEmptyStr text) then recentMessages
  else if String.eqb (messageRole msg) "user"
  then recentMessages ++ [ {| role := user; content := text |} ]
  else if String.eqb (messageRole msg) "assistant"
  then recentMessages ++ [ {| role := assistant; content := text |} ]
  else recentMessages.

(** The [recentMessages] of the context that [extractAmpContext] returns for
    a thread that parses, with [cfg.recentMessages] as [recentMessages]. *)
Definition trimmedMessages (thread : AmpThread) (recentMessages : Z)
    : list ConversationMessage :=
  let collected :=
    fold_left messageStep (Js.slice (- recentMessages * 2) None (messages thread)) [] in
  Js.slice (- recentMessages) None collected.

End Messages.

(** The event is left out of the token and model accounting. *)
Definition isTitleGeneration (event : AmpUsageEvent) : bool :=
  bool_decide (operationType event = Some "title-generation").

(** The thread without the title-generation events of its ledger. *)
Definition withoutTitleGeneration (thread : AmpThread) : AmpThread :=
  {| messages := messages thread;
     tags := tags thread;
     events := List.filter (fun e => negb (isTitleGeneration e)) <$> events thread |}.

End Amp.

(** *** Vocabulary of the properties of the Amp parser *)

(** The model of the first ledger event that is not a title generation and
    names one. *)
Fixpoint ledgerModel (events : list Amp.AmpUsageEvent) : option string :=
  match events with
  | [] => None
  | event :: rest =>
      if negb (Amp.isTitleGeneration event) && Js.truthy (Amp.eventModel event)
      then Amp.eventModel event else ledgerModel rest
  end.

(** The model an Amp handoff shows: the one of the [model:] tag, and without
    it the one of the ledger. *)
Definition ampModel (thread : Amp.AmpThread) : option string :=
  if Js.truthy (Amp.extractModel thread) then Amp.extractModel thread
  else ledgerModel (default [] (Amp.events thread)).

(** ** Cline, Roo Code and Kilo Code (parsers/cline.ts) *)

Module Cline.

(** An entry of ui_messages.json, with the fields the parser reads. *)
Record ClineRawMessage : Type := {
  type : string;
  say : option string;
  text : option string;
  partial : option bool
}.

(** [msg.partial === true] *)
Definition isPartial (msg : ClineRawMessage) : bool :=
  match partial msg with
  | Some true => true
  | _ => false
  end.

(** [msg.say === kind] *)
Definition says (msg : ClineRawMessage) (kind : string) : bool :=
  match say msg with
  | Some s => String.eqb s kind
  | None => false
  end.

Definition classifyRole (msg : ClineRawMessage) : option Role :=
  if negb (String.eqb (type msg) "say") then None
  else if says msg "user_feedback" then Some user
  else if says msg "text" then (if isPartial msg then Some assistant else Some user)
  else if says msg "completion_result" then Some assistant
  else if says msg "reasoning" then Some assistant
  else None.

(** [role === 'assistant'] *)
Definition isAssistant (r : Role) : bool :=
  match r with
  | assistant => true
  | user => false
  end.

(** The token metadata of an [api_req_started] event. *)
Record ApiReqMeta : Type := {
  tokensIn : option Z;
  tokensOut : option Z;
  cacheWrites : option Z;
  cacheReads : option Z;
  cost : option Z
}.

(** [result[result.length - 1].role === 'assistant'] *)
Definition lastIsAssistant (result : list ConversationMessage) : bool :=
  match last result with
  | Some m => isAssistant (role m)
  | None => false
  end.

Section Parser.

(** [s.trim()] *)
Variable trim : string -> string.

(** [truncate] of utils/tool-summarizer.ts *)
Variable truncate : string -> Z -> string.

(** [JSON.parse] of the text of an [api_req_started] event, [None] when it
    throws; the cost is taken in whole units. *)
Variable parseMeta : string -> option ApiReqMeta.

(** The body of the loop of [buildConversation], on [result], [lastSay] and
    [lastPartial]. *)
Definition conversationStep (st : list ConversationMessage * option string * bool)
    (msg : ClineRawMessage) : list ConversationMessage * option string * bool :=
  let '(result, lastSay, lastPartial) := st in
  match classifyRole msg with
  | None => st
  | Some role =>
      if negb (Js.truthy (text msg)) then st
      else
        let text := trim (default EmptyString (text msg)) in
        if negb (nonEmptyStr text) then st
        else
          let result :=
            if isAssistant role && says msg "text" && isPartial msg
               && (0 <? Z.of_nat (length result))
               && lastIsAssistant result
               && bool_decide (lastSay = Some "text") && lastPartial
            then <[(length result - 1)%nat := {| role := role; content := text |}]> result
            else result ++ [ {| role := role; content := text |} ] in
          (result, say msg, isPartial msg)
  end.

Definition buildConversation (messages : list ClineRawMessage) : list ConversationMessage :=
  (fold_left conversationStep messages ([], None, false)).1.1.

(** The loop of [extractReasoning], which stops as soon as [max] highlights
    are held. *)
Fixpoint reasoningLoop (max : Z) (messages : list ClineRawMessage)
    (highlights : list string) : list string :=
  match messages with
  | [] => highlights
  | msg :: rest =>
      if max <=? Z.of_nat (length highlights) then highlights
      else if negb (String.eqb (type msg) "say") || negb (says msg "reasoning")
      then reasoningLoop max rest highlights
      else if negb (Js.truthy (text msg))
              || (Js.strLength (default EmptyString (text msg)) <? 10)
      then reasoningLoop max rest highlights
      else
        reasoningLoop max rest
          (highlights ++ [truncate (trim (default EmptyString (text msg))) 200])
  end.

Definition extractReasoning (messages : list ClineRawMessage) (max : Z) : list string :=
  reasoningLoop max messages [].

(** The body of the loop of [extractTokenUsage], on [totalIn], [totalOut],
    [totalCacheWrites], [totalCacheReads], [totalCost] and [found]. *)
Definition tokenStep (st : Z * Z * Z * Z * Z * bool) (msg : ClineRawMessage)
    : Z * Z * Z * Z * Z * bool :=
  let '(totalIn, totalOut, totalCacheWrites, totalCacheReads, totalCost, found) := st in
  if negb (String.eqb (type msg) "say") || negb (says msg "api_req_started") then st
  else if negb (Js.truthy (text msg)) then st
  else
    match parseMeta (default EmptyString (text msg)) with
    | None => st
    | Some meta =>
        let totalIn :=
          if Js.truthyNum (tokensIn meta) then totalIn + default 0 (tokensIn meta)
          else totalIn in
        let found := if Js.truthyNum (tokensIn meta) then true else found in
        let totalOut :=
          if Js.truthyNum (tokensOut meta) then totalOut + default 0 (tokensOut meta)
          else totalOut in
        let found := if Js.truthyNum (tokensOut meta) then true else found in
        let totalCacheWrites :=
          if Js.truthyNum (cacheWrites meta)
          then totalCacheWrites + default 0 (cacheWrites meta) else totalCacheWrites in
        let found := if Js.truthyNum (cacheWrites meta) then true else found in
        let totalCacheReads :=
          if Js.truthyNum (cacheReads meta)
          then totalCacheReads + default 0 (cacheReads meta) else totalCacheReads in
        let found := if Js.truthyNum (cacheReads meta) then true else found in
        let totalCost :=
          if Js.truthyNum (cost meta) then totalCost + default 0 (cost meta)
          else totalCost in
        (totalIn, totalOut, totalCacheWrites, totalCacheReads, totalCost, found)
    end.

Definition extractTokenUsage (messages : list ClineRawMessage) : SessionNotes :=
  let '(totalIn, totalOut, totalCacheWrites, totalCacheReads, totalCost, found) :=
    fold_left tokenStep messages (0, 0, 0, 0, 0, false) in
  {| notesModel := None;
     tokenUsage := if found then Some {| input := totalIn; output := totalOut |} else None;
     cacheTokens :=
       if (0 <? totalCacheWrites) || (0 <? totalCacheReads)
       then Some {| cacheRead := totalCacheReads; cacheCreation := totalCacheWrites |}
       else None;
     thinkingTokens := None;
     activeTimeMs := None;
     reasoning := None;
     compactSummary := None |}.

(** *** Vocabulary of the properties of the Cline parser *)

(** A streaming chunk of assistant text that the conversation keeps. *)
Definition keptChunk (msg : ClineRawMessage) : bool :=
  String.eqb (type msg) "say" && says msg "text" && isPartial msg
  && Js.truthy (text msg)
  && nonEmptyStr (trim (default EmptyString (text msg))).

(** The metadata of an [api_req_started] event whose text parses. *)
Definition metaOf (msg : ClineRawMessage) : option ApiReqMeta :=
  if String.eqb (type msg) "say" && says msg "api_req_started" && Js.truthy (text msg)
  then parseMeta (default EmptyString (text msg)) else None.

(** The sum of one field over the metadata, an absent field counting zero. *)
Definition sumOf (f : ApiReqMeta -> option Z) (metas : list ApiReqMeta) : Z :=
  fold_right Z.add 0 (map (fun m => default 0 (f m)) metas).

(** The metadata states a number of tokens that is not zero. *)
Definition statesTokens (m : ApiReqMeta) : bool :=
  Js.truthyNum (tokensIn m) || Js.truthyNum (tokensOut m)
  || Js.truthyNum (cacheWrites m) || Js.truthyNum (cacheReads m).

(** The highlight of a reasoning event that is long enough. *)
Definition highlightOf (msg : ClineRawMessage) : option string :=
  if String.eqb (type msg) "say" && says msg "reasoning"
     && Js.truthy (text msg)
     && negb (Js.strLength (default EmptyString (text msg)) <? 10)
  then Some (truncate (trim (default EmptyString (text msg))) 200)
  else None.

End Parser.

End Cline.

(** ** Crush (parsers/crush.ts) *)

Module Crush.

(** The apostrophe. *)
Definition quote : ascii := ascii_of_nat 39.

(** [value.replace(/'/g, "''")] *)
Fixpoint sqlEscape (value : string) : string :=
  match value with
  | EmptyString => EmptyString
  | String c rest =>
      if Ascii.eqb c quote
      then String quote (String quote (sqlEscape rest))
      else String c (sqlEscape rest)
  end.

(** The query of [getFirstUserMessage]. *)
Definition firstUserMessageQuery (sessionId : string) : string :=
  "SELECT role, parts, created_at, model, provider FROM messages WHERE session_id = '"
  +:+ sqlEscape sessionId +:+ "' AND role = 'user' ORDER BY created_at ASC LIMIT 1".

(** The two queries of [extractCrushContext]. *)
Definition messagesQuery (sessionId : string) : string :=
  "SELECT role, parts, created_at, model, provider FROM messages WHERE session_id = '"
  +:+ sqlEscape sessionId +:+ "' ORDER BY created_at ASC".

Definition tokensQuery (sessionId : string) : string :=
  "SELECT prompt_tokens, completion_tokens FROM sessions WHERE id = '"
  +:+ sqlEscape sessionId +:+ "'".

Record CrushPart : Type := {
  partType : string;
  partText : option string
}.

(** A row of the [messages] table, with the columns the parser reads. *)
Record CrushMessageRow : Type := {
  rowRole : string;
  rowParts : string;
  rowModel : option string
}.

(** A row of the [sessions] table; [NULL] is [None]. *)
Record CrushSessionRow : Type := {
  prompt_tokens : option Z;
  completion_tokens : option Z
}.

(** [{ ...session, model }] *)
Definition withModel (session : UnifiedSession) (m : option string) : UnifiedSession :=
  {| id := id session;
     source := source session;
     cwd := cwd session;
     repo := repo session;
     branch := branch session;
     updatedAtISO := updatedAtISO session;
     sessionSummary := sessionSummary session;
     model := m |}.

Section Parser.

Variables SHELL_TOOLS READ_TOOLS WRITE_TOOLS EDIT_TOOLS GREP_TOOLS GLOB_TOOLS
  SEARCH_TOOLS FETCH_TOOLS TASK_TOOLS TASK_OUTPUT_TOOLS ASK_TOOLS : list string.
Variable classifyToolName : string -> option Category.
Variable toLocaleString : Z -> string.
Variable adapters : list (string * string).
Variable hostSort : list ToolUsageSummary -> list ToolUsageSummary.

(** [JSON.parse(partsJson)] when it returns an array; [None] when it throws
    or returns something else. *)
Variable parseParts : string -> option (list CrushPart).

Definition extractTextFromParts (partsJson : string) : string :=
  match parseParts partsJson with
  | None => EmptyString
  | Some parts =>
      Js.join Js.nl
        (map (fun p => default EmptyString (partText p))
           (List.filter
              (fun p => String.eqb (partType p) "text" && Js.truthy (partText p))
              parts))
  end.

(** The body of the loop of [extractCrushContext] over the message rows, on
    [allMessages] and [model]. *)
Definition rowStep (st : list ConversationMessage * option string)
    (row : CrushMessageRow) : list ConversationMessage * option string :=
  let '(allMessages, model) := st in
  let content := extractTextFromParts (rowParts row) in
  if negb (nonEmptyStr content) then st
  else
    let role := if String.eqb (rowRole row) "user" then user else assistant in
    let allMessages := allMessages ++ [ {| role := role; content := content |} ] in
    let model :=
      if negb (Js.truthy model) && Js.truthy (rowModel row)
         && match role with assistant => true | user => false end
      then rowModel row else model in
    (allMessages, model).

(** The session notes of [extractCrushContext]. *)
Definition crushNotes (model : option string) (tokenInput tokenOutput : Z)
    : option SessionNotes :=
  let hasNotes := Js.truthy model || negb (tokenInput =? 0) || negb (tokenOutput =? 0) in
  if hasNotes
  then
    Some {| notesModel := if Js.truthy model then model else None;
            tokenUsage :=
              if negb (tokenInput =? 0) || negb (tokenOutput =? 0)
              then Some {| input := tokenInput; output := tokenOutput |} else None;
            cacheTokens := None;
            thinkingTokens := None;
            activeTimeMs := None;
            reasoning := None;
            compactSummary := None |}
  else None.

(** The lines of the [markdown] of the context that [extractCrushContext]
    returns, for the rows that the two queries give and [recentMessages] of
    the configuration. *)
Definition extractCrushLines (session : UnifiedSession) (msgRows : list CrushMessageRow)
    (sessionRows : list CrushSessionRow) (recentMessages : Z) : list string :=
  let '(allMessages, model) := fold_left rowStep msgRows ([], None) in
  let tokenInput :=
    match sessionRows with
    | r :: _ => default 0 (prompt_tokens r)
    | [] => 0
    end in
  let tokenOutput :=
    match sessionRows with
    | r :: _ => default 0 (completion_tokens r)
    | [] => 0
    end in
  let sessionNotes := crushNotes model tokenInput tokenOutput in
  let trimmed := Js.slice (- recentMessages) None allMessages in
  let enrichedSession := if Js.truthy model then withModel session model else session in
  generateHandoffLines SHELL_TOOLS READ_TOOLS WRITE_TOOLS EDIT_TOOLS GREP_TOOLS
    GLOB_TOOLS SEARCH_TOOLS FETCH_TOOLS TASK_TOOLS TASK_OUTPUT_TOOLS ASK_TOOLS
    classifyToolName toLocaleString adapters hostSort
    enrichedSession trimmed [] [] [] sessionNotes "inline".

(** *** Vocabulary of the properties of the Crush parser *)

(** The model of the first row that gives a message of the assistant and
    names a model. *)
Fixpoint firstAssistantModel (msgRows : list CrushMessageRow) : option string :=
  match msgRows with
  | [] => None
  | row :: rest =>
      if nonEmptyStr (extractTextFromParts (rowParts row))
         && negb (String.eqb (rowRole row) "user")
         && Js.truthy (rowModel row)
      then rowModel row else firstAssistantModel rest
  end.

End Parser.

(** The reading of an SQL string literal from the character after its
    opening apostrophe: a doubled apostrophe stands for one, a single one
    ends the literal. The result is the string the literal denotes and the
    text that follows the literal; there is none when the literal does not
    end. *)
Fixpoint readLiteral (s : string) : option (string * string) :=
  match s with
  | EmptyString => None
  | String c rest =>
      if Ascii.eqb c quote
      then
        match rest with
        | String c' rest' =>
            if Ascii.eqb c' quote
            then
              match readLiteral rest' with
              | Some (v, tail) => Some (String quote v, tail)
              | None => None
              end
            else Some (EmptyString, rest)
        | EmptyString => Some (EmptyString, EmptyString)
        end
      else
        match readLiteral rest with
        | Some (v, tail) => Some (String c v, tail)
        | None => None
        end
  end.

End Crush.

(** ** Antigravity (parsers/antigravity.ts) *)

Module Antigravity.

(** [s.indexOf(c)] for a character [c], counted from [i]. *)
Fixpoint indexOfFrom (c : ascii) (s : string) (i : Z) : Z :=
  match s with
  | EmptyString => -1
  | String a rest => if Ascii.eqb a c then i else indexOfFrom c rest (i + 1)
  end.

Definition indexOf (c : ascii) (s : string) : Z := indexOfFrom c s 0.

(** The opening brace. *)
Definition brace : ascii := ascii_of_nat 123.

Definition stripBinaryPrefix (line : string) : option string :=
  let idx := indexOf brace line in
  if idx =? -1 then None else Some (Js.strSlice idx None line).

(** The value of a field of a parsed object, as far as [typeof] tells:
    a string or something else. *)
Inductive JsonField : Type :=
  | JString (s : string)
  | JOtherField.

(** A parsed JSON value, as far as the parser looks into it: an object
    that is not an array, with its fields in the order of the text, or
    something else. *)
Inductive Json : Type :=
  | JObject (fields : list (string * JsonField))
  | JOther.

(** [obj[key]] on a parsed object: of two fields with one key the later
    one is kept. *)
Fixpoint field (key : string) (fields : list (string * JsonField)) : option JsonField :=
  match fields with
  | [] => None
  | (k, v) :: rest =>
      match field key rest with
      | Some v' => Some v'
      | None => if String.eqb k key then Some v else None
      end
  end.

Record AntigravityEntry : Type := {
  entryType : string;
  entryTimestamp : string;
  entryContent : string
}.

Section Parser.

(** [JSON.parse], [None] when it throws. *)
Variable parseJson : string -> option Json.

Definition parseLine (line : string) : option AntigravityEntry :=
  if negb (nonEmptyStr line) then None
  else
    match stripBinaryPrefix line with
    | None => None
    | Some json =>
        if negb (nonEmptyStr json) then None
        else
          match parseJson json with
          | Some (JObject fields) =>
              match field "type" fields, field "content" fields with
              | Some (JString t), Some (JString c) =>
                  Some {| entryType := t;
                          entryTimestamp :=
                            match field "timestamp" fields with
                            | Some (JString ts) => ts
                            | _ => EmptyString
                            end;
                          entryContent := c |}
              | _, _ => None
              end
          | _ => None
          end
    end.

End Parser.

End Antigravity.

(** ** Vocabulary of the further properties of the document *)

Definition isLastActiveRow (l : string) : bool := Js.startsWith l "| **Last Active** | ".

(** The Messages row of the overview, for a number of messages. *)
Definition messagesRow (n : nat) : string :=
  "| **Messages** | " +:+ Js.num (Z.of_nat n) +:+ " |".

(** The character does not occur in the string. *)
Definition absentFrom (c : ascii) (s : string) : Prop := Antigravity.indexOf c s = -1.

(** ** Sample inputs of the parsers *)

Module Trace.

(** A classifier that knows three tools of Copilot. *)
Definition classify (name : string) : option Category :=
  if String.eqb name "bash" then Some shell
  else if String.eqb name "edit" then Some edit
  else if String.eqb name "view" then Some read
  else None.

(** A stand-in for [JSON.stringify] that lists the keys. *)
Definition stringify (args : Copilot.Args) : string :=
  "{" +:+ Js.join "," (map fst args) +:+ "}".

Definition request (name : string) (args : Copilot.Args) : Copilot.ToolRequest :=
  {| Copilot.reqName := Some name; Copilot.reqArguments := Some args |}.

Definition userEvent (text : string) : Copilot.CopilotEvent :=
  {| Copilot.type := "user.message";
     Copilot.dataContent := Some text;
     Copilot.dataTransformedContent := None;
     Copilot.dataToolRequests := None |}.

Definition assistantEvent (text : option string) (reqs : list Copilot.ToolRequest)
    : Copilot.CopilotEvent :=
  {| Copilot.type := "assistant.message";
     Copilot.dataContent := text;
     Copilot.dataTransformedContent := None;
     Copilot.dataToolRequests := Some reqs |}.

Definition make : Copilot.ToolRequest := request "bash" [("command", "make")].
Definition editA : Copilot.ToolRequest := request "edit" [("path", "src/a.ts")].
Definition makeTest : Copilot.ToolRequest := request "bash" [("command", "make test")].

(** A session of three events with four tool requests, one of them of a
    tool that the classifier does not know. *)
Definition events : list Copilot.CopilotEvent :=
  [ userEvent "fix the build";
    assistantEvent None [make; editA; request "report_intent" []];
    assistantEvent (Some "done") [makeTest] ].

Definition twentyEvents : list Copilot.CopilotEvent := repeat (userEvent "again") 20.

Definition bashSummary : ToolUsageSummary :=
  {| name := "bash"; count := 2; errorCount := None;
     samples :=
       [ {| summary := "bash({command})";
            data := Some (ShellSample "make" None false None None) |};
         {| summary := "bash({command})";
            data := Some (ShellSample "make test" None false None None) |} ] |}.

(** An aggregate with errors, of the [github] namespace. *)
Definition flaky : ToolUsageSummary :=
  {| name := "mcp__github__get_issue"; count := 4; errorCount := Some 2; samples := [] |}.

Definition withErrors : list ToolUsageSummary := [Sample.listIssues; flaky].

Definition readTool : ToolUsageSummary := Sample.plainTool "Read" 1.

(** An Amp thread with a model tag and a ledger of two events, the first
    of them a title generation. *)
Definition thread : Amp.AmpThread :=
  {| Amp.messages :=
       [ {| Amp.messageRole := "user";
            Amp.messageContent :=
              Some [ {| Amp.blockType := "text"; Amp.blockText := Some "hello" |} ] |};
         {| Amp.messageRole := "assistant";
            Amp.messageContent :=
              Some [ {| Amp.blockType := "text"; Amp.blockText := Some "hi" |} ] |} ];
     Amp.tags := Some ["team:core"; "model:opus-x"];
     Amp.events :=
       Some [ {| Amp.eventModel := Some "haiku-y";
                 Amp.eventTokens :=
                   Some {| Amp.tokensInput := Some 10; Amp.tokensOutput := Some 2 |};
                 Amp.operationType := Some "title-generation" |};
              {| Amp.eventModel := Some "opus-x";
                 Amp.eventTokens :=
                   Some {| Amp.tokensInput := Some 100; Amp.tokensOutput := Some 20 |};
                 Amp.operationType := None |} ] |}.

Definition ampSession : UnifiedSession :=
  {| id := "T-1"; source := "amp"; cwd := EmptyString; repo := Some EmptyString;
     branch := None; updatedAtISO := "2026-01-02T03:04:05.000Z";
     sessionSummary := Some "hello"; model := Some "opus-x" |}.

(** A stand-in for [trim] on text without blanks around it. *)
Definition trim (s : string) : string := s.

Definition chunk (t : string) : Cline.ClineRawMessage :=
  {| Cline.type := "say"; Cline.say := Some "text"; Cline.text := Some t;
     Cline.partial := Some true |}.

Definition feedback (t : string) : Cline.ClineRawMessage :=
  {| Cline.type := "say"; Cline.say := Some "user_feedback"; Cline.text := Some t;
     Cline.partial := None |}.

(** Two bytes of a binary prefix. *)
Definition binaryPrefix : string :=
  String (ascii_of_nat 10) (String (ascii_of_nat 36) EmptyString).

(** A stand-in for [JSON.parse] that knows one text. *)
Definition parseJson (s : string) : option Antigravity.Json :=
  if String.eqb s "{entry}"
  then Some (Antigravity.JObject
               [ ("type", Antigravity.JString "user");
                 ("content", Antigravity.JString "hello") ])
  else None.

Definition tenMessages : list ConversationMessage :=
  repeat {| role := user; content := "go on" |} 10.

End Trace.
(** * Properties *)

(** ** Built-ins *)

Lemma slice_from_start {A} (n : Z) (l : list A) :
  0 <= n -> Js.slice 0 (Some n) l = take (Z.to_nat n) l.
Proof.
  intros Hn. unfold Js.slice, Js.clampIndex. cbv zeta.
  replace (0 <? 0) with false by reflexivity.
  destruct (Z.ltb_spec n 0); [lia|].
  rewrite (Z.min_l 0) by lia. change (Z.to_nat 0) with O. rewrite drop_0.
  destruct (Z.min_spec n (Z.of_nat (length l))) as [[Hm ->]|[Hm ->]];
    [by rewrite Z.sub_0_r|].
  rewrite Z.sub_0_r, Nat2Z.id.
  rewrite (take_ge l (Z.to_nat n)) by lia. by rewrite take_ge by lia.
Qed.

Lemma length_take_Z {A} (n : Z) (l : list A) :
  0 <= n -> Z.of_nat (length (take (Z.to_nat n) l)) = Z.min (Z.of_nat (length l)) n.
Proof. intros Hn. rewrite length_take. lia. Qed.

Lemma take_min_length {A} (n : Z) (l : list A) :
  0 <= n -> take (Z.to_nat (Z.min (Z.of_nat (length l)) n)) l = take (Z.to_nat n) l.
Proof.
  intros Hn. destruct (Z.min_spec (Z.of_nat (length l)) n) as [[Hm ->]|[Hm ->]]; [|done].
  rewrite Nat2Z.id. rewrite (take_ge l (Z.to_nat n)) by lia. by rewrite take_ge by lia.
Qed.

Lemma pushEach_flat_map {A} (body : A -> list string) xs lines :
  pushEach body xs lines = lines ++ flat_map body xs.
Proof.
  unfold pushEach, push. revert lines.
  induction xs as [|x xs IH]; intros lines; simpl.
  - by rewrite app_nil_r.
  - by rewrite IH, <- app_assoc.
Qed.

Lemma Forall_flat_map {A B} (P : B -> Prop) (f : A -> list B) (l : list A) :
  (forall x, Forall P (f x)) -> Forall P (flat_map f l).
Proof.
  intros Hf. induction l as [|x l IH]; simpl; [constructor|].
  apply Forall_app; split; [apply Hf | exact IH].
Qed.

Lemma filter_none {A} (p : A -> bool) (l : list A) :
  Forall (fun x => p x = false) l -> List.filter p l = [].
Proof. induction 1 as [|x l Hx _ IH]; simpl; [done|]. by rewrite Hx. Qed.

Lemma frameLine_inv l :
  frameLine l -> plainLine l /\ isEntryLine l = false /\ isQuotedLine l = false.
Proof.
  unfold frameLine, plainLine, isEntryLine.
  destruct (isOverflowLine l), (Js.startsWith l "- "), (isQuotedLine l); simpl; intuition.
Qed.

Lemma frame_plain l : Forall frameLine l -> Forall plainLine l.
Proof. intros H. eapply Forall_impl; [exact H|]. intros x Hx. by apply frameLine_inv. Qed.

Lemma frame_no_entries l : Forall frameLine l -> List.filter isEntryLine l = [].
Proof.
  intros H. apply filter_none. eapply Forall_impl; [exact H|].
  intros x Hx. by apply frameLine_inv.
Qed.

Lemma overflow_no_entries l :
  Forall (fun x => isOverflowLine x = true) l -> List.filter isEntryLine l = [].
Proof.
  intros H. apply filter_none. eapply Forall_impl; [exact H|].
  intros x Hx. unfold isEntryLine. rewrite Hx. by destruct (Js.startsWith x "- ").
Qed.

Lemma entries_flat_map (detail : ToolSample -> list string) l :
  (forall s, isEntry lineLayout (detail s)) ->
  length (List.filter isEntryLine (flat_map detail l)) = length l.
Proof.
  intros Hd. induction l as [|s l IH]; [done|].
  cbn [flat_map]. destruct (Hd s) as (text & -> & Hplain).
  cbn [app List.filter]. unfold isEntryLine at 1. rewrite Hplain.
  replace (Js.startsWith ("- " +:+ text) "- ") with true by reflexivity.
  cbn [andb negb length]. by rewrite IH.
Qed.

Lemma countBlocks_unquoted b l1 l2 :
  Forall (fun x => isQuotedLine x = false) l1 -> l1 <> [] \/ b = false ->
  countBlocksFrom b (l1 ++ l2) = countBlocksFrom false l2.
Proof.
  intros H. revert b. induction H as [|x l1 Hx Hl IH]; intros b Hb; cbn [app].
  - by destruct Hb as [? | ->].
  - cbn [countBlocksFrom]. rewrite Hx. apply IH. by right.
Qed.

Lemma countBlocks_none l :
  Forall (fun x => isQuotedLine x = false) l -> countBlocksFrom false l = O.
Proof.
  intros H. rewrite <- (app_nil_r l). rewrite countBlocks_unquoted; [done | done | by right].
Qed.

Lemma countBlocks_quoted block l2 :
  Forall (fun x => isQuotedLine x = true) block ->
  countBlocksFrom true (block ++ EmptyString :: l2) = countBlocksFrom false l2.
Proof.
  induction 1 as [|x block Hx Hb IH]; cbn [app countBlocksFrom].
  - reflexivity.
  - by rewrite Hx, IH.
Qed.

Lemma countBlocks_entry ls l2 :
  isEntry blockLayout ls ->
  countBlocksFrom false (ls ++ l2) = S (countBlocksFrom false l2).
Proof.
  intros (block & -> & Hne & Hq). destruct block as [|x block]; [done|].
  apply Forall_cons in Hq as [Hx Hq]. rewrite <- app_assoc.
  cbn [app countBlocksFrom]. rewrite Hx. f_equal.
  by apply countBlocks_quoted.
Qed.

Lemma countBlocks_flat_map (detail : ToolSample -> list string) l l2 :
  (forall s, isEntry blockLayout (detail s)) ->
  countBlocksFrom false (flat_map detail l ++ l2) = (length l + countBlocksFrom false l2)%nat.
Proof.
  intros Hd. induction l as [|s l IH]; [done|].
  cbn [flat_map length]. rewrite <- app_assoc, countBlocks_entry by done.
  by rewrite IH.
Qed.

Lemma entriesShown_section layout (detail : ToolSample -> list string) heading detailed
    overflow trail :
  (forall s, isEntry layout (detail s)) ->
  Forall frameLine heading -> Forall frameLine trail ->
  Forall (fun x => isOverflowLine x = true /\ isQuotedLine x = false) overflow ->
  entriesShown layout (heading ++ flat_map detail detailed ++ overflow ++ trail) =
  Z.of_nat (length detailed).
Proof.
  intros Hd Hh Ht Ho.
  assert (Ho1 : Forall (fun x => isOverflowLine x = true) overflow).
  { eapply Forall_impl; [exact Ho|]. by intros x [? _]. }
  assert (Ho2 : Forall (fun x => isQuotedLine x = false) overflow).
  { eapply Forall_impl; [exact Ho|]. by intros x [_ ?]. }
  assert (Hh2 : Forall (fun x => isQuotedLine x = false) heading).
  { eapply Forall_impl; [exact Hh|]. intros x Hx. by apply frameLine_inv. }
  assert (Ht2 : Forall (fun x => isQuotedLine x = false) trail).
  { eapply Forall_impl; [exact Ht|]. intros x Hx. by apply frameLine_inv. }
  destruct layout; cbn [entriesShown]; f_equal.
  - rewrite !List.filter_app, (frame_no_entries heading), (frame_no_entries trail) by done.
    rewrite (overflow_no_entries overflow) by done.
    rewrite app_nil_r. cbn [app]. by apply entries_flat_map.
  - rewrite (countBlocks_unquoted false heading) by (done || by right).
    rewrite countBlocks_flat_map by done.
    rewrite countBlocks_none; [lia|].
    apply Forall_app; by split.
Qed.

Lemma conserves_intro tool cap layout detail heading pre post trail out :
  0 <= cap ->
  Z.of_nat (length (samples tool)) <= count tool ->
  (pre = "*...and " \/ pre = "- *...and ") ->
  Js.startsWith post " more" = true ->
  Forall frameLine heading ->
  (forall s, Forall plainLine (detail s)) ->
  (forall s, isEntry layout (detail s)) ->
  Forall frameLine trail ->
  (let detailed := take (Z.to_nat cap) (samples tool) in
   let remaining := count tool - Z.of_nat (length detailed) in
   out = heading ++ flat_map detail detailed ++
         (if 0 <? remaining then [pre +:+ Js.num remaining +:+ post] else []) ++ trail) ->
  conserves tool cap layout detail out.
Proof.
  intros Hcap Hcount Hpre Hpost Hh Hd He Ht Hout. cbv zeta in Hout.
  unfold conserves. cbv zeta.
  rewrite take_min_length by done.
  pose proof (length_take_Z cap (samples tool) Hcap) as Hlen.
  rewrite Hlen in Hout.
  set (shown := Z.min (Z.of_nat (length (samples tool))) cap) in *.
  set (detailed := take (Z.to_nat cap) (samples tool)) in *.
  assert (Hline : isOverflowLine (pre +:+ Js.num (count tool - shown) +:+ post) = true
                  /\ isQuotedLine (pre +:+ Js.num (count tool - shown) +:+ post) = false)
    by (destruct Hpre as [-> | ->]; split; reflexivity).
  exists heading,
    (if 0 <? count tool - shown then [pre +:+ Js.num (count tool - shown) +:+ post] else []),
    trail.
  split; [exact Hout|]. split; [exact He|]. split; [|split].
  - transitivity (Z.of_nat (length detailed)); [|exact Hlen].
    rewrite Hout. apply entriesShown_section; try done.
    destruct (0 <? count tool - shown);
      [apply List.Forall_cons; [exact Hline | apply List.Forall_nil] | apply List.Forall_nil].
  - rewrite Hout, !List.filter_app.
    rewrite (filter_none _ heading (frame_plain _ Hh)), (filter_none _ trail (frame_plain _ Ht)).
    rewrite (filter_none _ (flat_map detail detailed)) by (by apply Forall_flat_map).
    simpl. rewrite app_nil_r. destruct (0 <? count tool - shown); simpl; [|done].
    by rewrite (proj1 Hline).
  - split.
    + intros Hlt. exists pre, post.
      destruct (Z.ltb_spec 0 (count tool - shown)); [done | lia].
    + intros Heq. destruct (Z.ltb_spec 0 (count tool - shown)); [lia | done].
Qed.

Lemma plain_quoted (l : string) : plainLine ("> " +:+ l).
Proof. reflexivity. Qed.

Lemma plain_empty : plainLine EmptyString.
Proof. reflexivity. Qed.

Lemma plain_fencedLines fence text n :
  0 <= n -> plainLine fence -> Forall plainLine (fencedLines fence text n).
Proof.
  intros Hn Hf. unfold fencedLines. cbv zeta.
  rewrite slice_from_start, pushEach_flat_map by done. unfold push.
  rewrite !Forall_app. repeat split.
  - by constructor.
  - apply Forall_flat_map. intros x. by repeat constructor.
  - by repeat constructor.
Qed.

(** Splits a [Forall plainLine] goal along [++] and [::] and closes the
    literal lines by computation. *)
Ltac plain_lines :=
  repeat first
    [ apply plain_fencedLines; [assumption | exact eq_refl]
    | apply List.Forall_nil
    | apply List.Forall_cons; [exact eq_refl|]
    | apply Forall_app; split
    | apply Forall_flat_map; intros ? ].

Lemma plain_renderShellSample sample n :
  0 <= n -> Forall plainLine (renderShellSample sample n).
Proof.
  intros Hn. unfold renderShellSample, push.
  destruct (data sample) as [[]|]; try (by plain_lines).
  destruct exitCode, (Js.truthy stdoutTail), (errored && Js.truthy errorMessage);
    plain_lines. 
Qed.

Lemma plain_pushDiff diff n lines :
  0 <= n -> Forall plainLine lines -> Forall plainLine (pushDiff diff n lines).
Proof.
  intros Hn Hl. unfold pushDiff. cbv zeta.
  rewrite slice_from_start, pushEach_flat_map by done. unfold push.
  destruct (Js.truthy diff); [|done].
  match goal with |- context [if ?c then _ else _] => destruct c end;
    plain_lines; done.
Qed.

Lemma plain_renderWriteSample sample n :
  0 <= n -> Forall plainLine (renderWriteSample sample n).
Proof.
  intros Hn. unfold renderWriteSample, push.
  destruct (data sample) as [[]|]; try (by plain_lines).
  apply Forall_app; split; [|by plain_lines].
  apply plain_pushDiff; [done|]. by plain_lines.
Qed.

Lemma plain_renderEditSample sample n :
  0 <= n -> Forall plainLine (renderEditSample sample n).
Proof.
  intros Hn. unfold renderEditSample, push.
  destruct (data sample) as [[]|]; try (by plain_lines).
  apply Forall_app; split; [|by plain_lines].
  apply plain_pushDiff; [done|]. by plain_lines.
Qed.

Lemma plain_renderReadEntry sample : Forall plainLine (renderReadEntry sample).
Proof. unfold renderReadEntry. destruct (data sample) as [[]|]; by plain_lines. Qed.

Lemma plain_renderGrepEntry sample : Forall plainLine (renderGrepEntry sample).
Proof. unfold renderGrepEntry. destruct (data sample) as [[]|]; by plain_lines. Qed.

Lemma plain_renderGlobEntry sample : Forall plainLine (renderGlobEntry sample).
Proof. unfold renderGlobEntry. destruct (data sample) as [[]|]; by plain_lines. Qed.

Lemma plain_formatCompactSample sample cat :
  plainLine ("- " +:+ formatCompactSample sample cat).
Proof. unfold formatCompactSample. destruct (data sample) as [[]|]; reflexivity. Qed.

Lemma quoted_fencedLines fence text n :
  0 <= n -> isQuotedLine fence = true ->
  Forall (fun l => isQuotedLine l = true) (fencedLines fence text n).
Proof.
  intros Hn Hf. unfold fencedLines. cbv zeta.
  rewrite slice_from_start, pushEach_flat_map by done. unfold push.
  rewrite !Forall_app. repeat split.
  - by constructor.
  - apply Forall_flat_map. intros x. by repeat constructor.
  - by repeat constructor.
Qed.

(** Splits a goal that every line is quoted along [++] and [::] and closes
    the literal lines by computation. *)
Ltac quoted_lines :=
  repeat first
    [ apply quoted_fencedLines; [assumption | exact eq_refl]
    | apply List.Forall_nil
    | apply List.Forall_cons; [exact eq_refl|]
    | apply Forall_app; split
    | apply Forall_flat_map; intros ? ].

Lemma entry_renderShellSample sample n :
  0 <= n -> isEntry blockLayout (renderShellSample sample n).
Proof.
  intros Hn. unfold renderShellSample, push. cbn [isEntry].
  destruct (data sample) as [[]|];
    try (exists ["> `" +:+ summary sample +:+ "`"];
         split; [reflexivity|]; split; [discriminate | by quoted_lines]).
  cbv zeta. eexists. split; [reflexivity|].
  destruct exitCode, (Js.truthy stdoutTail), (errored && Js.truthy errorMessage);
    (split; [cbn [app]; discriminate | quoted_lines]).
Qed.

Lemma quoted_pushDiff diff n lines :
  0 <= n -> Forall (fun l => isQuotedLine l = true) lines ->
  Forall (fun l => isQuotedLine l = true) (pushDiff diff n lines).
Proof.
  intros Hn Hl. unfold pushDiff. cbv zeta.
  rewrite slice_from_start, pushEach_flat_map by done. unfold push.
  destruct (Js.truthy diff); [|done].
  match goal with |- context [if ?c then _ else _] => destruct c end;
    quoted_lines; done.
Qed.

Lemma pushDiff_nonempty diff n l lines : pushDiff diff n (l :: lines) <> [].
Proof.
  unfold pushDiff. cbv zeta. rewrite pushEach_flat_map. unfold push.
  destruct (Js.truthy diff); [|discriminate].
  match goal with |- context [if ?c then _ else _] => destruct c end;
    cbn [app]; discriminate.
Qed.

Lemma entry_renderWriteSample sample n :
  0 <= n -> isEntry blockLayout (renderWriteSample sample n).
Proof.
  intros Hn. unfold renderWriteSample, push. cbn [isEntry].
  destruct (data sample) as [[]|];
    try (exists ["> `" +:+ summary sample +:+ "`"];
         split; [reflexivity|]; split; [discriminate | by quoted_lines]).
  cbv zeta. eexists. split; [reflexivity|]. split; [apply pushDiff_nonempty|].
  apply quoted_pushDiff; [done|]. by quoted_lines.
Qed.

Lemma entry_renderEditSample sample n :
  0 <= n -> isEntry blockLayout (renderEditSample sample n).
Proof.
  intros Hn. unfold renderEditSample, push. cbn [isEntry].
  destruct (data sample) as [[]|];
    try (exists ["> `" +:+ summary sample +:+ "`"];
         split; [reflexivity|]; split; [discriminate | by quoted_lines]).
  cbv zeta. eexists. split; [reflexivity|]. split; [apply pushDiff_nonempty|].
  apply quoted_pushDiff; [done|]. by quoted_lines.
Qed.

Lemma entry_renderReadEntry sample : isEntry lineLayout (renderReadEntry sample).
Proof.
  unfold renderReadEntry. cbn [isEntry].
  destruct (data sample) as [[]|]; cbv zeta; eexists; split; reflexivity.
Qed.

Lemma entry_renderGrepEntry sample : isEntry lineLayout (renderGrepEntry sample).
Proof.
  unfold renderGrepEntry. cbn [isEntry].
  destruct (data sample) as [[]|]; cbv zeta; eexists; split; reflexivity.
Qed.

Lemma entry_renderGlobEntry sample : isEntry lineLayout (renderGlobEntry sample).
Proof.
  unfold renderGlobEntry. cbn [isEntry].
  destruct (data sample) as [[]|]; cbv zeta; eexists; split; reflexivity.
Qed.

Lemma entry_formatCompactSample sample cat :
  isEntry lineLayout ["- " +:+ formatCompactSample sample cat].
Proof.
  exists (formatCompactSample sample cat). split; [reflexivity|].
  apply plain_formatCompactSample.
Qed.

Lemma entry_fallback sample : isEntry lineLayout ["- `" +:+ summary sample +:+ "`"].
Proof. exists ("`" +:+ summary sample +:+ "`"). split; reflexivity. Qed.

(** Unfolds a section renderer down to appends of its pieces. *)
Ltac open_section H :=
  cbv zeta; rewrite !slice_from_start, !pushEach_flat_map by exact H;
  unfold push;
  repeat match goal with |- context [if 0 <? ?r then _ else _] => destruct (0 <? r) end;
  simpl; rewrite ?app_nil_r, <- ?app_assoc; simpl; rewrite ?app_nil_r; reflexivity.

Lemma conserves_shell tool caps :
  nonnegCaps caps -> Z.of_nat (length (samples tool)) <= count tool ->
  conserves tool (shellDetailed caps) blockLayout
    (fun sample => renderShellSample sample (shellStdoutLines caps))
    (renderShellSection tool caps).
Proof.
  intros (Hsd & Hsl & _) Hcount.
  eapply (conserves_intro tool _ _ _
            ["### Shell (" +:+ Js.num (count tool) +:+ " calls" +:+ errorStr tool +:+ ")"; EmptyString]
            "*...and "
            (" more shell calls" +:+
             (if negb (Js.truthyNum (errorCount tool)) then " (all exit 0)" else EmptyString) +:+ "*")
            (if 0 <? count tool - Z.of_nat (length (take (Z.to_nat (shellDetailed caps)) (samples tool)))
             then [EmptyString] else []));
    try done; try (by left); try (by plain_lines).
  - intros s. by apply plain_renderShellSample.
  - intros s. by apply entry_renderShellSample.
  - destruct (0 <? _); by plain_lines.
  - unfold renderShellSection. open_section Hsd.
Qed.

Lemma conserves_write tool caps :
  nonnegCaps caps -> Z.of_nat (length (samples tool)) <= count tool ->
  conserves tool (writeEditDetailed caps) blockLayout
    (fun sample => renderWriteSample sample (writeEditDiffLines caps))
    (renderWriteSection tool caps).
Proof.
  intros (_ & _ & Hd & Hl & _) Hcount.
  eapply (conserves_intro tool _ _ _
            ["### Write (" +:+ Js.num (count tool) +:+ " calls" +:+ errorStr tool +:+ ")"; EmptyString]
            "*...and "
            (" more writes" +:+
             fileList (pushEach writeOverflowEntry
                         (Js.slice (writeEditDetailed caps) None (samples tool)) []) +:+ "*")
            (if 0 <? count tool - Z.of_nat (length (take (Z.to_nat (writeEditDetailed caps)) (samples tool)))
             then [EmptyString] else []));
    try done; try (by left); try (by plain_lines).
  - intros s. by apply plain_renderWriteSample.
  - intros s. by apply entry_renderWriteSample.
  - destruct (0 <? _); by plain_lines.
  - unfold renderWriteSection. open_section Hd.
Qed.

Lemma conserves_edit tool caps :
  nonnegCaps caps -> Z.of_nat (length (samples tool)) <= count tool ->
  conserves tool (writeEditDetailed caps) blockLayout
    (fun sample => renderEditSample sample (writeEditDiffLines caps))
    (renderEditSection tool caps).
Proof.
  intros (_ & _ & Hd & Hl & _) Hcount.
  eapply (conserves_intro tool _ _ _
            ["### Edit (" +:+ Js.num (count tool) +:+ " calls" +:+ errorStr tool +:+ ")"; EmptyString]
            "*...and "
            (" more edits" +:+
             fileList (pushEach editOverflowEntry
                         (Js.slice (writeEditDetailed caps) None (samples tool)) []) +:+ "*")
            (if 0 <? count tool - Z.of_nat (length (take (Z.to_nat (writeEditDetailed caps)) (samples tool)))
             then [EmptyString] else []));
    try done; try (by left); try (by plain_lines).
  - intros s. by apply plain_renderEditSample.
  - intros s. by apply entry_renderEditSample.
  - destruct (0 <? _); by plain_lines.
  - unfold renderEditSection. open_section Hd.
Qed.

Lemma conserves_read tool caps :
  nonnegCaps caps -> Z.of_nat (length (samples tool)) <= count tool ->
  conserves tool (readEntries caps) lineLayout renderReadEntry (renderReadSection tool caps).
Proof.
  intros (_ & _ & _ & _ & Hr & _) Hcount.
  eapply (conserves_intro tool _ _ _
            ["### Read (" +:+ Js.num (count tool) +:+ " calls" +:+ errorStr tool +:+ ")"; EmptyString]
            "- *...and " " more files read*" [EmptyString]);
    try done; try (by right); try (by plain_lines).
  - apply plain_renderReadEntry.
  - apply entry_renderReadEntry.
  - unfold renderReadSection. open_section Hr.
Qed.

Lemma conserves_grep tool caps :
  nonnegCaps caps -> Z.of_nat (length (samples tool)) <= count tool ->
  conserves tool (grepGlobSearchFetch caps) lineLayout renderGrepEntry (renderGrepSection tool caps).
Proof.
  intros (_ & _ & _ & _ & _ & Hg & _) Hcount.
  eapply (conserves_intro tool _ _ _
            ["### Grep (" +:+ Js.num (count tool) +:+ " calls" +:+ errorStr tool +:+ ")"; EmptyString]
            "- *...and " " more grep searches*" [EmptyString]);
    try done; try (by right); try (by plain_lines).
  - apply plain_renderGrepEntry.
  - apply entry_renderGrepEntry.
  - unfold renderGrepSection. open_section Hg.
Qed.

Lemma conserves_glob tool caps :
  nonnegCaps caps -> Z.of_nat (length (samples tool)) <= count tool ->
  conserves tool (grepGlobSearchFetch caps) lineLayout renderGlobEntry (renderGlobSection tool caps).
Proof.
  intros (_ & _ & _ & _ & _ & Hg & _) Hcount.
  eapply (conserves_intro tool _ _ _
            ["### Glob (" +:+ Js.num (count tool) +:+ " calls" +:+ errorStr tool +:+ ")"; EmptyString]
            "- *...and " " more glob calls*" [EmptyString]);
    try done; try (by right); try (by plain_lines).
  - apply plain_renderGlobEntry.
  - apply entry_renderGlobEntry.
  - unfold renderGlobSection. open_section Hg.
Qed.

Lemma compactCap_nonneg cat caps : nonnegCaps caps -> 0 <= compactCap cat caps.
Proof. intros (_ & _ & _ & _ & _ & Hg & Hm). by destruct cat. Qed.

Lemma conserves_compact tool cat caps :
  nonnegCaps caps -> Z.of_nat (length (samples tool)) <= count tool ->
  conserves tool (compactCap cat caps) lineLayout
    (fun sample => ["- " +:+ formatCompactSample sample cat])
    (renderCompactSection tool cat caps).
Proof.
  intros Hcaps Hcount. pose proof (compactCap_nonneg cat caps Hcaps) as Hc.
  eapply (conserves_intro tool _ _ _
            ["### " +:+
             (if Js.truthy (COMPACT_LABELS cat)
              then default EmptyString (COMPACT_LABELS cat) else name tool) +:+
             " (" +:+ Js.num (count tool) +:+ " calls" +:+ errorStr tool +:+ ")"; EmptyString]
            "- *...and " " more*" [EmptyString]);
    try done; try (by right); try (by plain_lines).
  - intros s. constructor; [apply plain_formatCompactSample | constructor].
  - intros s. apply entry_formatCompactSample.
  - unfold renderCompactSection. open_section Hc.
Qed.

Lemma conserves_fallback tool :
  Z.of_nat (length (samples tool)) <= count tool ->
  conserves tool 5 lineLayout (fun sample => ["- `" +:+ summary sample +:+ "`"])
    (renderFallbackSection tool).
Proof.
  intros Hcount.
  eapply (conserves_intro tool _ _ _
            ["### " +:+ name tool +:+ " (" +:+ Js.num (count tool) +:+ " calls)"; EmptyString]
            "- *...and " " more*" [EmptyString]);
    try done; try (by right); try (by plain_lines).
  - intros s. apply entry_fallback.
  - unfold renderFallbackSection.
    rewrite <- (length_take_Z 5 (samples tool)) by done.
    assert (H5 : 0 <= 5) by done. open_section H5.
Qed.

(** C1. For every aggregate whose [count] is at least the number of samples
    it carries, under caps that are not negative (as those of every mode
    are), each category renderer shows the first [min(samples.length, cap)]
    samples in detail, each as one entry of its own (a quoted block closed
    by an empty line in the shell, write and edit sections, one list line
    in the others), so that the entries of its output number
    [min(samples.length, cap)]; when [count] exceeds that number its output
    has exactly one overflow line, which states [count] minus the number
    shown, and when [count] equals it the output has no overflow line. *)
Theorem count_conservation (tool : ToolUsageSummary) (caps : DisplayCaps) :
  nonnegCaps caps ->
  Z.of_nat (length (samples tool)) <= count tool ->
  (forall mode, nonnegCaps (selectCaps mode))
  /\ conserves tool (shellDetailed caps) blockLayout
    (fun sample => renderShellSample sample (shellStdoutLines caps))
    (renderShellSection tool caps)
  /\ conserves tool (writeEditDetailed caps) blockLayout
       (fun sample => renderWriteSample sample (writeEditDiffLines caps))
       (renderWriteSection tool caps)
  /\ conserves tool (writeEditDetailed caps) blockLayout
       (fun sample => renderEditSample sample (writeEditDiffLines caps))
       (renderEditSection tool caps)
  /\ conserves tool (readEntries caps) lineLayout renderReadEntry (renderReadSection tool caps)
  /\ conserves tool (grepGlobSearchFetch caps) lineLayout renderGrepEntry (renderGrepSection tool caps)
  /\ conserves tool (grepGlobSearchFetch caps) lineLayout renderGlobEntry (renderGlobSection tool caps)
  /\ (forall cat,
        conserves tool (compactCap cat caps) lineLayout
          (fun sample => ["- " +:+ formatCompactSample sample cat])
          (renderCompactSection tool cat caps))
  /\ conserves tool 5 lineLayout (fun sample => ["- `" +:+ summary sample +:+ "`"])
       (renderFallbackSection tool).
Proof.
  intros Hcaps Hcount.
  split; [intros mode; unfold selectCaps, nonnegCaps; by destruct (String.eqb mode _)|].
  repeat split.
  - by apply conserves_shell.
  - by apply conserves_write.
  - by apply conserves_edit.
  - by apply conserves_read.
  - by apply conserves_grep.
  - by apply conserves_glob.
  - intros cat. by apply conserves_compact.
  - by apply conserves_fallback.
Qed.

(** ** Shell samples *)

Lemma flat_map_singleton {A B} (f : A -> B) (l : list A) :
  flat_map (fun x => [f x]) l = map f l.
Proof. induction l as [|x l IH]; simpl; [done|]. by rewrite IH. Qed.

Lemma fencedLines_quotedBlock fence text n :
  0 <= n -> fencedLines fence text n = quotedBlock fence text n.
Proof.
  intros Hn. unfold fencedLines, quotedBlock. cbv zeta.
  rewrite slice_from_start, pushEach_flat_map, flat_map_singleton by done.
  unfold push. simpl. rewrite <- ?app_assoc. done.
Qed.

Lemma renderShellSample_shape sample command exitCode errored stdoutTail errorMessage n :
  0 <= n ->
  data sample = Some (ShellSample command exitCode errored stdoutTail errorMessage) ->
  renderShellSample sample n =
    ["> `$ " +:+ command +:+ "`"] ++
    match exitCode with Some code => [exitLine code errored] | None => [] end ++
    shellBody errored stdoutTail errorMessage n ++ [EmptyString].
Proof.
  intros Hn Hd. unfold renderShellSample. rewrite Hd. cbv zeta.
  rewrite !fencedLines_quotedBlock by done. unfold push, shellBody, exitLine.
  destruct exitCode, stdoutTail as [[|]|], errored, errorMessage as [[|]|];
    simpl; rewrite <- ?app_assoc; reflexivity.
Qed.

Lemma quotedBlock_length fence text n :
  0 <= n -> Z.of_nat (length (quotedBlock fence text n)) <= n + 2.
Proof.
  intros Hn. unfold quotedBlock. simpl.
  rewrite length_app, length_map, length_take. simpl. lia.
Qed.

(** C6 (amended). A shell sample with structured data renders its command,
    then, when an exit code is known, an exit line that carries the error
    flag exactly when the sample's [errored] flag is set, then at most the
    configured number of lines of the stdout tail or, only when the call
    errored and has no stdout tail, of the error message, never both; and
    an aggregate of count 7 with 5 samples and no errors renders, under
    inline caps, its 5 detailed blocks followed by the line
    [*...and 2 more shell calls (all exit 0)*]. *)
Theorem shell_sample_rendering :
  (forall sample command exitCode errored stdoutTail errorMessage n,
     0 <= n ->
     data sample = Some (ShellSample command exitCode errored stdoutTail errorMessage) ->
     renderShellSample sample n =
       ["> `$ " +:+ command +:+ "`"] ++
       match exitCode with Some code => [exitLine code errored] | None => [] end ++
       shellBody errored stdoutTail errorMessage n ++ [EmptyString]
     /\ (shellBody errored stdoutTail errorMessage n =
           (if Js.truthy stdoutTail
            then quotedBlock "> ```" (default EmptyString stdoutTail) n
            else if errored && Js.truthy errorMessage
            then quotedBlock "> ```" (default EmptyString errorMessage) n
            else []))
     /\ Z.of_nat (length (shellBody errored stdoutTail errorMessage n)) <= n + 2)
  /\ (forall tool,
        count tool = 7 -> length (samples tool) = 5%nat ->
        Js.truthyNum (errorCount tool) = false ->
        renderShellSection tool INLINE_CAPS =
          ["### Shell (7 calls)"; EmptyString] ++
          flat_map (fun sample => renderShellSample sample 3) (samples tool) ++
          ["*...and 2 more shell calls (all exit 0)*"; EmptyString]).
Proof.
  split.
  - intros sample command exitCode errored stdoutTail errorMessage n Hn Hd.
    split; [by apply renderShellSample_shape|].
    assert (Hb : shellBody errored stdoutTail errorMessage n =
           (if Js.truthy stdoutTail
            then quotedBlock "> ```" (default EmptyString stdoutTail) n
            else if errored && Js.truthy errorMessage
            then quotedBlock "> ```" (default EmptyString errorMessage) n
            else []))
      by (unfold shellBody; destruct stdoutTail as [[|]|], errored, errorMessage as [[|]|];
          reflexivity).
    split; [exact Hb|]. rewrite Hb.
    destruct (Js.truthy stdoutTail); [by apply quotedBlock_length|].
    destruct (errored && Js.truthy errorMessage); [by apply quotedBlock_length|].
    simpl. lia.
  - intros tool Hc Hlen Herr. unfold renderShellSection. cbv zeta.
    change (shellDetailed INLINE_CAPS) with 5.
    change (shellStdoutLines INLINE_CAPS) with 3.
    rewrite slice_from_start, pushEach_flat_map by done.
    rewrite take_ge by (rewrite Hlen; done).
    unfold errorStr. rewrite Hc, Hlen, Herr. unfold push. simpl.
    by rewrite <- !app_assoc.
Qed.

(** ** Diff truncation *)

Lemma pushDiff_diffBlock diff c t n lines :
  0 <= n -> diff = Some (String c t) ->
  pushDiff diff n lines = lines ++ diffBlock (String c t) n.
Proof.
  intros Hn ->. unfold pushDiff, diffBlock, truncationNote, diffBody. cbv zeta.
  change (Js.truthy (Some (String c t))) with true. cbv iota.
  change (default EmptyString (Some (String c t))) with (String c t).
  set (body := List.filter isDiffBodyLine (Js.split Js.nl (String c t))).
  rewrite slice_from_start, pushEach_flat_map, flat_map_singleton by done.
  rewrite length_take_Z by done. unfold push.
  assert (Hcmp : (0 <? Z.of_nat (length body) - Z.min (Z.of_nat (length body)) n)
                 = (n <? Z.of_nat (length body))).
  { destruct (Z.ltb_spec n (Z.of_nat (length body))); [apply Z.ltb_lt | apply Z.ltb_ge]; lia. }
  rewrite Hcmp. destruct (Z.ltb_spec n (Z.of_nat (length body))) as [Hlt|Hge].
  - rewrite Z.min_r by lia. simpl. rewrite <- !app_assoc. reflexivity.
  - simpl. rewrite <- !app_assoc. reflexivity.
Qed.

Lemma diffBody_no_header diff :
  Forall (fun l => Js.startsWith l "---" = false /\ Js.startsWith l "+++" = false)
         (diffBody diff).
Proof.
  unfold diffBody. apply List.Forall_forall. intros l Hl.
  apply List.filter_In in Hl as [_ Hl]. unfold isDiffBodyLine in Hl.
  apply andb_true_iff in Hl as [H1 H2].
  by rewrite negb_true_iff in H1, H2.
Qed.

(** X28. For every write or edit sample with a non-empty diff, the
    rendering is a header line, the fence, the first lines of the diff that
    start neither with [---] nor with [+++], up to the cap, each quoted, the
    closing fence, and, when more such lines are there than the cap, a note
    that states how many of them were left out. *)
Theorem diff_block_shape :
  (forall diff, Forall (fun l => Js.startsWith l "---" = false /\ Js.startsWith l "+++" = false)
                       (diffBody diff))
  /\ (forall sample filePath isNewFile c t diffStats n,
        0 <= n ->
        data sample = Some (WriteSample filePath isNewFile (Some (String c t)) diffStats) ->
        exists header,
          renderWriteSample sample n = [header] ++ diffBlock (String c t) n ++ [EmptyString])
  /\ (forall sample filePath c t diffStats n,
        0 <= n ->
        data sample = Some (EditSample filePath (Some (String c t)) diffStats) ->
        exists header,
          renderEditSample sample n = [header] ++ diffBlock (String c t) n ++ [EmptyString])
  /\ (forall diff n,
        0 <= n ->
        Z.of_nat (length (take (Z.to_nat n) (diffBody diff))) <= n
        /\ (n < Z.of_nat (length (diffBody diff)) ->
            truncationNote (Z.of_nat (length (diffBody diff))) n =
              ["> *+" +:+ Js.num (Z.of_nat (length (diffBody diff)) - n) +:+ " lines truncated*"])
        /\ (Z.of_nat (length (diffBody diff)) <= n ->
            truncationNote (Z.of_nat (length (diffBody diff))) n = [])).
Proof.
  split; [exact diffBody_no_header|]. split; [|split].
  - intros sample filePath isNewFile c t diffStats n Hn Hd.
    unfold renderWriteSample. rewrite Hd. cbv zeta.
    erewrite pushDiff_diffBlock by done. unfold push. eexists.
    rewrite <- app_assoc. reflexivity.
  - intros sample filePath c t diffStats n Hn Hd.
    unfold renderEditSample. rewrite Hd. cbv zeta.
    erewrite pushDiff_diffBlock by done. unfold push. eexists.
    rewrite <- app_assoc. reflexivity.
  - intros diff n Hn. split; [rewrite length_take; lia|]. unfold truncationNote. split.
    + intros Hlt. by destruct (Z.ltb_spec n (Z.of_nat (length (diffBody diff)))); [|lia].
    + intros Hge. by destruct (Z.ltb_spec n (Z.of_nat (length (diffBody diff)))); [lia|].
Qed.

(** C7. A diff of two header lines and 300 body lines, the first of which
    adds the line [++i;] and so reads [+++i;]: the filter that is meant to
    skip the two header lines drops that body line with them. Under the
    inline cap of 50 the write and the edit sample show 50 of the 299 lines
    left, none of them the dropped one, and the note reads
    [*+249 lines truncated*], not [*+250 lines truncated*]. *)
Theorem diff_header_filter_drops_body_line :
  Js.split Js.nl Sample.incrementDiff =
    ["--- a/counter.c"; "+++ b/counter.c"] ++ Sample.incrementBody
  /\ length Sample.incrementBody = 300%nat
  /\ take 50 Sample.incrementBody = "+++i;" :: repeat "+line" 49
  /\ writeEditDiffLines INLINE_CAPS = 50
  /\ renderWriteSample Sample.incrementWrite (writeEditDiffLines INLINE_CAPS) =
       "> **`counter.c`**" :: "> ```diff" :: repeat "> +line" 50 ++
       ["> ```"; "> *+249 lines truncated*"; EmptyString]
  /\ renderEditSample Sample.incrementEdit (writeEditDiffLines INLINE_CAPS) =
       "> **`counter.c`**" :: "> ```diff" :: repeat "> +line" 50 ++
       ["> ```"; "> *+249 lines truncated*"; EmptyString].
Proof. repeat split; vm_compute; reflexivity. Qed.

(** ** Stable sorting *)

Section Sort.

Context {A : Type} (key : A -> Z).

Local Abbreviation cmp := (fun a b : A => key a - key b).
Local Abbreviation le := (fun a b : A => key a <= key b).

Lemma sortInsert_Permutation x l : Permutation (Js.sortInsert cmp x l) (x :: l).
Proof.
  induction l as [|y l IH]; simpl; [done|].
  destruct (cmp x y <=? 0); [done|].
  rewrite IH. apply perm_swap.
Qed.

Lemma sort_Permutation l : Permutation (Js.sort cmp l) l.
Proof.
  induction l as [|x l IH]; simpl; [done|].
  rewrite sortInsert_Permutation. by constructor.
Qed.

Lemma sortInsert_StronglySorted x l :
  StronglySorted le l -> StronglySorted le (Js.sortInsert cmp x l).
Proof.
  induction 1 as [|y l Hs IH Hy]; simpl.
  - repeat constructor.
  - cbv beta. destruct (Z.leb_spec (key x - key y) 0) as [Hle|Hgt].
    + constructor; [by constructor|]. constructor; [lia|].
      eapply Forall_impl; [exact Hy|]. simpl. intros; lia.
    + constructor; [exact IH|].
      eapply Permutation_Forall; [symmetry; apply sortInsert_Permutation|].
      constructor; [lia | exact Hy].
Qed.

Lemma sort_StronglySorted l : StronglySorted le (Js.sort cmp l).
Proof.
  induction l as [|x l IH]; simpl; [constructor|].
  by apply sortInsert_StronglySorted.
Qed.

Lemma sortInsert_stable p x l :
  List.filter (fun a => key a =? p) (Js.sortInsert cmp x l) =
  List.filter (fun a => key a =? p) (x :: l).
Proof.
  induction l as [|y l IH]; [done|].
  cbn [Js.sortInsert]. cbv beta.
  destruct (Z.leb_spec (key x - key y) 0) as [Hle|Hgt]; [done|].
  cbn [List.filter] in *. rewrite IH.
  destruct (Z.eqb_spec (key x) p), (Z.eqb_spec (key y) p); try done. lia.
Qed.

Lemma sort_stable p l :
  List.filter (fun a => key a =? p) (Js.sort cmp l) =
  List.filter (fun a => key a =? p) l.
Proof.
  induction l as [|x l IH]; [done|].
  cbn [Js.sort]. rewrite sortInsert_stable. cbn [List.filter]. by rewrite IH.
Qed.

Lemma sort_keys_invariant l l' :
  Permutation l l' -> map key (Js.sort cmp l') = map key (Js.sort cmp l).
Proof.
  intros Hp. apply (StronglySorted_unique Z.le).
  - apply (StronglySorted_fmap key le Z.le); [done | apply sort_StronglySorted].
  - apply (StronglySorted_fmap key le Z.le); [done | apply sort_StronglySorted].
  - apply Permutation_map. by rewrite !sort_Permutation.
Qed.

End Sort.

Lemma sortInsert_ext {A} (c c' : A -> A -> Z) x l :
  (forall y, y ∈ l -> c x y = c' x y) -> Js.sortInsert c x l = Js.sortInsert c' x l.
Proof.
  induction l as [|y l IH]; intros Heq; cbn [Js.sortInsert]; [done|].
  rewrite (Heq y) by (by left). rewrite IH; [done|].
  intros z Hz. apply Heq. by right.
Qed.

Lemma sort_ext {A} (c c' : A -> A -> Z) l :
  (forall x y, x ∈ l -> y ∈ l -> c x y = c' x y) -> Js.sort c l = Js.sort c' l.
Proof.
  induction l as [|x l IH]; intros Heq; cbn [Js.sort]; [done|].
  rewrite IH by (intros y z Hy Hz; apply Heq; by right).
  apply sortInsert_ext. intros y Hy. apply Heq; [by left|]. right.
  clear -Hy. revert y Hy. induction l as [|z l IH]; cbn [Js.sort]; intros y Hy; [done|].
  assert (Hin : forall w, w ∈ Js.sortInsert c' z (Js.sort c' l) ->
                          w = z \/ w ∈ Js.sort c' l).
  { generalize (Js.sort c' l). intros m. induction m as [|v m IHm]; cbn [Js.sortInsert]; intros w Hw.
    - apply list_elem_of_singleton in Hw. by left.
    - destruct (c' z v <=? 0).
      + apply elem_of_cons in Hw as [-> | Hw]; [by left | by right].
      + apply elem_of_cons in Hw as [-> | Hw]; [right; by left|].
        destruct (IHm w Hw) as [-> | Hm]; [by left | right; by right]. }
  destruct (Hin y Hy) as [-> | Hy']; [by left | right; by apply IH].
Qed.

Lemma StronglySorted_Forall_impl {A} (R R' : A -> A -> Prop) (P : A -> Prop) l :
  (forall a b, P a -> P b -> R a b -> R' a b) ->
  Forall P l -> StronglySorted R l -> StronglySorted R' l.
Proof.
  intros Himpl HP Hs. induction Hs as [|x l Hs IH Hx]; [constructor|].
  apply Forall_cons in HP as [Px Pl]. constructor; [by apply IH|].
  clear IH Hs. induction l as [|y l IHl]; [constructor|].
  apply Forall_cons in Pl as [Py Pl]. apply Forall_cons in Hx as [Hxy Hx].
  constructor; [by apply Himpl | by apply IHl].
Qed.

(** ** Category priorities and the order of the Tool Activity section *)

Lemma assignPriority_lookup (order : gmap string Z) (set : list string) (p : Z) (name : string) :
  assignPriority order (set, p) !! name =
  if decide (name ∈ set /\ name <> "__proto__") then Some p else order !! name.
Proof.
  unfold assignPriority. cbn [fst snd]. revert order.
  induction set as [|x set IH]; intros order; cbn [fold_left].
  - case_decide as H; [|done]. destruct H as [H _]. destruct (not_elem_of_nil _ H).
  - rewrite IH. destruct (String.eqb_spec x "__proto__") as [-> | Hx].
    + repeat case_decide; try done.
      * exfalso. apply H0. split; [right|]; tauto.
      * exfalso. apply H. destruct H0 as [[-> | Hin]%elem_of_cons Hne]; [done | tauto].
    + repeat case_decide; try done.
      * exfalso. apply H0. split; [right|]; tauto.
      * destruct H0 as [[-> | Hin]%elem_of_cons Hne]; [|tauto]. by rewrite lookup_insert_eq.
      * rewrite lookup_insert_ne; [done|]. intros <-. apply H0. split; [by left|].
        intros ->. done.
Qed.

Lemma fold_assignPriority_lookup (mapping : list (list string * Z))
    (order : gmap string Z) (name : string) :
  fold_left assignPriority mapping order !! name =
  match lastMatch mapping name with
  | Some q => if decide (name = "__proto__") then order !! name else Some q
  | None => order !! name
  end.
Proof.
  revert order. induction mapping as [|[set p] rest IH]; intros order; simpl; [done|].
  rewrite IH, assignPriority_lookup. destruct (lastMatch rest name).
  - repeat case_decide; try done. tauto.
  - repeat case_decide; try done; tauto.
Qed.

Lemma lastMatch_None mapping name :
  (forall set p, In (set, p) mapping -> name ∉ set) -> lastMatch mapping name = None.
Proof.
  induction mapping as [|[set p] rest IH]; intros Hno; simpl; [done|].
  rewrite IH by (intros; eapply Hno; right; eauto).
  rewrite decide_False; [done|]. eapply Hno. by left.
Qed.

Lemma lastMatch_Some mapping name q :
  lastMatch mapping name = Some q -> exists set, In (set, q) mapping /\ name ∈ set.
Proof.
  induction mapping as [|[set p] rest IH]; simpl; [done|].
  destruct (lastMatch rest name) as [q'|] eqn:E.
  - intros [= <-]. destruct (IH eq_refl) as (set' & Hin & Hn). exists set'. eauto.
  - destruct (decide (name ∈ set)); [|done]. intros [= <-]. exists set. eauto.
Qed.

Lemma lastMatch_is_Some mapping name set p :
  In (set, p) mapping -> name ∈ set -> is_Some (lastMatch mapping name).
Proof.
  induction mapping as [|[set' p'] rest IH]; simpl; [done|].
  intros [[= -> ->]|Hin] Hn.
  - destruct (lastMatch rest name); [by eexists|]. rewrite decide_True by done. by eexists.
  - destruct (IH Hin Hn) as [q ->]. by eexists.
Qed.

Section Taxonomy.

Context (SHELL_TOOLS READ_TOOLS WRITE_TOOLS EDIT_TOOLS GREP_TOOLS GLOB_TOOLS
  SEARCH_TOOLS FETCH_TOOLS TASK_TOOLS TASK_OUTPUT_TOOLS ASK_TOOLS : list string)
  (hostSort : list ToolUsageSummary -> list ToolUsageSummary).

Local Abbreviation mapping :=
  (categoryMapping SHELL_TOOLS READ_TOOLS WRITE_TOOLS EDIT_TOOLS GREP_TOOLS GLOB_TOOLS
    SEARCH_TOOLS FETCH_TOOLS TASK_TOOLS TASK_OUTPUT_TOOLS ASK_TOOLS).

Local Abbreviation priority :=
  (getCategoryOrder SHELL_TOOLS READ_TOOLS WRITE_TOOLS EDIT_TOOLS GREP_TOOLS GLOB_TOOLS
    SEARCH_TOOLS FETCH_TOOLS TASK_TOOLS TASK_OUTPUT_TOOLS ASK_TOOLS).

Local Abbreviation compare :=
  (comparePriority SHELL_TOOLS READ_TOOLS WRITE_TOOLS EDIT_TOOLS GREP_TOOLS GLOB_TOOLS
    SEARCH_TOOLS FETCH_TOOLS TASK_TOOLS TASK_OUTPUT_TOOLS ASK_TOOLS).

Local Abbreviation sorted :=
  (sortByCategoryOrder SHELL_TOOLS READ_TOOLS WRITE_TOOLS EDIT_TOOLS GREP_TOOLS GLOB_TOOLS
    SEARCH_TOOLS FETCH_TOOLS TASK_TOOLS TASK_OUTPUT_TOOLS ASK_TOOLS hostSort).

Local Abbreviation rankKey := (fun t : ToolUsageSummary => rankOf (priority (name t))).

Lemma getCategoryOrder_lastMatch toolName :
  priority toolName =
  match lastMatch mapping toolName with
  | Some q => if decide (toolName = "__proto__") then Member else Rank q
  | None => if bool_decide (toolName ∈ Js.objectPrototypeKeys) then Member else Rank 10
  end.
Proof.
  unfold getCategoryOrder, CATEGORY_ORDER, buildCategoryOrder.
  rewrite fold_assignPriority_lookup.
  destruct (lastMatch mapping toolName); [|by rewrite lookup_empty].
  case_decide as Hp; [|done]. rewrite lookup_empty. by rewrite Hp.
Qed.

Lemma priority_absent toolName :
  (forall set p, In (set, p) mapping -> toolName ∉ set) ->
  toolName ∉ Js.objectPrototypeKeys ->
  priority toolName = Rank 10.
Proof.
  intros H Hk. rewrite getCategoryOrder_lastMatch, lastMatch_None by done.
  by rewrite bool_decide_eq_false_2.
Qed.

Lemma priority_member toolName :
  (forall set p, In (set, p) mapping -> toolName ∉ set) ->
  toolName ∈ Js.objectPrototypeKeys ->
  priority toolName = Member.
Proof.
  intros H Hk. rewrite getCategoryOrder_lastMatch, lastMatch_None by done.
  by rewrite bool_decide_eq_true_2.
Qed.

Lemma priority_present toolName set p :
  In (set, p) mapping -> toolName ∈ set ->
  (forall set' p', In (set', p') mapping -> toolName ∈ set' -> p' = p) ->
  toolName <> "__proto__" ->
  priority toolName = Rank p.
Proof.
  intros Hin Hn Hsame Hne. rewrite getCategoryOrder_lastMatch.
  destruct (lastMatch_is_Some mapping toolName set p Hin Hn) as [q Hq]. rewrite Hq.
  rewrite decide_False by done.
  destruct (lastMatch_Some _ _ _ Hq) as (set' & Hin' & Hn'). f_equal. eauto.
Qed.

Lemma priority_range toolName p : priority toolName = Rank p -> 0 <= p <= 10.
Proof.
  rewrite getCategoryOrder_lastMatch.
  destruct (lastMatch mapping toolName) as [q|] eqn:E.
  - case_decide; [done|]. intros [= <-].
    destruct (lastMatch_Some _ _ _ E) as (set & Hin & _).
    unfold categoryMapping in Hin. simpl in Hin.
    repeat (destruct Hin as [[= _ <-]|Hin]; [lia|]). done.
  - case_bool_decide; [done|]. intros [= <-]. lia.
Qed.

Lemma compare_member a b :
  priority (name a) = Member \/ priority (name b) = Member -> compare a b = None.
Proof.
  unfold comparePriority. intros [-> | ->]; [done|]. by destruct (priority (name a)).
Qed.

Lemma ranked_priority t : isRank (priority (name t)) = true -> priority (name t) = Rank (rankKey t).
Proof. cbv beta. by destruct (priority (name t)). Qed.

Lemma compare_ranked a b :
  isRank (priority (name a)) = true -> isRank (priority (name b)) = true ->
  compare a b = Some (rankKey a - rankKey b).
Proof.
  unfold comparePriority. cbv beta. by destruct (priority (name a)), (priority (name b)).
Qed.

Lemma allRanked_forallb l :
  forallb (fun t => isRank (priority (name t))) l = true <-> allRanked priority l.
Proof.
  unfold allRanked. rewrite forallb_forall, List.Forall_forall. done.
Qed.

Lemma sorted_ranked l :
  allRanked priority l -> sorted l = Js.sort (fun a b => rankKey a - rankKey b) l.
Proof.
  intros Hr. unfold sortByCategoryOrder.
  rewrite (proj2 (allRanked_forallb l) Hr). apply sort_ext.
  intros x y Hx Hy. unfold allRanked in Hr. rewrite Forall_forall in Hr.
  by rewrite compare_ranked by auto.
Qed.

Lemma sorted_unranked l :
  ~ allRanked priority l -> 2 <= Z.of_nat (length l) -> sorted l = hostSort l.
Proof.
  intros Hr Hlen. unfold sortByCategoryOrder.
  destruct (forallb _ l) eqn:E; [by apply allRanked_forallb in E|].
  destruct (Z.ltb_spec (Z.of_nat (length l)) 2); [lia | done].
Qed.

Lemma sorted_short l : Z.of_nat (length l) < 2 -> sorted l = l.
Proof.
  intros Hlen. unfold sortByCategoryOrder.
  destruct (forallb _ l).
  - destruct l as [|x [|y l]]; [done | done | simpl in Hlen; lia].
  - destruct (Z.ltb_spec (Z.of_nat (length l)) 2); [done | lia].
Qed.

Lemma rankLe_ranked l :
  StronglySorted (rankLe priority) l -> 2 <= Z.of_nat (length l) -> allRanked priority l.
Proof.
  intros Hs Hlen. unfold allRanked.
  destruct Hs as [|x l Hs Hx]; [constructor|].
  destruct l as [|y l]; [simpl in Hlen; lia|].
  assert (Hl : Forall (fun t => isRank (priority (name t)) = true) (y :: l)).
  { eapply Forall_impl; [exact Hx|]. intros t (a & b & _ & -> & _). done. }
  constructor; [|exact Hl].
  apply Forall_cons in Hx as [(a & b & -> & _ & _) _]. done.
Qed.

Lemma rankLe_rankKey l :
  StronglySorted (rankLe priority) l ->
  StronglySorted (fun a b => rankKey a <= rankKey b) l.
Proof.
  apply (StronglySorted_Forall_impl _ _ (fun _ => True)).
  - intros a b _ _ (x & y & Ha & Hb & Hle). cbv beta. by rewrite Ha, Hb.
  - by apply Forall_true.
Qed.

Lemma rankKey_rankLe l :
  allRanked priority l ->
  StronglySorted (fun a b => rankKey a <= rankKey b) l ->
  StronglySorted (rankLe priority) l.
Proof.
  apply StronglySorted_Forall_impl.
  intros a b Ha Hb Hle. exists (rankKey a), (rankKey b).
  by rewrite <- !ranked_priority.
Qed.

Lemma ofPriority_ranked p l :
  allRanked priority l ->
  ofPriority priority (Rank p) l = List.filter (fun t => rankKey t =? p) l.
Proof.
  unfold ofPriority. induction 1 as [|t l Ht Hl IH]; [done|].
  cbn [List.filter]. rewrite IH. revert Ht. cbv beta.
  destruct (priority (name t)) as [q|]; intros Ht; [|discriminate Ht]. cbn [rankOf].
  destruct (Z.eqb_spec q p) as [-> | Hne].
  - by rewrite bool_decide_eq_true_2.
  - rewrite bool_decide_eq_false_2; [done|]. by intros [= ?].
Qed.

Lemma ofPriority_member l :
  allRanked priority l -> ofPriority priority Member l = [].
Proof.
  unfold ofPriority. induction 1 as [|t l Ht Hl IH]; [done|].
  cbn [List.filter]. rewrite IH. revert Ht.
  destruct (priority (name t)) as [q|]; intros Ht; [done | discriminate Ht].
Qed.

Lemma allRanked_Permutation l l' :
  Permutation l l' -> allRanked priority l -> allRanked priority l'.
Proof. unfold allRanked. apply Permutation_Forall. Qed.

Lemma map_priority_ranked l :
  allRanked priority l ->
  map (fun t => priority (name t)) l = map Rank (map rankKey l).
Proof.
  induction 1 as [|t l Ht Hl IH]; [done|]. cbn [map]. by rewrite IH, <- ranked_priority.
Qed.

(** X27. The priorities come from the canonical sets in the order shell 0,
    write 1, edit 2, read 3, grep 4, glob 5, search 6, fetch 7, task and
    task-output 8, ask 9. A name found in sets of one priority has that
    priority, unless it is [__proto__]; a name in no set that names no
    member of [Object.prototype] has priority 10, and every priority that
    is a number lies between 0 and 10. A list whose aggregates all have a
    number for their priority is sorted into a permutation of it in
    ascending priority in which the aggregates of each priority keep their
    input order, and every permutation of that list is sorted into the same
    sequence of priorities. *)
Theorem category_sort_of_ranked :
  map snd mapping = [0; 1; 2; 3; 4; 5; 6; 7; 8; 8; 9]
  /\ map fst mapping =
       [SHELL_TOOLS; WRITE_TOOLS; EDIT_TOOLS; READ_TOOLS; GREP_TOOLS; GLOB_TOOLS;
        SEARCH_TOOLS; FETCH_TOOLS; TASK_TOOLS; TASK_OUTPUT_TOOLS; ASK_TOOLS]
  /\ (forall toolName set p,
        In (set, p) mapping -> toolName ∈ set ->
        (forall set' p', In (set', p') mapping -> toolName ∈ set' -> p' = p) ->
        toolName <> "__proto__" ->
        priority toolName = Rank p)
  /\ (forall toolName,
        (forall set p, In (set, p) mapping -> toolName ∉ set) ->
        toolName ∉ Js.objectPrototypeKeys ->
        priority toolName = Rank 10)
  /\ (forall toolName p, priority toolName = Rank p -> 0 <= p <= 10)
  /\ (forall l,
        allRanked priority l ->
        Permutation (sorted l) l
        /\ StronglySorted (rankLe priority) (sorted l)
        /\ (forall v, ofPriority priority v (sorted l) = ofPriority priority v l)
        /\ (forall l',
              Permutation l l' ->
              map (fun t => priority (name t)) (sorted l') =
              map (fun t => priority (name t)) (sorted l))).
Proof.
  split; [reflexivity|]. split; [reflexivity|].
  split; [exact priority_present|]. split; [exact priority_absent|].
  split; [exact priority_range|].
  intros l Hr.
  assert (Hperm : Permutation (sorted l) l).
  { rewrite sorted_ranked by done. apply (sort_Permutation rankKey). }
  assert (Hrs : allRanked priority (sorted l)).
  { eapply allRanked_Permutation; [symmetry; exact Hperm | exact Hr]. }
  split; [exact Hperm|]. split; [|split].
  - apply rankKey_rankLe; [exact Hrs|].
    rewrite sorted_ranked by done. apply (sort_StronglySorted rankKey).
  - intros [p|].
    + rewrite !ofPriority_ranked by done. rewrite sorted_ranked by done.
      apply (sort_stable rankKey).
    + by rewrite !ofPriority_member.
  - intros l' Hp.
    assert (Hr' : allRanked priority l') by (by eapply allRanked_Permutation).
    assert (Hperm' : Permutation (sorted l') l').
    { rewrite sorted_ranked by done. apply (sort_Permutation rankKey). }
    rewrite !map_priority_ranked
      by (eapply allRanked_Permutation; [symmetry; eassumption | done]).
    f_equal. rewrite !sorted_ranked by done.
    by apply (sort_keys_invariant rankKey).
Qed.

(** C4. A tool name that no canonical set has and that names a member of
    [Object.prototype] ([constructor], [toString], ...) is not given the
    priority 10: the lookup returns the inherited member, which is not a
    number; every comparison of an aggregate of that name with another is
    NaN, and the order of a list of two or more aggregates with one of that
    name is the one the host's sort leaves, whatever it is. *)
Theorem category_order_inherited_member (toolName : string) :
  toolName ∈ Js.objectPrototypeKeys ->
  (forall set p, In (set, p) mapping -> toolName ∉ set) ->
  priority toolName = Member
  /\ priority toolName <> Rank 10
  /\ (forall a b, name a = toolName \/ name b = toolName -> compare a b = None)
  /\ (forall l,
        (exists t, t ∈ l /\ name t = toolName) -> 2 <= Z.of_nat (length l) ->
        sorted l = hostSort l).
Proof.
  intros Hk Hno. assert (Hm : priority toolName = Member) by (by apply priority_member).
  split; [exact Hm|]. split; [by rewrite Hm|]. split.
  - intros a b [<- | <-]; apply compare_member; [by left | by right].
  - intros l (t & Ht & <-) Hlen. apply sorted_unranked; [|done].
    unfold allRanked. rewrite Forall_forall. intros Hr. specialize (Hr t Ht).
    by rewrite Hm in Hr.
Qed.

Context (classifyToolName : string -> option Category).

Local Abbreviation detect := (detectCategory classifyToolName).
Local Abbreviation group := (groupMcpByNamespace classifyToolName).
Local Abbreviation nsOf := (namespaceOf classifyToolName).

(** C5 (amended). The rendering category of an aggregate is the category tag
    of its first sample's structured payload when that sample has one, and
    otherwise the result of the name-based classifier on the aggregate's
    name, or [mcp] when the classifier has none. *)
Theorem category_resolution :
  (forall tool sample rest d,
     samples tool = sample :: rest -> data sample = Some d ->
     detect tool = category d)
  /\ (forall tool sample rest,
        samples tool = sample :: rest -> data sample = None ->
        detect tool = default mcp (classifyToolName (name tool)))
  /\ (forall tool,
        samples tool = [] ->
        detect tool = default mcp (classifyToolName (name tool)))
  /\ (forall tool,
        head (samples tool) ≫= data = None -> classifyToolName (name tool) = None ->
        detect tool = mcp).
Proof.
  unfold detectCategory. repeat split.
  - intros tool sample rest d -> Hd. simpl. by rewrite Hd.
  - intros tool sample rest -> Hd. simpl. by rewrite Hd.
  - by intros tool ->.
  - by intros tool -> ->.
Qed.

(** ** Namespace grouping *)

Lemma groupStep_namespaceOf result nsGroups tool :
  groupStep classifyToolName (result, nsGroups) tool =
  match nsOf tool with
  | Some ns => (result, nsGroupsPush ns tool nsGroups)
  | None => (result ++ [tool], nsGroups)
  end.
Proof.
  unfold groupStep, namespaceOf. cbv zeta.
  destruct (bool_decide (detect tool = mcp)), (Js.startsWith (name tool) "mcp__"); simpl; try done.
  by destruct (Z.of_nat (length (Js.split "__" (name tool))) <? 3).
Qed.

Lemma elem_of_firstOccurrences x l : x ∈ firstOccurrences l <-> x ∈ l.
Proof.
  induction l as [|y l IH]; simpl; [done|].
  rewrite !elem_of_cons, <- IH, !list_elem_of_In, List.filter_In, <- !list_elem_of_In.
  destruct (String.eqb_spec x y) as [->|Hne]; simpl; intuition congruence.
Qed.

Lemma NoDup_firstOccurrences l : NoDup (firstOccurrences l).
Proof.
  induction l as [|y l IH]; simpl; [constructor|].
  constructor.
  - rewrite list_elem_of_In, List.filter_In. intros [_ H].
    by rewrite String.eqb_refl in H.
  - by apply NoDup_ListNoDup, List.NoDup_filter, NoDup_ListNoDup.
Qed.

Lemma firstOccurrences_snoc l k :
  firstOccurrences (l ++ [k]) =
  if decide (k ∈ l) then firstOccurrences l else firstOccurrences l ++ [k].
Proof.
  induction l as [|x l IH]; cbn [firstOccurrences app].
  - case_decide as H; [destruct (not_elem_of_nil _ H) | done].
  - rewrite IH. destruct (decide (k ∈ l)) as [Hin|Hout].
    + by rewrite decide_True by (by right).
    + rewrite List.filter_app. cbn [List.filter].
      destruct (String.eqb_spec k x) as [->|Hne]; cbn [negb].
      * rewrite decide_True by (by left). by rewrite app_nil_r.
      * rewrite decide_False; [done|]. by intros [?|?]%elem_of_cons.
Qed.

Lemma firstOccurrences_NoDup_id l : NoDup l -> firstOccurrences l = l.
Proof.
  induction 1 as [|x l Hx Hl IH]; simpl; [done|]. rewrite IH. f_equal.
  clear IH Hl. induction l as [|y l IH]; simpl; [done|].
  destruct (String.eqb_spec y x) as [->|Hne]; simpl.
  - set_solver.
  - f_equal. apply IH. set_solver.
Qed.

Lemma nsGroupsPush_map (f : string -> list ToolUsageSummary) keys ns tool :
  NoDup keys ->
  nsGroupsPush ns tool (map (fun k => (k, f k)) keys) =
  if decide (ns ∈ keys)
  then map (fun k => (k, f k ++ if decide (k = ns) then [tool] else [])) keys
  else map (fun k => (k, f k)) keys ++ [(ns, [tool])].
Proof.
  induction 1 as [|k keys Hk Hnd IH]; cbn [map nsGroupsPush app].
  - case_decide as H; [destruct (not_elem_of_nil _ H) | done].
  - destruct (String.eqb_spec k ns) as [->|Hne].
    + rewrite decide_True by (by left). rewrite decide_True by done. f_equal.
      apply map_ext_in. intros k' Hk'. rewrite decide_False; [by rewrite app_nil_r|].
      intros ->. by apply Hk, list_elem_of_In.
    + rewrite IH. rewrite (decide_False (P := k = ns)) by done. rewrite app_nil_r.
      destruct (decide (ns ∈ keys)).
      * by rewrite decide_True by (by right).
      * rewrite decide_False; [done|]. by intros [?|?]%elem_of_cons.
Qed.

Lemma members_snoc ns l tool :
  members classifyToolName ns (l ++ [tool]) =
  members classifyToolName ns l ++ if decide (nsOf tool = Some ns) then [tool] else [].
Proof.
  unfold members. rewrite List.filter_app. simpl.
  destruct (decide (nsOf tool = Some ns)).
  - by rewrite bool_decide_eq_true_2.
  - by rewrite bool_decide_eq_false_2.
Qed.

Lemma members_absent ns l :
  ns ∉ omap nsOf l -> members classifyToolName ns l = [].
Proof.
  intros Hout. unfold members. apply filter_none. apply List.Forall_forall.
  intros t Ht. apply bool_decide_eq_false_2. intros Hns. apply Hout.
  apply list_elem_of_omap. exists t. split; [by apply list_elem_of_In | done].
Qed.

Lemma buckets_snoc_candidate l tool ns :
  nsOf tool = Some ns ->
  buckets classifyToolName (l ++ [tool]) =
  nsGroupsPush ns tool (buckets classifyToolName l).
Proof.
  intros Hns. unfold buckets.
  rewrite omap_app. simpl. rewrite Hns. simpl.
  rewrite firstOccurrences_snoc, nsGroupsPush_map by apply NoDup_firstOccurrences.
  destruct (decide (ns ∈ omap nsOf l)) as [Hin|Hout].
  - rewrite decide_True by by apply elem_of_firstOccurrences.
    apply map_ext. intros k. rewrite members_snoc, Hns. f_equal. f_equal.
    destruct (decide (k = ns)) as [->|Hne].
    + by rewrite decide_True.
    + rewrite decide_False; [done|]. by intros [= ->].
  - rewrite decide_False by by rewrite elem_of_firstOccurrences.
    rewrite map_app. simpl. f_equal.
    + apply map_ext_in. intros k Hk. rewrite members_snoc, Hns.
      rewrite decide_False; [by rewrite app_nil_r|]. intros [= ->].
      by apply Hout, elem_of_firstOccurrences, list_elem_of_In.
    + rewrite members_snoc, Hns, members_absent by done.
      by rewrite decide_True.
Qed.

Lemma buckets_snoc_other l tool :
  nsOf tool = None ->
  buckets classifyToolName (l ++ [tool]) = buckets classifyToolName l.
Proof.
  intros Hns. unfold buckets. rewrite omap_app. simpl. rewrite Hns. simpl.
  rewrite app_nil_r. apply map_ext. intros k.
  rewrite members_snoc, Hns. rewrite decide_False by done. by rewrite app_nil_r.
Qed.

Lemma groupLoop_spec l1 l2 :
  fold_left (groupStep classifyToolName) l2
    (nonCandidates classifyToolName l1, buckets classifyToolName l1) =
  (nonCandidates classifyToolName (l1 ++ l2), buckets classifyToolName (l1 ++ l2)).
Proof.
  revert l1. induction l2 as [|t l2 IH]; intros l1; cbn [fold_left].
  - by rewrite app_nil_r.
  - rewrite groupStep_namespaceOf.
    replace (l1 ++ t :: l2) with ((l1 ++ [t]) ++ l2) by by rewrite <- app_assoc.
    rewrite <- IH. f_equal.
    unfold nonCandidates, isCandidate. rewrite List.filter_app. cbn [List.filter].
    destruct (nsOf t) as [ns|] eqn:Hns.
    + rewrite bool_decide_eq_true_2 by by eexists. cbn [negb]. rewrite app_nil_r.
      by rewrite (buckets_snoc_candidate l1 t ns).
    + rewrite bool_decide_eq_false_2 by by intros [? [=]]. cbn [negb].
      by rewrite buckets_snoc_other.
Qed.

Lemma fold_left_sum {A} (f : A -> Z) (l : list A) (acc : Z) :
  fold_left (fun s t => s + f t) l acc = acc + fold_right Z.add 0 (map f l).
Proof.
  revert acc. induction l as [|x l IH]; intros acc; simpl; [lia|].
  rewrite IH. lia.
Qed.

Lemma mergeSamples_inner (ss merged : list ToolSample) :
  (length merged <= 5)%nat ->
  fold_left
    (fun mergedSamples s =>
       if Z.of_nat (length mergedSamples) <? MCP_GROUP_SAMPLE_CAP
       then mergedSamples ++ [s] else mergedSamples)
    ss merged = take 5 (merged ++ ss).
Proof.
  unfold MCP_GROUP_SAMPLE_CAP. revert merged.
  induction ss as [|s ss IH]; intros merged Hlen; cbn [fold_left].
  - rewrite app_nil_r. by rewrite take_ge.
  - destruct (Z.ltb_spec (Z.of_nat (length merged)) 5) as [Hlt|Hge].
    + rewrite IH by (rewrite length_app; simpl; lia). by rewrite <- app_assoc.
    + rewrite IH by done. rewrite !take_app_le by lia. done.
Qed.

Lemma mergeSamples_take tools :
  mergeSamples tools = take 5 (concat (map samples tools)).
Proof.
  unfold mergeSamples.
  enough (H : forall merged, (length merged <= 5)%nat ->
            fold_left
              (fun mergedSamples t =>
                 fold_left
                   (fun mergedSamples s =>
                      if Z.of_nat (length mergedSamples) <? MCP_GROUP_SAMPLE_CAP
                      then mergedSamples ++ [s] else mergedSamples)
                   (samples t) mergedSamples)
              tools merged = take 5 (merged ++ concat (map samples tools)))
    by (apply (H []); simpl; lia).
  induction tools as [|t tools IH]; intros merged Hlen; cbn [fold_left map concat].
  - rewrite app_nil_r. by rewrite take_ge.
  - rewrite mergeSamples_inner by done. rewrite IH by (rewrite length_take; lia).
    rewrite app_assoc.
    destruct (Nat.le_gt_cases 5 (length (merged ++ samples t))) as [Hge|Hlt].
    + rewrite (take_app_le (merged ++ samples t)) by done.
      rewrite take_app_le by (rewrite length_take; lia).
      by rewrite take_take, Nat.min_id.
    + by rewrite (take_ge (merged ++ samples t)) by lia.
Qed.

Lemma mergeStep_emitBucket result bucket :
  mergeStep result bucket = result ++ [emitBucket bucket].
Proof.
  destruct bucket as [ns tools]. unfold mergeStep, emitBucket, mergedEntry. cbn [fst snd].
  rewrite !fold_left_sum, mergeSamples_take, !Z.add_0_l.
  by destruct tools as [|t [|t' tools]].
Qed.

Lemma mergeLoop_emitBucket nsGroups result :
  fold_left mergeStep nsGroups result = result ++ map emitBucket nsGroups.
Proof.
  revert result. induction nsGroups as [|b nsGroups IH]; intros result; cbn [fold_left map].
  - by rewrite app_nil_r.
  - by rewrite IH, mergeStep_emitBucket, <- app_assoc.
Qed.

Lemma groupMcpByNamespace_spec l :
  group l = nonCandidates classifyToolName l ++ map emitBucket (buckets classifyToolName l).
Proof.
  unfold groupMcpByNamespace.
  pose proof (groupLoop_spec [] l) as H. cbn in H. rewrite H.
  apply mergeLoop_emitBucket.
Qed.

Lemma NoDup_buckets_keys l : NoDup (map fst (buckets classifyToolName l)).
Proof.
  unfold buckets. rewrite map_map. cbn [fst]. rewrite map_id.
  apply NoDup_firstOccurrences.
Qed.

Lemma buckets_members l ns tools :
  In (ns, tools) (buckets classifyToolName l) ->
  tools = members classifyToolName ns l /\ tools <> []
  /\ Forall (fun t => t ∈ l /\ nsOf t = Some ns) tools.
Proof.
  unfold buckets. rewrite in_map_iff. intros (k & [= <- <-] & Hk).
  apply list_elem_of_In, elem_of_firstOccurrences, list_elem_of_omap in Hk
    as (t & Ht & Hns).
  split; [done|]. split.
  - intros Hnil. assert (Hin : In t (members classifyToolName k l)).
    { unfold members. apply List.filter_In. split; [by apply list_elem_of_In|].
      by apply bool_decide_eq_true_2. }
    by rewrite Hnil in Hin.
  - unfold members. apply List.Forall_forall. intros t' Ht'.
    apply List.filter_In in Ht' as [Hin Hb]. apply bool_decide_eq_true_1 in Hb.
    split; [by apply list_elem_of_In | done].
Qed.

Lemma candidate_bucketed l tool ns :
  tool ∈ l -> nsOf tool = Some ns ->
  In (ns, members classifyToolName ns l) (buckets classifyToolName l)
  /\ tool ∈ members classifyToolName ns l.
Proof.
  intros Hin Hns. split.
  - unfold buckets. apply in_map_iff. exists ns. split; [done|].
    apply list_elem_of_In, elem_of_firstOccurrences, list_elem_of_omap. eauto.
  - apply list_elem_of_In. unfold members. apply List.filter_In.
    split; [by apply list_elem_of_In | by apply bool_decide_eq_true_2].
Qed.

Lemma elem_of_nonCandidates l tool :
  tool ∈ nonCandidates classifyToolName l <-> tool ∈ l /\ nsOf tool = None.
Proof.
  unfold nonCandidates, isCandidate.
  rewrite !list_elem_of_In, List.filter_In, negb_true_iff, bool_decide_eq_false.
  rewrite <- eq_None_not_Some. done.
Qed.

(** C2 (amended). The grouping returns the aggregates that are not of
    category [mcp] or whose name does not read [mcp__<namespace>__<action>],
    untouched and in input order, followed by one entry per namespace in the
    order the namespaces are first met: the only member of a bucket as it
    is, or, for a bucket of two or more members, one synthetic aggregate
    whose count is the sum of the members' counts, whose error count is the
    sum of the members' error counts, left out when that sum is zero, and
    whose samples are the first 5 of the members' samples in encounter
    order. *)
Theorem namespace_grouping (l : list ToolUsageSummary) :
  group l = nonCandidates classifyToolName l ++ map emitBucket (buckets classifyToolName l)
  /\ (forall tool, tool ∈ nonCandidates classifyToolName l <-> tool ∈ l /\ nsOf tool = None)
  /\ NoDup (map fst (buckets classifyToolName l))
  /\ (forall tool ns,
        tool ∈ l -> nsOf tool = Some ns ->
        In (ns, members classifyToolName ns l) (buckets classifyToolName l)
        /\ tool ∈ members classifyToolName ns l)
  /\ (forall ns tools,
        In (ns, tools) (buckets classifyToolName l) ->
        tools = members classifyToolName ns l /\ tools <> []
        /\ Forall (fun t => t ∈ l /\ nsOf t = Some ns) tools)
  /\ (forall ns only, emitBucket (ns, [only]) = only)
  /\ (forall ns tools,
        (2 <= length tools)%nat ->
        let totalErrors := fold_right Z.add 0 (map (fun t => Js.orNum (errorCount t) 0) tools) in
        emitBucket (ns, tools) =
          {| name := "MCP: " +:+ ns;
             count := fold_right Z.add 0 (map count tools);
             errorCount := if 0 <? totalErrors then Some totalErrors else None;
             samples := take 5 (concat (map samples tools)) |}).
Proof.
  split; [apply groupMcpByNamespace_spec|].
  split; [apply elem_of_nonCandidates|].
  split; [apply NoDup_buckets_keys|].
  split; [intros tool ns; apply candidate_bucketed|].
  split; [apply buckets_members|].
  split; [done|].
  intros ns [|t [|t' tools]] Hlen; simpl in Hlen; try lia. reflexivity.
Qed.

(** *** Grouping the output of the grouping *)

Lemma namespaceOf_mergedEntry ns tools : nsOf (mergedEntry ns tools) = None.
Proof. unfold namespaceOf. cbn [name mergedEntry]. by rewrite andb_false_r. Qed.

Lemma namespaceOf_emitBucket l ns tools k :
  In (ns, tools) (buckets classifyToolName l) ->
  nsOf (emitBucket (ns, tools)) = Some k -> k = ns.
Proof.
  intros Hin. destruct (buckets_members _ _ _ Hin) as (_ & _ & Hall).
  unfold emitBucket. cbn [fst snd]. destruct tools as [|t [|t' tools]].
  - by rewrite namespaceOf_mergedEntry.
  - apply List.Forall_inv in Hall as [_ Hns]. rewrite Hns. by intros [= ->].
  - by rewrite namespaceOf_mergedEntry.
Qed.

Lemma omap_nonCandidates l : omap nsOf (nonCandidates classifyToolName l) = [].
Proof.
  induction l as [|t l IH]; [done|].
  unfold nonCandidates, isCandidate in *. cbn [List.filter].
  destruct (nsOf t) as [ns|] eqn:Hns.
  - by rewrite bool_decide_eq_true_2 by by eexists.
  - rewrite bool_decide_eq_false_2 by by intros [? [=]]. cbn [negb omap list_omap].
    by rewrite Hns.
Qed.

Lemma omap_candidates l : omap nsOf (candidates classifyToolName l) = omap nsOf l.
Proof.
  induction l as [|t l IH]; [done|].
  unfold candidates, isCandidate in *. cbn [List.filter omap list_omap].
  destruct (nsOf t) as [ns|] eqn:Hns.
  - rewrite bool_decide_eq_true_2 by by eexists. cbn [omap list_omap].
    by rewrite Hns, IH.
  - by rewrite bool_decide_eq_false_2 by by intros [? [=]].
Qed.

Lemma NoDup_omap_keys {B} (f : B -> option string) (key : B -> string) (bs : list B) :
  (forall b k, In b bs -> f b = Some k -> k = key b) ->
  NoDup (map key bs) -> NoDup (omap f bs).
Proof.
  induction bs as [|b bs IH]; intros Hkey Hnd; cbn [omap list_omap map] in *;
    [constructor|].
  apply NoDup_cons in Hnd as [Hb Hnd].
  assert (Hrest : NoDup (omap f bs)) by (apply IH; [intros; eapply Hkey; eauto; by right | done]).
  destruct (f b) as [k|] eqn:Hf; [|done].
  constructor; [|done]. intros Hin. apply Hb.
  apply list_elem_of_omap in Hin as (b' & Hb' & Hf').
  rewrite <- (Hkey b k (or_introl eq_refl) Hf).
  rewrite (Hkey b' k (or_intror (proj1 (list_elem_of_In _ _) Hb')) Hf').
  apply list_elem_of_fmap. by exists b'.
Qed.

Lemma omap_map {B C D} (f : C -> option D) (g : B -> C) (l : list B) :
  omap f (map g l) = omap (fun x => f (g x)) l.
Proof.
  induction l as [|x l IH]; [done|]. cbn [map omap list_omap]. by rewrite IH.
Qed.

Lemma NoDup_namespaces_group l : NoDup (omap nsOf (group l)).
Proof.
  rewrite groupMcpByNamespace_spec, omap_app, omap_nonCandidates. cbn [app].
  rewrite omap_map. apply (NoDup_omap_keys _ fst); [|apply NoDup_buckets_keys].
  intros [ns tools] k Hin Hk. by apply (namespaceOf_emitBucket l ns tools).
Qed.

Lemma members_unique l tool ns :
  NoDup (omap nsOf l) -> tool ∈ l -> nsOf tool = Some ns ->
  members classifyToolName ns l = [tool].
Proof.
  induction l as [|x l IH]; intros Hnd Hin Hns; [by apply elem_of_nil in Hin|].
  change (x :: l) with ([x] ++ l) in Hnd. rewrite omap_app in Hnd.
  unfold members in *. cbn [List.filter].
  destruct (decide (nsOf x = Some ns)) as [Hx|Hx].
  - rewrite bool_decide_eq_true_2 by done.
    cbn [omap list_omap app] in Hnd. rewrite Hx in Hnd. cbn [app] in Hnd.
    apply NoDup_cons in Hnd as [Hout Hnd].
    rewrite (members_absent ns l Hout : List.filter _ l = []).
    apply elem_of_cons in Hin as [->|Hin]; [done|].
    destruct Hout. apply list_elem_of_omap. eauto.
  - rewrite bool_decide_eq_false_2 by done.
    apply elem_of_cons in Hin as [->|Hin]; [done|].
    apply IH; [|done|done]. by apply NoDup_app in Hnd as (_ & _ & Hnd).
Qed.

Lemma emit_unique_buckets l :
  NoDup (omap nsOf l) ->
  map emitBucket (buckets classifyToolName l) = candidates classifyToolName l.
Proof.
  intros Hnd. unfold buckets. rewrite firstOccurrences_NoDup_id by done.
  rewrite map_map.
  enough (H : forall l0, (forall t, t ∈ l0 -> t ∈ l) ->
            map (fun ns => emitBucket (ns, members classifyToolName ns l)) (omap nsOf l0) =
            candidates classifyToolName l0) by by apply H.
  induction l0 as [|t l0 IH]; intros Hsub; [done|].
  unfold candidates, isCandidate in *. cbn [List.filter omap list_omap].
  assert (Hrest : forall t, t ∈ l0 -> t ∈ l) by (intros; apply Hsub; by right).
  destruct (nsOf t) as [ns|] eqn:Hns.
  - rewrite bool_decide_eq_true_2 by by eexists. cbn [map]. rewrite IH by done.
    rewrite (members_unique l t ns Hnd) by (done || apply Hsub; by left). done.
  - rewrite bool_decide_eq_false_2 by by intros [? [=]]. by apply IH.
Qed.

Lemma group_distinct_namespaces l :
  NoDup (omap nsOf l) ->
  group l = nonCandidates classifyToolName l ++ candidates classifyToolName l.
Proof. intros Hnd. by rewrite groupMcpByNamespace_spec, emit_unique_buckets. Qed.

Lemma filter_filter_same {B} (p : B -> bool) (l : list B) :
  List.filter p (List.filter p l) = List.filter p l.
Proof.
  induction l as [|x l IH]; [done|]. cbn [List.filter].
  destruct (p x) eqn:E; [|done]. cbn [List.filter]. by rewrite E, IH.
Qed.

Lemma filter_filter_neg {B} (p : B -> bool) (l : list B) :
  List.filter p (List.filter (fun x => negb (p x)) l) = []
  /\ List.filter (fun x => negb (p x)) (List.filter p l) = [].
Proof.
  induction l as [|x l [IH1 IH2]]; [done|]. cbn [List.filter].
  destruct (p x) eqn:E; cbn [negb List.filter]; rewrite E; done.
Qed.

Lemma filter_partition_Permutation {B} (p : B -> bool) (l : list B) :
  Permutation (List.filter (fun x => negb (p x)) l ++ List.filter p l) l.
Proof.
  induction l as [|x l IH]; [done|]. cbn [List.filter].
  destruct (p x); cbn [negb].
  - rewrite <- Permutation_middle. by constructor.
  - by constructor.
Qed.

Lemma filter_neg_all {B} (p : B -> bool) (l : list B) :
  List.filter p l = [] -> List.filter (fun x => negb (p x)) l = l.
Proof.
  induction l as [|x l IH]; [done|]. cbn [List.filter].
  destruct (p x); [done|]. intros H. cbn [negb]. by rewrite IH.
Qed.

(** C9 (amended). Grouping the output of the grouping merges nothing
    further: the result has the same entries as the output, its entries
    that take no part in the grouping (the merged ones among them) first
    and its ungrouped [mcp__<namespace>__<action>] entries after them; the
    output is returned unchanged when it has no such ungrouped entry, and
    a further application always returns its input unchanged. *)
Theorem grouping_regroup (l : list ToolUsageSummary) :
  group (group l) =
    nonCandidates classifyToolName (group l) ++ candidates classifyToolName (group l)
  /\ Permutation (group (group l)) (group l)
  /\ (candidates classifyToolName (group l) = [] -> group (group l) = group l)
  /\ group (group (group l)) = group (group l).
Proof.
  pose proof (group_distinct_namespaces (group l) (NoDup_namespaces_group l)) as H2.
  split; [exact H2|]. split; [|split].
  - rewrite H2. apply filter_partition_Permutation.
  - intros Hc. rewrite H2, Hc, app_nil_r. by apply filter_neg_all.
  - assert (Hnd : NoDup (omap nsOf (group (group l)))).
    { rewrite H2, omap_app, omap_nonCandidates, omap_candidates.
      apply NoDup_namespaces_group. }
    rewrite (group_distinct_namespaces _ Hnd), H2.
    unfold nonCandidates, candidates. rewrite !List.filter_app.
    rewrite !filter_filter_same.
    destruct (filter_filter_neg (isCandidate classifyToolName) (group l)) as [-> ->].
    by rewrite app_nil_r.
Qed.

End Taxonomy.

(** ** Document assembly *)

Lemma whenDo_app c body lines :
  (forall ls, body ls = ls ++ body []) ->
  whenDo c body lines = lines ++ if c then body [] else [].
Proof. intros H. unfold whenDo. destruct c; [apply H | by rewrite app_nil_r]. Qed.

Lemma whenSome_app {A} (o : option A) body lines :
  (forall x ls, body x ls = ls ++ body x []) ->
  whenSome o body lines = lines ++ match o with Some x => body x [] | None => [] end.
Proof. intros H. unfold whenSome. destruct o; [apply H | by rewrite app_nil_r]. Qed.

Lemma slice_last {A} (n : Z) (l : list A) :
  0 < n -> Js.slice (- n) None l = drop (length l - Z.to_nat n) l.
Proof.
  intros Hn. unfold Js.slice, Js.clampIndex. cbv zeta.
  destruct (Z.ltb_spec (- n) 0); [|lia].
  destruct (Z.max_spec (Z.of_nat (length l) + - n) 0) as [[Hm ->]|[Hm ->]].
  - change (Z.to_nat 0) with O. rewrite drop_0, Z.sub_0_r, Nat2Z.id.
    replace (length l - Z.to_nat n)%nat with O by lia. rewrite drop_0. by apply take_ge.
  - replace (Z.to_nat (Z.of_nat (length l) + - n)) with (length l - Z.to_nat n)%nat by lia.
    apply take_ge. rewrite length_drop. lia.
Qed.

Lemma length_positive {A} (l : list A) :
  (0 <? Z.of_nat (length l)) = match l with [] => false | _ => true end.
Proof. by destruct l. Qed.

Lemma recent_nonempty {A} (l : list A) :
  (0 <? Z.of_nat (length (drop (length l - 10) l))) =
  match l with [] => false | _ => true end.
Proof.
  destruct l as [|x l]; [done|]. apply Z.ltb_lt. rewrite length_drop. simpl. lia.
Qed.

Lemma decisions_block (reasoning : option (list string)) :
  (if 0 <? Z.of_nat (length (default [] reasoning))
   then [] ++ ["## Key Decisions"] ++ [EmptyString] ++
        flat_map (fun thought => ["- " +:+ thought])
          (Js.slice 0 (Some 5) (default [] reasoning)) ++
        [EmptyString] ++ [EmptyString]
   else []) =
  match reasoning with
  | Some (thought :: thoughts) =>
      ["## Key Decisions"; EmptyString] ++
      map (fun t => "- " +:+ t) (take 5 (thought :: thoughts)) ++
      [EmptyString; EmptyString]
  | _ => []
  end.
Proof.
  destruct reasoning as [[|t ts]|]; try done.
  rewrite length_positive, slice_from_start, flat_map_singleton by done. done.
Qed.

Lemma recent_block (messages : list ConversationMessage) :
  (if 0 <? Z.of_nat (length (Js.slice (-10) None messages))
   then [] ++ ["## Recent Conversation"] ++ [EmptyString] ++
        flat_map renderMessage (Js.slice (-10) None messages) ++ [EmptyString]
   else []) = recentBlock messages.
Proof.
  rewrite (slice_last 10) by done. change (Z.to_nat 10) with 10%nat.
  rewrite recent_nonempty. unfold recentBlock. by destruct messages.
Qed.

Lemma listing_block (heading : string) (item : string -> string) (l : list string) :
  (if 0 <? Z.of_nat (length l)
   then [] ++ [heading] ++ [EmptyString] ++ flat_map (fun x => [item x]) l ++
        [EmptyString] ++ [EmptyString]
   else []) =
  match l with
  | [] => []
  | _ => [heading; EmptyString] ++ map item l ++ [EmptyString; EmptyString]
  end.
Proof. rewrite length_positive, flat_map_singleton. by destruct l. Qed.

Section Document.

Context (SHELL_TOOLS READ_TOOLS WRITE_TOOLS EDIT_TOOLS GREP_TOOLS GLOB_TOOLS
  SEARCH_TOOLS FETCH_TOOLS TASK_TOOLS TASK_OUTPUT_TOOLS ASK_TOOLS : list string)
  (classifyToolName : string -> option Category)
  (toLocaleString : Z -> string)
  (adapters : list (string * string))
  (hostSort : list ToolUsageSummary -> list ToolUsageSummary).

Local Abbreviation handoffLines :=
  (generateHandoffLines SHELL_TOOLS READ_TOOLS WRITE_TOOLS EDIT_TOOLS GREP_TOOLS GLOB_TOOLS
     SEARCH_TOOLS FETCH_TOOLS TASK_TOOLS TASK_OUTPUT_TOOLS ASK_TOOLS classifyToolName
     toLocaleString adapters hostSort).

Local Abbreviation handoffMarkdown :=
  (generateHandoffMarkdown SHELL_TOOLS READ_TOOLS WRITE_TOOLS EDIT_TOOLS GREP_TOOLS GLOB_TOOLS
     SEARCH_TOOLS FETCH_TOOLS TASK_TOOLS TASK_OUTPUT_TOOLS ASK_TOOLS classifyToolName
     toLocaleString adapters hostSort).

Local Abbreviation activity :=
  (activityBlock SHELL_TOOLS READ_TOOLS WRITE_TOOLS EDIT_TOOLS GREP_TOOLS GLOB_TOOLS
     SEARCH_TOOLS FETCH_TOOLS TASK_TOOLS TASK_OUTPUT_TOOLS ASK_TOOLS classifyToolName hostSort).

(** Turns one conditional block of pushes into an appended block. *)
Ltac block_of_pushes :=
  intros; cbv beta; rewrite ?pushEach_flat_map; unfold push;
  rewrite <- ?app_assoc; reflexivity.

Lemma handoffLines_blocks session messages filesModified pendingTasks toolSummaries
    sessionNotes mode :
  handoffLines session messages filesModified pendingTasks toolSummaries sessionNotes mode =
  titleBlock ++
  (rowsBeforeModel adapters session ++ modelRows session sessionNotes ++
   rowsAfterModel toLocaleString session messages filesModified sessionNotes) ++
  [EmptyString; EmptyString] ++
  summaryBlock session ++ compactedBlock sessionNotes ++ activity toolSummaries mode ++
  decisionsBlock sessionNotes ++ recentBlock messages ++ filesBlock filesModified ++
  tasksBlock pendingTasks ++ closingBlock.
Proof.
  unfold generateHandoffLines. cbv zeta.
  do 12 (rewrite whenDo_app by block_of_pushes).
  do 2 (rewrite whenSome_app by block_of_pushes).
  rewrite ?pushEach_flat_map. unfold push. rewrite <- !app_assoc.
  rewrite decisions_block.
  change (fun msg : ConversationMessage => _) with renderMessage.
  rewrite recent_block.
  rewrite (listing_block "## Files Modified" (fun file => "- `" +:+ file +:+ "`")).
  rewrite (listing_block "## Pending Tasks" (fun t => "- [ ] " +:+ t)).
  rewrite length_positive.
  unfold titleBlock, rowsBeforeModel, modelRows, rowsAfterModel, modelRow, summaryBlock,
    compactedBlock, activityBlock, decisionsBlock, filesBlock, tasksBlock, closingBlock,
    sourceLabelOf.
  rewrite <- !app_assoc. cbn [app].
  destruct (getSourceLabels adapters !! source session) as [[|c t]|], toolSummaries;
    reflexivity.
Qed.

Lemma append_assoc (s t u : string) : (s +:+ t) +:+ u = s +:+ t +:+ u.
Proof.
  induction s as [|c s IH]; [done|].
  change (String c ((s +:+ t) +:+ u) = String c (s +:+ t +:+ u)). by rewrite IH.
Qed.

Lemma join_app sep l1 x l2 :
  Js.join sep (l1 ++ x :: l2) = joinEach sep l1 +:+ Js.join sep (x :: l2).
Proof.
  induction l1 as [|y l1 IH]; [done|].
  change (Js.join sep (y :: (l1 ++ x :: l2)) =
          (y +:+ sep +:+ joinEach sep l1) +:+ Js.join sep (x :: l2)).
  rewrite !append_assoc, <- IH. by destruct l1.
Qed.

Lemma join_title_closing first middle rule closing :
  Js.join Js.nl ((first :: middle) ++ [rule; EmptyString; closing]) =
  first +:+ Js.nl +:+ joinEach Js.nl middle +:+ rule +:+ Js.nl +:+ Js.nl +:+ closing.
Proof.
  rewrite join_app. cbn [joinEach fold_right]. rewrite !append_assoc.
  change (Js.join Js.nl [rule; EmptyString; closing])
    with (rule +:+ Js.nl +:+ EmptyString +:+ Js.nl +:+ closing).
  reflexivity.
Qed.

Lemma takeWhile_app {A} (p : A -> bool) (l1 : list A) (x : A) (l2 : list A) :
  Forall (fun y => p y = true) l1 -> p x = false -> takeWhile p (l1 ++ x :: l2) = l1.
Proof.
  intros Hl Hx. induction Hl as [|y l1 Hy _ IH]; cbn [takeWhile app].
  - by rewrite Hx.
  - by rewrite Hy, IH.
Qed.

Lemma rowsBeforeModel_rows session :
  Forall (fun l => isTableRow l = true) (rowsBeforeModel adapters session)
  /\ List.filter isModelRow (rowsBeforeModel adapters session) = [].
Proof. unfold rowsBeforeModel. destruct (Js.truthy (repo session)); by repeat constructor. Qed.

Lemma rowsAfterModel_rows session messages filesModified sessionNotes :
  Forall (fun l => isTableRow l = true)
         (rowsAfterModel toLocaleString session messages filesModified sessionNotes)
  /\ List.filter isModelRow
       (rowsAfterModel toLocaleString session messages filesModified sessionNotes) = [].
Proof.
  unfold rowsAfterModel.
  destruct (notesField tokenUsage sessionNotes), (notesField cacheTokens sessionNotes),
    (Js.truthyNum (notesField thinkingTokens sessionNotes)),
    (Js.truthyNum (notesField activeTimeMs sessionNotes)); by repeat constructor.
Qed.

Lemma modelRows_rows session sessionNotes :
  Forall (fun l => isTableRow l = true) (modelRows session sessionNotes)
  /\ List.filter isModelRow (modelRows session sessionNotes) = modelRows session sessionNotes.
Proof.
  unfold modelRows. destruct (Js.truthy (model session)), (_ && _); by repeat constructor.
Qed.

Lemma overviewTableOf_handoffLines session messages filesModified pendingTasks toolSummaries
    sessionNotes mode :
  overviewTableOf
    (handoffLines session messages filesModified pendingTasks toolSummaries sessionNotes mode) =
  rowsBeforeModel adapters session ++ modelRows session sessionNotes ++
  rowsAfterModel toLocaleString session messages filesModified sessionNotes.
Proof.
  rewrite handoffLines_blocks.
  set (table := rowsBeforeModel adapters session ++ modelRows session sessionNotes ++
                rowsAfterModel toLocaleString session messages filesModified sessionNotes).
  unfold overviewTableOf, titleBlock. cbn [drop app]. rewrite drop_0.
  apply takeWhile_app; [|done].
  subst table. rewrite !Forall_app. split; [apply rowsBeforeModel_rows|].
  split; [apply modelRows_rows | apply rowsAfterModel_rows].
Qed.

Lemma modelRowsOf_handoffLines session messages filesModified pendingTasks toolSummaries
    sessionNotes mode :
  modelRowsOf
    (handoffLines session messages filesModified pendingTasks toolSummaries sessionNotes mode) =
  modelRows session sessionNotes.
Proof.
  unfold modelRowsOf. rewrite overviewTableOf_handoffLines, !List.filter_app.
  rewrite (proj2 (rowsBeforeModel_rows _)), (proj2 (rowsAfterModel_rows _ _ _ _)).
  rewrite (proj2 (modelRows_rows _ _)). by rewrite app_nil_r.
Qed.

(** C10. The overview table has a row for the session's model when the
    session carries one, followed by a row for the notes' model when the
    notes carry one and it is another: two Model rows, the session's first,
    when both are carried and differ; exactly one when the session carries a
    model and the notes' model equals it or is absent; none when both are
    absent. *)
Theorem model_rows session messages filesModified pendingTasks toolSummaries sessionNotes mode :
  let rows :=
    modelRowsOf
      (handoffLines session messages filesModified pendingTasks toolSummaries
         sessionNotes mode) in
  (forall m n,
     model session = Some m -> notesField notesModel sessionNotes = Some n ->
     m <> EmptyString -> n <> EmptyString -> n <> m ->
     rows = ["| **Model** | " +:+ m +:+ " |"; "| **Model** | " +:+ n +:+ " |"])
  /\ (forall m,
        model session = Some m -> m <> EmptyString ->
        notesField notesModel sessionNotes = Some m
        \/ Js.truthy (notesField notesModel sessionNotes) = false ->
        rows = ["| **Model** | " +:+ m +:+ " |"])
  /\ (Js.truthy (model session) = false ->
      Js.truthy (notesField notesModel sessionNotes) = false ->
      rows = []).
Proof.
  cbv zeta. rewrite modelRowsOf_handoffLines. split; [|split].
  - intros m n Hm Hn Hm' Hn' Hne. unfold modelRows, modelRow. rewrite Hm, Hn.
    rewrite bool_decide_eq_false_2 by (by intros [= ->]).
    by destruct m, n.
  - intros m Hm Hm' [Hn|Hn]; unfold modelRows, modelRow; rewrite Hm, Hn.
    + rewrite bool_decide_eq_true_2 by done. rewrite andb_false_r. by destruct m.
    + by destruct m.
  - intros Hm Hn. unfold modelRows. by rewrite Hm, Hn.
Qed.

Lemma sectionOf_block heading present body :
  sectionOf heading present (if present then heading :: EmptyString :: body else []).
Proof. unfold sectionOf. destruct present; [by eexists | done]. Qed.

(** C8 (amended). The lines of the document are the title, the overview
    heading and its table under the header rows [| Field | Value |] and
    [|-------|-------|], then the sections Summary, Session Context
    (Compacted), Tool Activity, Key Decisions, Recent Conversation, Files
    Modified and Pending Tasks in this order, each one present, under its
    heading, when its source data is not empty and absent otherwise, then
    the horizontal rule and the closing sentence; an empty list of tool
    summaries yields no Tool Activity section. The text of the summary, the
    messages, the files and the tasks is inserted as it is given. *)
Theorem document_structure session messages filesModified pendingTasks toolSummaries
    sessionNotes mode :
  let lines :=
    handoffLines session messages filesModified pendingTasks toolSummaries sessionNotes mode in
  let table :=
    rowsBeforeModel adapters session ++ modelRows session sessionNotes ++
    rowsAfterModel toLocaleString session messages filesModified sessionNotes in
  lines =
    ["# Session Handoff Context"; EmptyString; EmptyString; "## Session Overview"; EmptyString] ++
    table ++ [EmptyString; EmptyString] ++
    summaryBlock session ++ compactedBlock sessionNotes ++ activity toolSummaries mode ++
    decisionsBlock sessionNotes ++ recentBlock messages ++ filesBlock filesModified ++
    tasksBlock pendingTasks ++ ["---"; EmptyString; closingSentence]
  /\ (exists rows,
        table = "| Field | Value |" :: "|-------|-------|" :: rows
        /\ Forall (fun row => isTableRow row = true) rows)
  /\ sectionOf "## Summary" (Js.truthy (sessionSummary session)) (summaryBlock session)
  /\ sectionOf "## Session Context (Compacted)"
       (Js.truthy (notesField compactSummary sessionNotes)) (compactedBlock sessionNotes)
  /\ sectionOf "## Tool Activity" (nonEmpty toolSummaries) (activity toolSummaries mode)
  /\ sectionOf "## Key Decisions" (nonEmpty (default [] (notesField reasoning sessionNotes)))
       (decisionsBlock sessionNotes)
  /\ sectionOf "## Recent Conversation" (nonEmpty messages) (recentBlock messages)
  /\ sectionOf "## Files Modified" (nonEmpty filesModified) (filesBlock filesModified)
  /\ sectionOf "## Pending Tasks" (nonEmpty pendingTasks) (tasksBlock pendingTasks)
  /\ (exists body,
        handoffMarkdown session messages filesModified pendingTasks toolSummaries
          sessionNotes mode =
        "# Session Handoff Context" +:+ Js.nl +:+ body +:+
        "---" +:+ Js.nl +:+ Js.nl +:+ closingSentence)
  /\ (toolSummaries = [] -> activity toolSummaries mode = []).
Proof.
  cbv zeta. split; [apply handoffLines_blocks|].
  split.
  { exists (drop 2 (rowsBeforeModel adapters session) ++ modelRows session sessionNotes ++
            rowsAfterModel toLocaleString session messages filesModified sessionNotes).
    split; [reflexivity|]. rewrite !Forall_app. split; [|split].
    - apply Forall_drop, rowsBeforeModel_rows.
    - apply modelRows_rows.
    - apply rowsAfterModel_rows. }
  split; [apply sectionOf_block|]. split; [apply sectionOf_block|].
  split; [unfold sectionOf, activityBlock; destruct toolSummaries; [done | by eexists]|].
  split.
  { unfold sectionOf, decisionsBlock.
    destruct (notesField reasoning sessionNotes) as [[|t ts]|]; [done | by eexists | done]. }
  split; [unfold sectionOf, recentBlock; destruct messages; [done | by eexists]|].
  split; [unfold sectionOf, filesBlock; destruct filesModified; [done | by eexists]|].
  split; [unfold sectionOf, tasksBlock; destruct pendingTasks; [done | by eexists]|].
  split; [|by intros ->].
  unfold generateHandoffMarkdown.
  set (middle :=
         [EmptyString; EmptyString; "## Session Overview"; EmptyString] ++
         (rowsBeforeModel adapters session ++ modelRows session sessionNotes ++
          rowsAfterModel toLocaleString session messages filesModified sessionNotes) ++
         [EmptyString; EmptyString] ++
         summaryBlock session ++ compactedBlock sessionNotes ++ activity toolSummaries mode ++
         decisionsBlock sessionNotes ++ recentBlock messages ++ filesBlock filesModified ++
         tasksBlock pendingTasks).
  exists (joinEach Js.nl middle).
  rewrite <- (join_title_closing "# Session Handoff Context" middle "---" closingSentence).
  f_equal. rewrite handoffLines_blocks. subst middle. unfold titleBlock, closingBlock.
  repeat first [rewrite <- app_assoc | progress cbn [app]]. reflexivity.
Qed.

(** C3 (amended). The profile selection is total on the run-time value of
    the mode: [reference] selects the reference caps and every other value,
    [inline] or not, selects the inline caps, so the document generated for
    a mode that is not [reference] is the one generated for [inline]; no
    mode value makes the generation fail. *)
Theorem mode_selection :
  selectCaps "inline" = INLINE_CAPS
  /\ selectCaps "reference" = REFERENCE_CAPS
  /\ (forall mode, mode <> "reference" -> selectCaps mode = INLINE_CAPS)
  /\ (forall session messages filesModified pendingTasks toolSummaries sessionNotes mode,
        mode <> "reference" ->
        handoffMarkdown session messages filesModified pendingTasks toolSummaries
          sessionNotes mode =
        handoffMarkdown session messages filesModified pendingTasks toolSummaries
          sessionNotes "inline").
Proof.
  assert (Hsel : forall mode, mode <> "reference" -> selectCaps mode = INLINE_CAPS).
  { intros mode Hne. unfold selectCaps. by destruct (String.eqb_spec mode "reference"). }
  split; [done|]. split; [done|]. split; [exact Hsel|].
  intros session messages filesModified pendingTasks toolSummaries sessionNotes mode Hne.
  unfold generateHandoffMarkdown. rewrite !handoffLines_blocks.
  unfold activityBlock. by rewrite (Hsel mode Hne), (Hsel "inline").
Qed.

End Document.

(** * The properties on sample inputs *)

(** The grouping example of the specification. *)
Example group_githubThenJira :
  groupMcpByNamespace Sample.noClassifier Sample.githubThenJira =
  [Sample.githubMerged; Sample.jiraSearch].
Proof. reflexivity. Qed.

Example group_jiraThenGithub :
  groupMcpByNamespace Sample.noClassifier Sample.jiraThenGithub =
  [Sample.jiraSearch; Sample.githubMerged].
Proof. reflexivity. Qed.

Example render_bash :
  renderShellSection Sample.bash INLINE_CAPS =
  [ "### Shell (7 calls)"; EmptyString;
    "> `$ ls`"; "> Exit: 0"; EmptyString;
    "> `$ pwd`"; "> Exit: 0"; EmptyString;
    "> `$ git status`"; "> Exit: 0"; EmptyString;
    "> `$ npm test`"; "> Exit: 0"; EmptyString;
    "> `$ git diff`"; "> Exit: 0"; EmptyString;
    "*...and 2 more shell calls (all exit 0)*"; EmptyString ].
Proof. reflexivity. Qed.

Lemma count_conservation_witness :
  nonnegCaps INLINE_CAPS
  /\ Z.of_nat (length (samples Sample.bash)) <= count Sample.bash
  /\ conserves Sample.bash (shellDetailed INLINE_CAPS) blockLayout
       (fun sample => renderShellSample sample (shellStdoutLines INLINE_CAPS))
       (renderShellSection Sample.bash INLINE_CAPS).
Proof.
  assert (H1 : nonnegCaps INLINE_CAPS) by (unfold nonnegCaps; simpl; lia).
  assert (H2 : Z.of_nat (length (samples Sample.bash)) <= count Sample.bash) by (simpl; lia).
  split; [exact H1|]. split; [exact H2|].
  exact (proj1 (proj2 (count_conservation Sample.bash INLINE_CAPS H1 H2))).
Defined.

(** C2 as stated fails: on the grouping example of the specification the
    merged [github] entry comes before the [jira] entry, which is passed
    through from the input. *)
Lemma namespace_grouping_counterexample :
  ~ mergedAfterPassThrough Sample.githubThenJira
      (groupMcpByNamespace Sample.noClassifier Sample.githubThenJira).
Proof.
  intros H.
  assert (Hlt : (1 < 0)%nat); [|lia].
  apply (H 0%nat 1%nat Sample.githubMerged Sample.jiraSearch); try reflexivity.
  - intros Hin. unfold Sample.githubThenJira in Hin.
    repeat (apply elem_of_cons in Hin as [Heq|Hin]; [discriminate Heq|]).
    by apply elem_of_nil in Hin.
  - unfold Sample.githubThenJira. by repeat constructor.
Qed.

Lemma namespace_grouping_witness :
  (2 <= length Sample.githubOnly)%nat
  /\ emitBucket ("github", Sample.githubOnly) = Sample.githubMerged
  /\ groupMcpByNamespace Sample.noClassifier Sample.githubThenJira =
       nonCandidates Sample.noClassifier Sample.githubThenJira ++
       map emitBucket (buckets Sample.noClassifier Sample.githubThenJira).
Proof.
  assert (H : (2 <= length Sample.githubOnly)%nat) by (simpl; lia).
  pose proof (namespace_grouping Sample.noClassifier Sample.githubThenJira)
    as (Hspec & _ & _ & _ & _ & _ & Hmerge).
  split; [exact H|]. split; [|exact Hspec].
  rewrite (Hmerge "github" Sample.githubOnly H). reflexivity.
Defined.

(** C3 as stated fails: a mode that is neither [inline] nor [reference]
    selects the inline profile and yields the inline document. *)
Lemma mode_selection_counterexample :
  "verbose" <> "inline" /\ "verbose" <> "reference"
  /\ selectCaps "verbose" = INLINE_CAPS
  /\ Sample.handoff Sample.session [] [] [] [Sample.bash] None "verbose" =
     Sample.handoff Sample.session [] [] [] [Sample.bash] None "inline".
Proof. repeat split; (discriminate || reflexivity). Qed.

Lemma mode_selection_witness :
  "verbose" <> "reference" /\ selectCaps "verbose" = INLINE_CAPS.
Proof.
  assert (H : "verbose" <> "reference") by discriminate.
  split; [exact H|].
  exact (proj1 (proj2 (proj2
    (mode_selection Sample.shellTools Sample.readTools Sample.writeTools Sample.editTools
       Sample.grepTools Sample.globTools Sample.searchTools Sample.fetchTools
       Sample.taskTools Sample.taskOutputTools Sample.askTools Sample.noClassifier
       Sample.localeString Sample.registry Sample.hostSort))) "verbose" H).
Defined.

Example priorities_of_sample_names :
  map Sample.priority
    ["Bash"; "Write"; "Edit"; "Read"; "Grep"; "Glob"; "WebSearch"; "WebFetch"; "Task";
     "TaskOutput"; "AskUserQuestion"; "mcp__github__list_issues"; "MCP: github"] =
  map Rank [0; 1; 2; 3; 4; 5; 6; 7; 8; 8; 9; 10; 10].
Proof. vm_compute. reflexivity. Qed.

Example priorities_of_prototype_names :
  map Sample.priority Js.objectPrototypeKeys = repeat Member 12.
Proof. vm_compute. reflexivity. Qed.

Lemma sample_mapping_lacks (toolName : string) :
  forallb (fun entry => negb (bool_decide (toolName ∈ fst entry))) Sample.mapping = true ->
  forall set p, In (set, p) Sample.mapping -> toolName ∉ set.
Proof.
  intros H set p Hin. rewrite forallb_forall in H. specialize (H _ Hin).
  cbn [fst] in H. apply negb_true_iff, bool_decide_eq_false in H. exact H.
Qed.

Lemma category_order_inherited_member_witness :
  "constructor" ∈ Js.objectPrototypeKeys
  /\ (forall set p, In (set, p) Sample.mapping -> "constructor" ∉ set)
  /\ Sample.priority "constructor" = Member
  /\ sortByCategoryOrder Sample.shellTools Sample.readTools Sample.writeTools
       Sample.editTools Sample.grepTools Sample.globTools Sample.searchTools
       Sample.fetchTools Sample.taskTools Sample.taskOutputTools Sample.askTools
       Sample.hostSort Sample.inheritedName =
     Sample.hostSort Sample.inheritedName.
Proof.
  assert (Hk : "constructor" ∈ Js.objectPrototypeKeys)
    by (unfold Js.objectPrototypeKeys; left).
  assert (H : forall set p, In (set, p) Sample.mapping -> "constructor" ∉ set)
    by (apply sample_mapping_lacks; vm_compute; reflexivity).
  split; [exact Hk|]. split; [exact H|].
  pose proof (category_order_inherited_member Sample.shellTools Sample.readTools
                Sample.writeTools Sample.editTools Sample.grepTools Sample.globTools
                Sample.searchTools Sample.fetchTools Sample.taskTools
                Sample.taskOutputTools Sample.askTools Sample.hostSort
                "constructor" Hk H) as (Hm & _ & _ & Hsort).
  split; [exact Hm|]. apply Hsort.
  - exists (Sample.plainTool "constructor" 1). split; [|reflexivity].
    unfold Sample.inheritedName. right. left.
  - vm_compute. discriminate.
Defined.

(** C5 as stated fails: the second sample of the aggregate has a shell
    payload, yet the category is the classifier's fallback, [mcp], because
    only the first sample is looked at. *)
Lemma category_resolution_counterexample :
  ~ anySampleDecides Sample.noClassifier Sample.mixedSamples.
Proof.
  intros H.
  specialize (H (Sample.shellSample "sh b.sh" 0 false)
                (ShellSample "sh b.sh" (Some 0) false None None)).
  discriminate H; [right; left; reflexivity | reflexivity].
Qed.

Lemma category_resolution_witness :
  samples Sample.bash =
    Sample.shellSample "ls" 0 false :: tail (samples Sample.bash)
  /\ data (Sample.shellSample "ls" 0 false) =
       Some (ShellSample "ls" (Some 0) false None None)
  /\ detectCategory Sample.noClassifier Sample.bash = shell.
Proof.
  split; [reflexivity|]. split; [reflexivity|].
  exact (proj1 (category_resolution Sample.noClassifier) Sample.bash
           (Sample.shellSample "ls" 0 false) (tail (samples Sample.bash))
           (ShellSample "ls" (Some 0) false None None) eq_refl eq_refl).
Defined.

(** C6 as stated fails: the exit line of a sample with exit code 1 and no
    [errored] flag carries no error flag. *)
Lemma shell_sample_rendering_counterexample :
  renderShellSample Sample.failedUnflagged 3 = ["> `$ make`"; "> Exit: 1"; EmptyString]
  /\ ~ flagFollowsExitCode Sample.failedUnflagged 3.
Proof.
  split; [reflexivity|]. intros H.
  specialize (H "make" 1 false None None eq_refl). vm_compute in H.
  repeat (destruct H as [H|H]; [discriminate H|]). exact H.
Qed.

Lemma shell_sample_rendering_witness :
  0 <= 3
  /\ count Sample.bash = 7 /\ length (samples Sample.bash) = 5%nat
  /\ Js.truthyNum (errorCount Sample.bash) = false
  /\ renderShellSample Sample.failedUnflagged 3 =
       ["> `$ make`"] ++ [exitLine 1 false] ++ shellBody false None None 3 ++ [EmptyString]
  /\ renderShellSection Sample.bash INLINE_CAPS =
       ["### Shell (7 calls)"; EmptyString] ++
       flat_map (fun sample => renderShellSample sample 3) (samples Sample.bash) ++
       ["*...and 2 more shell calls (all exit 0)*"; EmptyString].
Proof.
  assert (H0 : 0 <= 3) by lia.
  split; [exact H0|]. split; [reflexivity|]. split; [reflexivity|]. split; [reflexivity|].
  destruct shell_sample_rendering as [Hsample Hsection]. split.
  - exact (proj1 (Hsample Sample.failedUnflagged "make" (Some 1) false None None 3 H0 eq_refl)).
  - exact (Hsection Sample.bash eq_refl eq_refl eq_refl).
Defined.

Lemma diff_block_shape_witness :
  0 <= writeEditDiffLines INLINE_CAPS
  /\ exists header,
       renderWriteSample Sample.longWrite (writeEditDiffLines INLINE_CAPS) =
         [header] ++
         diffBlock (String "-" Sample.longDiffTail) (writeEditDiffLines INLINE_CAPS) ++
         [EmptyString].
Proof.
  assert (H : 0 <= writeEditDiffLines INLINE_CAPS) by (simpl; lia).
  split; [exact H|].
  exact (proj1 (proj2 diff_block_shape) Sample.longWrite "notes.txt"
           true "-"%char Sample.longDiffTail None (writeEditDiffLines INLINE_CAPS) H eq_refl).
Defined.

(** C8 as stated fails: with no tool summaries at all, the document has a
    line [## Tool Activity] when a message reads so, since message text is
    inserted as it is given. *)
Lemma document_structure_counterexample :
  ~ headingIffData "## Tool Activity" (nonEmpty (@nil ToolUsageSummary))
      (Sample.handoff Sample.session [Sample.headingMessage] [] [] [] None "inline").
Proof.
  intros [H _]. assert (Hf : false = true); [|discriminate Hf].
  apply H. vm_compute. do 21 right. left. reflexivity.
Qed.

Lemma document_structure_witness :
  @nil ToolUsageSummary = []
  /\ activityBlock Sample.shellTools Sample.readTools Sample.writeTools Sample.editTools
       Sample.grepTools Sample.globTools Sample.searchTools Sample.fetchTools
       Sample.taskTools Sample.taskOutputTools Sample.askTools Sample.noClassifier Sample.hostSort
       [] "inline" = [].
Proof.
  split; [reflexivity|].
  pose proof (document_structure Sample.shellTools Sample.readTools Sample.writeTools
                Sample.editTools Sample.grepTools Sample.globTools Sample.searchTools
                Sample.fetchTools Sample.taskTools Sample.taskOutputTools Sample.askTools
                Sample.noClassifier Sample.localeString Sample.registry Sample.hostSort
                Sample.session [Sample.headingMessage] [] [] [] None "inline") as H.
  cbv zeta in H. exact (proj2 (proj2 (proj2 (proj2 (proj2 (proj2 (proj2 (proj2 (proj2
    (proj2 H))))))))) eq_refl).
Defined.

(** C9 as stated fails: grouping the output [jira; MCP: github] again moves
    the [jira] entry behind the merged entry. *)
Lemma grouping_regroup_counterexample :
  groupMcpByNamespace Sample.noClassifier Sample.jiraThenGithub =
    [Sample.jiraSearch; Sample.githubMerged]
  /\ groupMcpByNamespace Sample.noClassifier
       (groupMcpByNamespace Sample.noClassifier Sample.jiraThenGithub) =
     [Sample.githubMerged; Sample.jiraSearch]
  /\ groupMcpByNamespace Sample.noClassifier
       (groupMcpByNamespace Sample.noClassifier Sample.jiraThenGithub) <>
     groupMcpByNamespace Sample.noClassifier Sample.jiraThenGithub.
Proof. split; [reflexivity|]. split; [reflexivity|]. vm_compute. discriminate. Qed.

Lemma grouping_regroup_witness :
  candidates Sample.noClassifier
    (groupMcpByNamespace Sample.noClassifier Sample.githubOnly) = []
  /\ groupMcpByNamespace Sample.noClassifier
       (groupMcpByNamespace Sample.noClassifier Sample.githubOnly) =
     groupMcpByNamespace Sample.noClassifier Sample.githubOnly.
Proof.
  assert (H : candidates Sample.noClassifier
                (groupMcpByNamespace Sample.noClassifier Sample.githubOnly) = [])
    by reflexivity.
  split; [exact H|].
  exact (proj1 (proj2 (proj2 (grouping_regroup Sample.noClassifier Sample.githubOnly))) H).
Defined.

Lemma model_rows_witness :
  model Sample.session = Some "model-a"
  /\ notesField notesModel (Some Sample.notes) = Some "model-b"
  /\ "model-b" <> "model-a"
  /\ modelRowsOf (Sample.handoffLines Sample.session [] [] [] [] (Some Sample.notes) "inline") =
       ["| **Model** | model-a |"; "| **Model** | model-b |"].
Proof.
  assert (Hne : "model-b" <> "model-a") by discriminate.
  assert (Ha : "model-a" <> EmptyString) by discriminate.
  assert (Hb : "model-b" <> EmptyString) by discriminate.
  split; [reflexivity|]. split; [reflexivity|]. split; [exact Hne|].
  pose proof (model_rows Sample.shellTools Sample.readTools Sample.writeTools
                Sample.editTools Sample.grepTools Sample.globTools Sample.searchTools
                Sample.fetchTools Sample.taskTools Sample.taskOutputTools Sample.askTools
                Sample.noClassifier Sample.localeString Sample.registry Sample.hostSort
                Sample.session [] [] [] [] (Some Sample.notes) "inline") as H.
  cbv zeta in H.
  exact (proj1 H "model-a" "model-b" eq_refl eq_refl Ha Hb Hne).
Defined.

(** * Further properties of the handoff engine *)

Section GroupingMore.

Context (classifyToolName : string -> option Category).

Local Abbreviation group := (groupMcpByNamespace classifyToolName).
Local Abbreviation nsOf := (namespaceOf classifyToolName).

Lemma totalCount_cons t l : totalCount (t :: l) = count t + totalCount l.
Proof. reflexivity. Qed.

Lemma totalErrors_cons t l :
  totalErrors (t :: l) = Js.orNum (errorCount t) 0 + totalErrors l.
Proof. reflexivity. Qed.

Lemma totalCount_nil : totalCount [] = 0.
Proof. reflexivity. Qed.

Lemma totalErrors_nil : totalErrors [] = 0.
Proof. reflexivity. Qed.

Lemma totalCount_app l1 l2 : totalCount (l1 ++ l2) = totalCount l1 + totalCount l2.
Proof.
  induction l1 as [|t l1 IH]; cbn [app];
    rewrite ?totalCount_cons, ?totalCount_nil; lia.
Qed.

Lemma totalErrors_app l1 l2 : totalErrors (l1 ++ l2) = totalErrors l1 + totalErrors l2.
Proof.
  induction l1 as [|t l1 IH]; cbn [app];
    rewrite ?totalErrors_cons, ?totalErrors_nil; lia.
Qed.

(** The invocations and errors held in the buckets of the namespace map. *)
Let heldCount (nsGroups : list (string * list ToolUsageSummary)) : Z :=
  fold_right Z.add 0 (map (fun b => totalCount (snd b)) nsGroups).

Let heldErrors (nsGroups : list (string * list ToolUsageSummary)) : Z :=
  fold_right Z.add 0 (map (fun b => totalErrors (snd b)) nsGroups).

Lemma nsGroupsPush_held ns tool nsGroups :
  heldCount (nsGroupsPush ns tool nsGroups) = heldCount nsGroups + count tool
  /\ heldErrors (nsGroupsPush ns tool nsGroups) =
       heldErrors nsGroups + Js.orNum (errorCount tool) 0.
Proof.
  unfold heldCount, heldErrors.
  induction nsGroups as [|[k tools] rest [IHc IHe]]; cbn [nsGroupsPush].
  - cbn [map fold_right snd].
    rewrite totalCount_cons, totalErrors_cons, totalCount_nil, totalErrors_nil. lia.
  - destruct (String.eqb k ns); cbn [map fold_right snd] in *.
    + rewrite totalCount_app, totalErrors_app, totalCount_cons, totalErrors_cons,
        totalCount_nil, totalErrors_nil. lia.
    + lia.
Qed.

Lemma groupLoop_held l result nsGroups :
  let st := fold_left (groupStep classifyToolName) l (result, nsGroups) in
  totalCount (fst st) + heldCount (snd st) =
    totalCount result + heldCount nsGroups + totalCount l
  /\ totalErrors (fst st) + heldErrors (snd st) =
       totalErrors result + heldErrors nsGroups + totalErrors l.
Proof.
  cbv zeta. revert result nsGroups.
  induction l as [|t l IH]; intros result nsGroups; cbn [fold_left].
  - cbn [fst snd]. rewrite totalCount_nil, totalErrors_nil. lia.
  - rewrite groupStep_namespaceOf, totalCount_cons, totalErrors_cons.
    destruct (nsOf t) as [ns|].
    + destruct (IH result (nsGroupsPush ns t nsGroups)) as [-> ->].
      destruct (nsGroupsPush_held ns t nsGroups) as [-> ->]. lia.
    + destruct (IH (result ++ [t]) nsGroups) as [-> ->].
      rewrite totalCount_app, totalErrors_app, totalCount_cons, totalErrors_cons,
        totalCount_nil, totalErrors_nil. lia.
Qed.

Lemma emitBucket_count bucket : count (emitBucket bucket) = totalCount (snd bucket).
Proof.
  destruct bucket as [ns [|t [|t' tools]]]; unfold emitBucket, totalCount;
    cbn [fst snd mergedEntry count map fold_right]; lia.
Qed.

Lemma totalErrors_nonneg l :
  Forall (fun t => 0 <= Js.orNum (errorCount t) 0) l -> 0 <= totalErrors l.
Proof.
  induction 1 as [|t l Ht _ IH]; rewrite ?totalErrors_cons, ?totalErrors_nil; lia.
Qed.

Lemma emitBucket_errors bucket :
  Forall (fun t => 0 <= Js.orNum (errorCount t) 0) (snd bucket) ->
  Js.orNum (errorCount (emitBucket bucket)) 0 = totalErrors (snd bucket).
Proof.
  intros Hnn. pose proof (totalErrors_nonneg _ Hnn) as Hge.
  destruct bucket as [ns tools]. cbn [snd] in *.
  unfold emitBucket. cbn [fst snd].
  assert (Hmerged : Js.orNum (errorCount (mergedEntry ns tools)) 0 = totalErrors tools).
  { unfold mergedEntry. cbn [errorCount]. fold (totalErrors tools).
    destruct (Z.ltb_spec 0 (totalErrors tools)) as [Hlt|Hle].
    - unfold Js.orNum, Js.truthyNum. cbn [default].
      destruct (Z.eqb_spec (totalErrors tools) 0); cbn; lia.
    - unfold Js.orNum. cbn. lia. }
  destruct tools as [|t [|t' tools]]; try exact Hmerged.
  rewrite totalErrors_cons, totalErrors_nil. lia.
Qed.

Lemma held_emitBucket nsGroups :
  totalCount (map emitBucket nsGroups) = heldCount nsGroups.
Proof.
  unfold heldCount. induction nsGroups as [|b rest IH]; [done|].
  cbn [map fold_right]. rewrite <- IH, <- emitBucket_count. reflexivity.
Qed.

(** X1. Grouping keeps the number of invocations: the counts of the result
    add up to the counts of the input. *)
Theorem grouping_keeps_total_count (l : list ToolUsageSummary) :
  totalCount (group l) = totalCount l.
Proof.
  unfold groupMcpByNamespace.
  pose proof (groupLoop_held l [] []) as [Hc _]. cbv zeta in Hc.
  destruct (fold_left (groupStep classifyToolName) l ([], [])) as [result nsGroups].
  cbn [fst snd] in Hc. rewrite mergeLoop_emitBucket, totalCount_app, held_emitBucket.
  rewrite Hc. unfold heldCount. cbn [map fold_right]. rewrite totalCount_nil. lia.
Qed.

Lemma held_emitBucket_errors nsGroups :
  (forall b, In b nsGroups -> Forall (fun t => 0 <= Js.orNum (errorCount t) 0) (snd b)) ->
  totalErrors (map emitBucket nsGroups) = heldErrors nsGroups.
Proof.
  unfold heldErrors. induction nsGroups as [|b rest IH]; intros Hsub; [done|].
  cbn [map fold_right]. rewrite totalErrors_cons, emitBucket_errors by (apply Hsub; by left).
  rewrite IH; [reflexivity|]. intros b' Hb'. apply Hsub. by right.
Qed.

Lemma groupLoop_result l :
  fold_left (groupStep classifyToolName) l ([], []) =
  (nonCandidates classifyToolName l, buckets classifyToolName l).
Proof. exact (groupLoop_spec classifyToolName [] l). Qed.

(** X2. Grouping keeps the number of errors when no aggregate carries a
    negative error count (an absent error count stands for none). *)
Theorem grouping_keeps_total_errors (l : list ToolUsageSummary) :
  Forall (fun t => 0 <= Js.orNum (errorCount t) 0) l ->
  totalErrors (group l) = totalErrors l.
Proof.
  intros Hnn. rewrite groupMcpByNamespace_spec, totalErrors_app.
  pose proof (groupLoop_held l [] []) as [_ He]. cbv zeta in He.
  rewrite groupLoop_result in He. cbn [fst snd] in He.
  assert (Hheld : totalErrors (map emitBucket (buckets classifyToolName l)) =
                  heldErrors (buckets classifyToolName l)).
  { assert (Hsub : forall b, In b (buckets classifyToolName l) ->
                     Forall (fun t => 0 <= Js.orNum (errorCount t) 0) (snd b)).
    { intros [ns tools] Hin. destruct (buckets_members _ _ _ _ Hin) as (_ & _ & Hall).
      cbn [snd]. apply List.Forall_forall. intros t Ht.
      rewrite List.Forall_forall in Hall, Hnn. destruct (Hall t Ht) as [Hl _].
      apply Hnn. by apply list_elem_of_In. }
    by apply held_emitBucket_errors. }
  rewrite Hheld. change (heldErrors []) with 0 in He.
  rewrite totalErrors_nil in He. lia.
Qed.

Lemma length_firstOccurrences l : (length (firstOccurrences l) <= length l)%nat.
Proof.
  induction l as [|x l IH]; cbn [firstOccurrences length]; [lia|].
  pose proof (List.filter_length_le (fun y => negb (String.eqb y x)) (firstOccurrences l)).
  lia.
Qed.

Lemma length_partition l :
  length l =
  (length (nonCandidates classifyToolName l) + length (omap nsOf l))%nat.
Proof.
  induction l as [|t l IH]; [done|].
  unfold nonCandidates, isCandidate in *. cbn [List.filter omap list_omap].
  destruct (nsOf t) as [ns|] eqn:Hns.
  - rewrite bool_decide_eq_true_2 by by eexists. cbn [negb length]. lia.
  - rewrite bool_decide_eq_false_2 by by intros [? [=]]. cbn [negb length]. lia.
Qed.

Lemma nonCandidates_all l :
  Forall (fun t => nsOf t = None) l ->
  nonCandidates classifyToolName l = l /\ omap nsOf l = [].
Proof.
  induction 1 as [|t l Ht _ [IH1 IH2]]; [done|].
  unfold nonCandidates, isCandidate in *. cbn [List.filter omap list_omap].
  rewrite Ht. rewrite bool_decide_eq_false_2 by by intros [? [=]]. cbn [negb].
  by rewrite IH1, IH2.
Qed.

Lemma namespaceOf_mcp_prefix tool :
  Js.startsWith (name tool) "mcp__" = false -> nsOf tool = None.
Proof. intros H. unfold namespaceOf. by rewrite H, andb_false_r. Qed.

Lemma namespaceOf_category tool :
  detectCategory classifyToolName tool <> mcp -> nsOf tool = None.
Proof. intros H. unfold namespaceOf. by rewrite bool_decide_eq_false_2. Qed.

(** X3. Grouping returns its input unchanged when no aggregate is both of
    category [mcp] and named [mcp__...]: in particular for the empty list
    and for any list without a name that starts with [mcp__]. The result
    never has more entries than the input. *)
Theorem grouping_identity_without_candidates (l : list ToolUsageSummary) :
  (Forall (fun t => detectCategory classifyToolName t <> mcp
                    \/ Js.startsWith (name t) "mcp__" = false) l ->
   group l = l)
  /\ (length (group l) <= length l)%nat.
Proof.
  split.
  - intros Hno.
    assert (Hall : Forall (fun t => nsOf t = None) l).
    { eapply Forall_impl; [exact Hno|]. intros t [H|H];
        [by apply namespaceOf_category | by apply namespaceOf_mcp_prefix]. }
    destruct (nonCandidates_all l Hall) as [Hnc Hom].
    rewrite groupMcpByNamespace_spec, Hnc. unfold buckets. rewrite Hom.
    cbn. by rewrite app_nil_r.
  - rewrite groupMcpByNamespace_spec, length_app, length_map.
    unfold buckets. rewrite length_map.
    pose proof (length_firstOccurrences (omap nsOf l)).
    pose proof (length_partition l). lia.
Qed.

(** X4. Grouping invents nothing: every entry of the result is an entry of
    the input or the merge of two or more input entries of one namespace,
    and a merged entry has at most 5 samples, each of them a sample of one
    of its members. *)
Theorem grouping_entries_from_input (l : list ToolUsageSummary) (tool : ToolUsageSummary) :
  tool ∈ group l ->
  tool ∈ l
  \/ exists ns tools,
       tool = mergedEntry ns tools
       /\ (2 <= length tools)%nat
       /\ (forall m, m ∈ tools -> m ∈ l /\ nsOf m = Some ns)
       /\ (length (samples tool) <= 5)%nat
       /\ (forall s, s ∈ samples tool -> exists m, m ∈ tools /\ s ∈ samples m).
Proof.
  rewrite groupMcpByNamespace_spec, elem_of_app. intros [Hin|Hin].
  - left. by apply elem_of_nonCandidates in Hin as [Hin _].
  - apply list_elem_of_fmap in Hin as ([ns tools] & -> & Hb).
    apply list_elem_of_In in Hb.
    destruct (buckets_members _ _ _ _ Hb) as (_ & Hne & Hall).
    rewrite List.Forall_forall in Hall.
    destruct tools as [|t [|t' tools]]; [done | |].
    + left. unfold emitBucket. cbn [snd]. apply Hall. by left.
    + right. exists ns, (t :: t' :: tools). unfold emitBucket. cbn [fst snd].
      split; [done|]. split; [cbn [length]; lia|]. split.
      { intros m Hm. apply Hall. by apply list_elem_of_In. }
      unfold mergedEntry. cbn [samples]. split.
      { rewrite length_take. lia. }
      intros s Hs. apply elem_of_take in Hs as (i & Hs & _).
      apply list_elem_of_lookup_2 in Hs.
      apply list_elem_of_In, in_concat in Hs as (ss & Hss & Hs).
      apply in_map_iff in Hss as (m & <- & Hm).
      exists m. split; by apply list_elem_of_In.
Qed.

Lemma concat_samples_bound tools :
  Forall (fun t => Z.of_nat (length (samples t)) <= count t) tools ->
  Z.of_nat (length (concat (map samples tools))) <= totalCount tools.
Proof.
  induction 1 as [|t tools Ht _ IH]; [done|].
  cbn [map concat]. rewrite length_app, totalCount_cons. lia.
Qed.

(** X25. Grouping keeps the bound that count conservation asks for: when
    every aggregate of the input has at least as many calls as samples, so
    has every aggregate of the result, the merged ones included. *)
Theorem grouping_keeps_sample_bound (l : list ToolUsageSummary) :
  Forall (fun t => Z.of_nat (length (samples t)) <= count t) l ->
  Forall (fun t => Z.of_nat (length (samples t)) <= count t) (group l).
Proof.
  intros Hl. rewrite Forall_forall in Hl. apply Forall_forall. intros tool.
  rewrite groupMcpByNamespace_spec, elem_of_app. intros [Hin|Hin].
  - apply Hl. by apply elem_of_nonCandidates in Hin as [Hin _].
  - apply list_elem_of_fmap in Hin as ([ns tools] & -> & Hb).
    apply list_elem_of_In in Hb.
    destruct (buckets_members _ _ _ _ Hb) as (_ & Hne & Hall).
    rewrite List.Forall_forall in Hall.
    assert (Htools : Forall (fun t => Z.of_nat (length (samples t)) <= count t) tools).
    { apply Forall_forall. intros m Hm. apply Hl. apply Hall. by apply list_elem_of_In. }
    rewrite emitBucket_count. cbn [snd].
    destruct tools as [|t [|t' tools]]; [done | |].
    + unfold emitBucket. cbn [snd]. rewrite totalCount_cons, totalCount_nil.
      apply List.Forall_cons_iff in Htools as [Ht _]. lia.
    + unfold emitBucket, mergedEntry. cbn [fst snd samples].
      pose proof (concat_samples_bound _ Htools). rewrite length_take. lia.
Qed.

End GroupingMore.

(** ** Sorting again *)

Lemma sort_sorted_id {A} (key : A -> Z) (l : list A) :
  StronglySorted (fun a b => key a <= key b) l ->
  Js.sort (fun a b => key a - key b) l = l.
Proof.
  induction 1 as [|x l Hs IH Hx]; [done|].
  cbn [Js.sort]. rewrite IH. destruct l as [|y l]; [done|].
  cbn [Js.sortInsert]. apply List.Forall_inv in Hx.
  destruct (Z.leb_spec (key x - key y) 0); [done | lia].
Qed.

(** X5. Sorting by category order leaves a list that is already in
    ascending priority as it is; and where every aggregate of a list has a
    number for its priority, sorting the list twice is sorting it once. *)
Theorem sortByCategoryOrder_idempotent
    (SHELL_TOOLS READ_TOOLS WRITE_TOOLS EDIT_TOOLS GREP_TOOLS GLOB_TOOLS
     SEARCH_TOOLS FETCH_TOOLS TASK_TOOLS TASK_OUTPUT_TOOLS ASK_TOOLS : list string)
    (hostSort : list ToolUsageSummary -> list ToolUsageSummary)
    (l : list ToolUsageSummary) :
  let priority :=
    getCategoryOrder SHELL_TOOLS READ_TOOLS WRITE_TOOLS EDIT_TOOLS GREP_TOOLS GLOB_TOOLS
      SEARCH_TOOLS FETCH_TOOLS TASK_TOOLS TASK_OUTPUT_TOOLS ASK_TOOLS in
  let sorted :=
    sortByCategoryOrder SHELL_TOOLS READ_TOOLS WRITE_TOOLS EDIT_TOOLS GREP_TOOLS GLOB_TOOLS
      SEARCH_TOOLS FETCH_TOOLS TASK_TOOLS TASK_OUTPUT_TOOLS ASK_TOOLS hostSort in
  (StronglySorted (rankLe priority) l -> sorted l = l)
  /\ (allRanked priority l -> sorted (sorted l) = sorted l).
Proof.
  cbv zeta. split.
  - intros Hs. destruct (Z.ltb_spec (Z.of_nat (length l)) 2) as [Hshort | Hlong].
    + by apply sorted_short.
    + rewrite sorted_ranked by (by apply rankLe_ranked).
      apply sort_sorted_id. by apply rankLe_rankKey.
  - intros Hr. rewrite (sorted_ranked _ _ _ _ _ _ _ _ _ _ _ _ l Hr).
    rewrite sorted_ranked.
    + apply sort_sorted_id. apply sort_StronglySorted.
    + eapply allRanked_Permutation; [|exact Hr]. symmetry. apply sort_Permutation.
Qed.

(** ** Overflow lines again *)

(** Reduces a claim that a section has no overflow line, for a count the
    samples shown cover, to the lines of its samples. *)
Ltac covered_section H Hcov :=
  cbv zeta; rewrite !slice_from_start, !pushEach_flat_map by exact H;
  rewrite ?length_take_Z by exact H;
  match goal with
  | |- context [0 <? ?r] => destruct (Z.ltb_spec 0 r) as [Hlt|_]; [exfalso; lia|]
  end;
  apply filter_none; unfold push; plain_lines.

(** X6. A renderer prints no overflow line when the count does not exceed
    the number of samples it shows, also when the count is smaller than the
    number of samples the aggregate carries: a remainder that is zero or
    negative is never stated. *)
Theorem no_overflow_line_when_covered (tool : ToolUsageSummary) (caps : DisplayCaps) :
  nonnegCaps caps ->
  let shown cap := Z.min (Z.of_nat (length (samples tool))) cap in
  (count tool <= shown (shellDetailed caps) ->
   List.filter isOverflowLine (renderShellSection tool caps) = [])
  /\ (count tool <= shown (writeEditDetailed caps) ->
      List.filter isOverflowLine (renderWriteSection tool caps) = []
      /\ List.filter isOverflowLine (renderEditSection tool caps) = [])
  /\ (count tool <= shown (readEntries caps) ->
      List.filter isOverflowLine (renderReadSection tool caps) = [])
  /\ (count tool <= shown (grepGlobSearchFetch caps) ->
      List.filter isOverflowLine (renderGrepSection tool caps) = []
      /\ List.filter isOverflowLine (renderGlobSection tool caps) = [])
  /\ (forall cat,
        count tool <= shown (compactCap cat caps) ->
        List.filter isOverflowLine (renderCompactSection tool cat caps) = [])
  /\ (count tool <= shown 5 ->
      List.filter isOverflowLine (renderFallbackSection tool) = []).
Proof.
  intros (Hsd & Hsl & Hwd & Hwl & Hr & Hg & Hm). cbv zeta.
  split; [|split; [|split; [|split; [|split]]]].
  - intros Hcov. unfold renderShellSection. covered_section Hsd Hcov.
    by apply plain_renderShellSample.
  - intros Hcov. split.
    + unfold renderWriteSection. covered_section Hwd Hcov.
      by apply plain_renderWriteSample.
    + unfold renderEditSection. covered_section Hwd Hcov.
      by apply plain_renderEditSample.
  - intros Hcov. unfold renderReadSection. covered_section Hr Hcov.
    apply plain_renderReadEntry.
  - intros Hcov. split.
    + unfold renderGrepSection. covered_section Hg Hcov. apply plain_renderGrepEntry.
    + unfold renderGlobSection. covered_section Hg Hcov. apply plain_renderGlobEntry.
  - intros cat Hcov.
    assert (Hc : 0 <= compactCap cat caps) by (by destruct cat).
    unfold renderCompactSection. covered_section Hc Hcov.
    constructor; [apply plain_formatCompactSample | constructor].
  - intros Hcov. assert (H5 : 0 <= 5) by done.
    unfold renderFallbackSection. covered_section H5 Hcov.
Qed.

(** ** Source labels *)

Lemma getSourceLabels_lookup_from (adapters : list (string * string))
    (labels : gmap string string) (key : string) :
  key ∉ map fst adapters ->
  fold_left (fun labels a => <[fst a := snd a]> labels) adapters labels !! key =
  labels !! key.
Proof.
  revert labels. induction adapters as [|[n l] rest IH]; intros labels Hout; [done|].
  cbn [fold_left fst snd map] in *. rewrite IH by (intros ?; apply Hout; by right).
  apply lookup_insert_ne. intros ->. apply Hout. by left.
Qed.

Lemma getSourceLabels_unregistered adapters key :
  key ∉ map fst adapters -> getSourceLabels adapters !! key = None.
Proof.
  intros Hout. unfold getSourceLabels. by rewrite getSourceLabels_lookup_from.
Qed.

Lemma getSourceLabels_registered before key label after :
  key ∉ map fst after ->
  getSourceLabels (before ++ (key, label) :: after) !! key = Some label.
Proof.
  intros Hout. unfold getSourceLabels. rewrite fold_left_app. cbn [fold_left fst snd].
  rewrite getSourceLabels_lookup_from by done. apply lookup_insert_eq.
Qed.

Section SourceRow.

Context (SHELL_TOOLS READ_TOOLS WRITE_TOOLS EDIT_TOOLS GREP_TOOLS GLOB_TOOLS
  SEARCH_TOOLS FETCH_TOOLS TASK_TOOLS TASK_OUTPUT_TOOLS ASK_TOOLS : list string)
  (classifyToolName : string -> option Category)
  (toLocaleString : Z -> string)
  (hostSort : list ToolUsageSummary -> list ToolUsageSummary).

Local Abbreviation linesFor adapters :=
  (generateHandoffLines SHELL_TOOLS READ_TOOLS WRITE_TOOLS EDIT_TOOLS GREP_TOOLS GLOB_TOOLS
     SEARCH_TOOLS FETCH_TOOLS TASK_TOOLS TASK_OUTPUT_TOOLS ASK_TOOLS classifyToolName
     toLocaleString adapters hostSort).

Lemma source_row adapters session messages filesModified pendingTasks toolSummaries
    sessionNotes mode :
  linesFor adapters session messages filesModified pendingTasks toolSummaries sessionNotes
    mode !! 7%nat =
  Some ("| **Source** | " +:+ sourceLabelOf adapters session +:+ " |").
Proof. rewrite handoffLines_blocks. reflexivity. Qed.

(** X7. The Source row of the overview shows the label of the adapter
    registered last under the session's source tag, and the raw tag when no
    adapter is registered under it or when that label is empty. *)
Theorem source_row_label session messages filesModified pendingTasks toolSummaries
    sessionNotes mode :
  (forall adapters,
     source session ∉ map fst adapters ->
     linesFor adapters session messages filesModified pendingTasks toolSummaries
       sessionNotes mode !! 7%nat =
     Some ("| **Source** | " +:+ source session +:+ " |"))
  /\ (forall before label after,
        source session ∉ map fst after ->
        linesFor (before ++ (source session, label) :: after) session messages
          filesModified pendingTasks toolSummaries sessionNotes mode !! 7%nat =
        Some ("| **Source** | " +:+
              (if String.eqb label EmptyString then source session else label) +:+ " |")).
Proof.
  split.
  - intros adapters Hout. rewrite source_row. unfold sourceLabelOf.
    by rewrite getSourceLabels_unregistered.
  - intros before label after Hout. rewrite source_row. unfold sourceLabelOf.
    rewrite getSourceLabels_registered by done. by destruct label.
Qed.

End SourceRow.

(** ** The headings of the Tool Activity section *)

Lemma below_fencedLines fence text n :
  0 <= n -> belowHeading fence -> Forall belowHeading (fencedLines fence text n).
Proof.
  intros Hn Hf. unfold fencedLines. cbv zeta.
  rewrite slice_from_start, pushEach_flat_map by done. unfold push.
  rewrite !Forall_app. repeat split.
  - by constructor.
  - apply Forall_flat_map. intros x. by repeat constructor.
  - by repeat constructor.
Qed.

(** Splits a [Forall belowHeading] goal along [++] and [::] and closes the
    literal lines by computation. *)
Ltac below_lines :=
  repeat first
    [ apply below_fencedLines; [assumption | exact eq_refl]
    | apply List.Forall_nil
    | apply List.Forall_cons; [exact eq_refl|]
    | apply Forall_app; split
    | apply Forall_flat_map; intros ? ].

Lemma below_renderShellSample sample n :
  0 <= n -> Forall belowHeading (renderShellSample sample n).
Proof.
  intros Hn. unfold renderShellSample, push.
  destruct (data sample) as [[]|]; try (by below_lines).
  destruct exitCode, (Js.truthy stdoutTail), (errored && Js.truthy errorMessage);
    below_lines.
Qed.

Lemma below_pushDiff diff n lines :
  0 <= n -> Forall belowHeading lines -> Forall belowHeading (pushDiff diff n lines).
Proof.
  intros Hn Hl. unfold pushDiff. cbv zeta.
  rewrite slice_from_start, pushEach_flat_map by done. unfold push.
  destruct (Js.truthy diff); [|done].
  match goal with |- context [if ?c then _ else _] => destruct c end;
    below_lines; done.
Qed.

Lemma below_renderWriteSample sample n :
  0 <= n -> Forall belowHeading (renderWriteSample sample n).
Proof.
  intros Hn. unfold renderWriteSample, push.
  destruct (data sample) as [[]|]; try (by below_lines).
  apply Forall_app; split; [|by below_lines].
  apply below_pushDiff; [done|]. by below_lines.
Qed.

Lemma below_renderEditSample sample n :
  0 <= n -> Forall belowHeading (renderEditSample sample n).
Proof.
  intros Hn. unfold renderEditSample, push.
  destruct (data sample) as [[]|]; try (by below_lines).
  apply Forall_app; split; [|by below_lines].
  apply below_pushDiff; [done|]. by below_lines.
Qed.

Lemma below_renderReadEntry sample : Forall belowHeading (renderReadEntry sample).
Proof. unfold renderReadEntry. destruct (data sample) as [[]|]; by below_lines. Qed.

Lemma below_renderGrepEntry sample : Forall belowHeading (renderGrepEntry sample).
Proof. unfold renderGrepEntry. destruct (data sample) as [[]|]; by below_lines. Qed.

Lemma below_renderGlobEntry sample : Forall belowHeading (renderGlobEntry sample).
Proof. unfold renderGlobEntry. destruct (data sample) as [[]|]; by below_lines. Qed.

(** Opens a section renderer into its heading and the lines below it. *)
Ltac heading_and_below H :=
  cbv zeta; rewrite !slice_from_start, !pushEach_flat_map by exact H;
  unfold push;
  repeat match goal with |- context [if 0 <? ?r then _ else _] => destruct (0 <? r) end;
  cbn [app]; (eexists; split; [reflexivity|]); below_lines.

Section ToolHeadings.

Context (SHELL_TOOLS READ_TOOLS WRITE_TOOLS EDIT_TOOLS GREP_TOOLS GLOB_TOOLS
  SEARCH_TOOLS FETCH_TOOLS TASK_TOOLS TASK_OUTPUT_TOOLS ASK_TOOLS : list string)
  (classifyToolName : string -> option Category)
  (hostSort : list ToolUsageSummary -> list ToolUsageSummary).

Local Abbreviation toolActivity :=
  (renderToolActivity SHELL_TOOLS READ_TOOLS WRITE_TOOLS EDIT_TOOLS GREP_TOOLS GLOB_TOOLS
     SEARCH_TOOLS FETCH_TOOLS TASK_TOOLS TASK_OUTPUT_TOOLS ASK_TOOLS classifyToolName hostSort).

Local Abbreviation sortedGroups l :=
  (sortByCategoryOrder SHELL_TOOLS READ_TOOLS WRITE_TOOLS EDIT_TOOLS GREP_TOOLS GLOB_TOOLS
     SEARCH_TOOLS FETCH_TOOLS TASK_TOOLS TASK_OUTPUT_TOOLS ASK_TOOLS hostSort
     (groupMcpByNamespace classifyToolName l)).

Lemma renderTool_heading tool caps :
  nonnegCaps caps ->
  exists below,
    renderTool classifyToolName tool caps = toolHeading classifyToolName tool :: below
    /\ Forall belowHeading below.
Proof.
  intros (Hsd & Hsl & Hwd & Hwl & Hr & Hg & Hm).
  unfold renderTool, toolHeading. cbv zeta.
  destruct (detectCategory classifyToolName tool) eqn:Hcat.
  - unfold renderShellSection. heading_and_below Hsd; by apply below_renderShellSample.
  - unfold renderWriteSection. heading_and_below Hwd; by apply below_renderWriteSample.
  - unfold renderEditSection. heading_and_below Hwd; by apply below_renderEditSample.
  - unfold renderReadSection. heading_and_below Hr; apply below_renderReadEntry.
  - unfold renderGrepSection. heading_and_below Hg; apply below_renderGrepEntry.
  - unfold renderGlobSection. heading_and_below Hg; apply below_renderGlobEntry.
  - unfold renderCompactSection. heading_and_below Hg;
      unfold formatCompactSample; destruct (data _) as [[]|]; by below_lines.
  - unfold renderCompactSection. heading_and_below Hg;
      unfold formatCompactSample; destruct (data _) as [[]|]; by below_lines.
  - unfold renderCompactSection. heading_and_below Hm;
      unfold formatCompactSample; destruct (data _) as [[]|]; by below_lines.
  - unfold renderCompactSection. heading_and_below Hm;
      unfold formatCompactSample; destruct (data _) as [[]|]; by below_lines.
  - unfold renderCompactSection. heading_and_below Hm;
      unfold formatCompactSample; destruct (data _) as [[]|]; by below_lines.
Qed.

Lemma filter_app_bool {A} (p : A -> bool) (l1 l2 : list A) :
  List.filter p (l1 ++ l2) = List.filter p l1 ++ List.filter p l2.
Proof. induction l1 as [|x l1 IH]; simpl; [done|]. destruct (p x); simpl; by rewrite IH. Qed.

(** X8. With non-negative display caps, the lines of the Tool Activity
    section that start with [### ] are exactly the headings of the grouped
    and sorted aggregates, one for each and in their order: no sample, file
    list or overflow line of a section can be read as a heading. *)
Theorem tool_activity_headings toolSummaries caps :
  nonnegCaps caps ->
  List.filter isToolHeading (toolActivity toolSummaries caps) =
  map (toolHeading classifyToolName) (sortedGroups toolSummaries).
Proof.
  intros Hcaps. unfold renderToolActivity. cbv zeta.
  rewrite pushEach_flat_map. cbn [app].
  induction (sortByCategoryOrder _ _ _ _ _ _ _ _ _ _ _ _ _) as [|tool sorted IH];
    [done|].
  cbn [flat_map map]. rewrite filter_app_bool, IH. unfold push.
  destruct (renderTool_heading tool caps Hcaps) as (below & -> & Hbelow).
  rewrite filter_app_bool. cbn [List.filter app].
  replace (isToolHeading (toolHeading classifyToolName tool)) with true by reflexivity.
  rewrite (filter_none _ below) by exact Hbelow.
  reflexivity.
Qed.

End ToolHeadings.

(** * Properties of the parsers *)

Lemma mapGet_mapSet_eq {V} k (v : V) m : mapGet k (mapSet k v m) = Some v.
Proof.
  induction m as [|[k' v'] m IH]; cbn [mapSet mapGet].
  - by rewrite String.eqb_refl.
  - destruct (String.eqb k' k) eqn:E; cbn [mapGet]; rewrite E; [done | exact IH].
Qed.

Lemma mapSet_mapSet {V} k (v v' : V) m : mapSet k v (mapSet k v' m) = mapSet k v m.
Proof.
  induction m as [|[k0 v0] m IH]; cbn [mapSet].
  - by rewrite String.eqb_refl.
  - destruct (String.eqb k0 k) eqn:E; cbn [mapSet]; rewrite E; [done | by rewrite IH].
Qed.

Lemma mapGet_tabulate {V} (f : string -> V) ks k :
  mapGet k (map (fun n => (n, f n)) ks) = if decide (k ∈ ks) then Some (f k) else None.
Proof.
  induction ks as [|n ks IH]; cbn [map mapGet].
  - case_decide as H; [destruct (not_elem_of_nil _ H) | done].
  - destruct (String.eqb_spec n k) as [->|Hne].
    + by rewrite decide_True by (by left).
    + rewrite IH. destruct (decide (k ∈ ks)) as [Hin|Hout].
      * by rewrite decide_True by (by right).
      * rewrite decide_False; [done|]. rewrite elem_of_cons. intros [->|?]; done.
Qed.

Lemma mapSet_tabulate_out {V} (f : string -> V) ks k v :
  k ∉ ks -> mapSet k v (map (fun n => (n, f n)) ks) = map (fun n => (n, f n)) ks ++ [(k, v)].
Proof.
  induction ks as [|n ks IH]; intros Hout; cbn [map mapSet app]; [done|].
  apply not_elem_of_cons in Hout as [Hne Hout].
  destruct (String.eqb_spec n k) as [->|_]; [done|]. by rewrite IH.
Qed.

Lemma mapSet_tabulate_in {V} (f : string -> V) ks k v :
  NoDup ks -> k ∈ ks ->
  mapSet k v (map (fun n => (n, f n)) ks) =
  map (fun n => (n, if String.eqb n k then v else f n)) ks.
Proof.
  induction 1 as [|n ks Hn Hnd IH]; intros Hin; [destruct (not_elem_of_nil _ Hin)|].
  cbn [map mapSet]. destruct (String.eqb_spec n k) as [->|Hne].
  - f_equal. apply map_ext_in. intros n Hin'. apply list_elem_of_In in Hin'.
    destruct (String.eqb_spec n k) as [->|_]; done.
  - f_equal. apply IH. apply elem_of_cons in Hin as [->|Hin]; done.
Qed.

Lemma take_snoc_cap {A} (n : nat) (l : list A) (x : A) :
  take n (l ++ [x]) = if (length l <? n)%nat then take n l ++ [x] else take n l.
Proof.
  destruct (Nat.ltb_spec (length l) n) as [Hlt|Hge].
  - rewrite take_app_ge by lia. rewrite (take_ge l) by lia.
    destruct (n - length l)%nat eqn:E; [lia|]. cbn [take]. by rewrite take_nil.
  - by rewrite take_app_le by lia.
Qed.

Section CopilotParser.

Context (classifyToolName : string -> option Category) (stringify : Copilot.Args -> string).

Local Abbreviation requestStep := (Copilot.requestStep classifyToolName stringify).
Local Abbreviation classified := (Copilot.classified classifyToolName).
Local Abbreviation callsOf := (Copilot.callsOf classifyToolName).
Local Abbreviation summaryFor := (Copilot.summaryFor classifyToolName stringify).
Local Abbreviation sampleOf := (Copilot.sampleOf classifyToolName stringify).
Local Abbreviation writtenPath := (Copilot.writtenPath classifyToolName).
Local Abbreviation names reqs := (firstOccurrences (map Copilot.nameOf (classified reqs))).
Local Abbreviation entries reqs :=
  (map (fun n => (n, (count (summaryFor n (callsOf n reqs)),
                      samples (summaryFor n (callsOf n reqs)))))
       (names reqs)).

Lemma classified_snoc reqs tr :
  classified (reqs ++ [tr]) =
  match classifyToolName (Copilot.nameOf tr) with
  | Some _ => classified reqs ++ [tr]
  | None => classified reqs
  end.
Proof.
  unfold Copilot.classified. rewrite List.filter_app. cbn [List.filter].
  destruct (classifyToolName (Copilot.nameOf tr)); [done | by rewrite app_nil_r].
Qed.

Lemma callsOf_snoc reqs tr n :
  is_Some (classifyToolName (Copilot.nameOf tr)) ->
  callsOf n (reqs ++ [tr]) =
  if String.eqb (Copilot.nameOf tr) n then callsOf n reqs ++ [tr] else callsOf n reqs.
Proof.
  intros [c Hc]. unfold Copilot.callsOf. rewrite classified_snoc, Hc, List.filter_app.
  cbn [List.filter]. destruct (String.eqb _ n); [done | by rewrite app_nil_r].
Qed.

Lemma callsOf_unknown reqs n :
  n ∉ map Copilot.nameOf (classified reqs) -> callsOf n reqs = [].
Proof.
  intros Hout. unfold Copilot.callsOf. apply filter_none, Forall_forall.
  intros tr Hin. destruct (String.eqb_spec (Copilot.nameOf tr) n) as [<-|]; [|done].
  destruct Hout. apply list_elem_of_fmap. by exists tr.
Qed.

Lemma setAdd_firstOccurrences l x :
  setAdd x (firstOccurrences l) = firstOccurrences (l ++ [x]).
Proof.
  unfold setAdd. rewrite firstOccurrences_snoc.
  destruct (decide (x ∈ l)) as [Hin|Hout].
  - by rewrite bool_decide_eq_true_2 by (by apply (elem_of_firstOccurrences classifyToolName)).
  - by rewrite bool_decide_eq_false_2 by (by rewrite (elem_of_firstOccurrences classifyToolName)).
Qed.

Lemma callsOf_snoc_unclassified reqs tr n :
  classifyToolName (Copilot.nameOf tr) = None -> callsOf n (reqs ++ [tr]) = callsOf n reqs.
Proof. intros Hc. unfold Copilot.callsOf. by rewrite classified_snoc, Hc. Qed.

Lemma writtenPath_snoc reqs tr :
  omap writtenPath (reqs ++ [tr]) =
  omap writtenPath reqs ++ match writtenPath tr with Some p => [p] | None => [] end.
Proof. rewrite omap_app. reflexivity. Qed.

Lemma sampleOf_classified tr c :
  classifyToolName (Copilot.nameOf tr) = Some c ->
  sampleOf tr =
  Copilot.requestSample stringify c (Copilot.nameOf tr) (default [] (Copilot.reqArguments tr)).
Proof. intros Hc. unfold Copilot.sampleOf. by rewrite Hc. Qed.

Lemma writtenPath_classified tr c :
  classifyToolName (Copilot.nameOf tr) = Some c ->
  writtenPath tr =
  if (bool_decide (c = write) || bool_decide (c = edit))
     && nonEmptyStr (Copilot.filePathOf (default [] (Copilot.reqArguments tr)))
  then Some (Copilot.filePathOf (default [] (Copilot.reqArguments tr))) else None.
Proof. intros Hc. unfold Copilot.writtenPath. by rewrite Hc. Qed.

Lemma writtenPath_unclassified tr :
  classifyToolName (Copilot.nameOf tr) = None -> writtenPath tr = None.
Proof. intros Hc. unfold Copilot.writtenPath. by rewrite Hc. Qed.

Lemma requestStep_spec reqs tr :
  requestStep (entries reqs, firstOccurrences (omap writtenPath reqs)) tr =
  (entries (reqs ++ [tr]), firstOccurrences (omap writtenPath (reqs ++ [tr]))).
Proof.
  rewrite writtenPath_snoc. unfold Copilot.requestStep.
  change (orStr (Copilot.reqName tr) "unknown") with (Copilot.nameOf tr).
  destruct (classifyToolName (Copilot.nameOf tr)) as [c|] eqn:Hc.
  - cbv zeta. f_equal.
    + rewrite <- (sampleOf_classified tr c Hc).
      rewrite classified_snoc, Hc. cbv iota.
      rewrite map_app. cbn [map]. rewrite firstOccurrences_snoc.
      pose proof (ex_intro (fun c => classifyToolName (Copilot.nameOf tr) = Some c) c Hc)
        as Hsome.
      change (is_Some (classifyToolName (Copilot.nameOf tr))) in Hsome.
      clear Hc. set (k := Copilot.nameOf tr) in *.
      rewrite (mapGet_tabulate
                 (fun n => (count (summaryFor n (callsOf n reqs)),
                            samples (summaryFor n (callsOf n reqs)))) (names reqs) k).
      destruct (decide (k ∈ names reqs)) as [Hin|Hout].
      * rewrite decide_True by (by apply (elem_of_firstOccurrences classifyToolName)).
        rewrite (mapGet_tabulate
                 (fun n => (count (summaryFor n (callsOf n reqs)),
                            samples (summaryFor n (callsOf n reqs)))) (names reqs) k).
        rewrite decide_True by done. cbn [default fst snd].
        rewrite mapSet_tabulate_in by (done || apply NoDup_firstOccurrences).
        apply map_ext. intros n. rewrite callsOf_snoc by exact Hsome. fold k.
        rewrite (String.eqb_sym n k). destruct (String.eqb_spec k n) as [<-|Hne]; [|done].
        unfold Copilot.summaryFor. cbn [count samples].
        unfold Datatypes.id. cbn [fst snd].
        rewrite length_map, length_take, take_snoc_cap, length_app. cbn [length].
        destruct (Nat.ltb_spec (length (callsOf k reqs)) 5) as [Hlt|Hge].
        -- destruct (Z.ltb_spec (Z.of_nat (5 `min` length (callsOf k reqs))) 5); [|lia].
           cbn [fst snd]. rewrite map_app. cbn [map]. do 3 f_equal. lia.
        -- destruct (Z.ltb_spec (Z.of_nat (5 `min` length (callsOf k reqs))) 5); [lia|].
           do 3 f_equal. lia.
      * rewrite decide_False by (by rewrite <- (elem_of_firstOccurrences classifyToolName)).
        rewrite mapGet_mapSet_eq, mapSet_mapSet. cbn [default fst snd length].
        rewrite (mapSet_tabulate_out
                 (fun n => (count (summaryFor n (callsOf n reqs)),
                            samples (summaryFor n (callsOf n reqs)))) (names reqs) k)
          by done.
        rewrite map_app. cbn [map]. f_equal.
        -- apply map_ext_in. intros n Hn. apply list_elem_of_In in Hn.
           rewrite callsOf_snoc by exact Hsome. fold k.
           destruct (String.eqb_spec k n) as [<-|Hne]; done.
        -- rewrite callsOf_snoc by exact Hsome. fold k. rewrite String.eqb_refl.
           rewrite callsOf_unknown by (by rewrite <- (elem_of_firstOccurrences classifyToolName)).
           reflexivity.
    + rewrite (writtenPath_classified tr c Hc).
      destruct (_ && _); [|by rewrite app_nil_r]. apply setAdd_firstOccurrences.
  - rewrite (writtenPath_unclassified tr Hc), app_nil_r, classified_snoc, Hc. f_equal.
    apply map_ext. intros n. by rewrite callsOf_snoc_unclassified.
Qed.

Lemma requestLoop_spec reqs :
  fold_left requestStep reqs ([], []) =
  (entries reqs, firstOccurrences (omap writtenPath reqs)).
Proof.
  induction reqs as [|tr reqs IH] using rev_ind; [done|].
  rewrite fold_left_app, IH. cbn [fold_left]. apply requestStep_spec.
Qed.

Lemma eventLoop_requests events st :
  fold_left (Copilot.eventStep classifyToolName stringify) events st =
  fold_left requestStep (Copilot.requestsOf events) st.
Proof.
  revert st. induction events as [|e events IH]; intros st; [done|].
  cbn [fold_left Copilot.requestsOf flat_map]. rewrite fold_left_app, IH.
  unfold Copilot.eventStep. by destruct (String.eqb _ _).
Qed.

Lemma extract_spec events :
  Copilot.extractCopilotToolSummaries classifyToolName stringify events =
  (map (fun n => summaryFor n (callsOf n (Copilot.requestsOf events)))
       (names (Copilot.requestsOf events)),
   firstOccurrences (omap writtenPath (Copilot.requestsOf events))).
Proof.
  unfold Copilot.extractCopilotToolSummaries.
  rewrite eventLoop_requests, requestLoop_spec. f_equal.
  rewrite map_map. apply map_ext. by intros n.
Qed.

Lemma category_buildCopilotSampleData c n args :
  category (Copilot.buildCopilotSampleData stringify c n args) = c.
Proof. by destruct c. Qed.

Lemma elem_of_callsOf tr n reqs :
  tr ∈ callsOf n reqs <->
  tr ∈ reqs /\ Copilot.nameOf tr = n /\ is_Some (classifyToolName n).
Proof.
  unfold Copilot.callsOf, Copilot.classified.
  rewrite !list_elem_of_In, !List.filter_In, <- list_elem_of_In.
  destruct (String.eqb_spec (Copilot.nameOf tr) n) as [->|Hne].
  - destruct (classifyToolName n); split.
    + intros [[? _] _]. eauto.
    + intros (? & _ & _). eauto.
    + intros [[_ ?] _]. done.
    + intros (_ & _ & [? ?]). done.
  - split; [intros [_ ?]; done | intros (_ & ? & _); done].
Qed.

Lemma elem_of_names n reqs :
  n ∈ names reqs <-> exists tr, tr ∈ callsOf n reqs.
Proof.
  rewrite (elem_of_firstOccurrences classifyToolName), list_elem_of_fmap. split.
  - intros (tr & -> & Hin). exists tr.
    apply list_elem_of_In, List.filter_In. split; [by apply list_elem_of_In|].
    apply String.eqb_refl.
  - intros (tr & Hin). apply elem_of_callsOf in Hin as (Hin & Hname & [c Hc]).
    exists tr. split; [done|]. apply list_elem_of_In, List.filter_In.
    split; [by apply list_elem_of_In | by rewrite Hname, Hc].
Qed.

(** X9. The aggregates that the Copilot parser builds are one per tool name
    that the classifier knows, in the order in which the names are first
    requested in the assistant messages; each counts all the requests of its
    tool and keeps the samples of the first five; it has no error count. *)
Theorem copilot_tool_summaries events :
  (Copilot.extractCopilotToolSummaries classifyToolName stringify events).1 =
  map (fun n => summaryFor n (callsOf n (Copilot.requestsOf events)))
      (names (Copilot.requestsOf events)).
Proof. by rewrite extract_spec. Qed.

(** X10. The files the Copilot parser reports as modified are the non-empty
    paths of the requests of write and edit tools, each once, in the order
    in which they are first met. *)
Theorem copilot_files_modified events :
  let files := (Copilot.extractCopilotToolSummaries classifyToolName stringify events).2 in
  files = firstOccurrences (omap writtenPath (Copilot.requestsOf events))
  /\ NoDup files
  /\ (forall f, f ∈ files <->
        exists tr c, tr ∈ Copilot.requestsOf events
          /\ classifyToolName (Copilot.nameOf tr) = Some c
          /\ (c = write \/ c = edit)
          /\ f = Copilot.filePathOf (default [] (Copilot.reqArguments tr))
          /\ f <> EmptyString).
Proof.
  cbv zeta. rewrite extract_spec. cbn [snd].
  split; [done|]. split; [apply NoDup_firstOccurrences|].
  intros f. rewrite (elem_of_firstOccurrences classifyToolName), list_elem_of_omap. split.
  - intros (tr & Hin & Hw). exists tr. unfold Copilot.writtenPath in Hw.
    destruct (classifyToolName (Copilot.nameOf tr)) as [c|]; [|done]. exists c.
    cbv zeta in Hw.
    destruct (bool_decide (c = write) || bool_decide (c = edit)) eqn:Hc; [|done].
    destruct (nonEmptyStr _) eqn:Hfp; [|done]. injection Hw; intros <-.
    repeat split; [done| |].
    + apply orb_true_iff in Hc as [Hc|Hc]; apply bool_decide_eq_true in Hc; auto.
    + intros E. by rewrite E in Hfp.
  - intros (tr & c & Hin & Hc & Hcat & -> & Hne). exists tr. split; [done|].
    unfold Copilot.writtenPath. rewrite Hc. cbv zeta.
    replace (bool_decide (c = write) || bool_decide (c = edit)) with true.
    + destruct (Copilot.filePathOf _); done.
    + symmetry. apply orb_true_iff.
      destruct Hcat as [-> | ->]; [left | right]; by apply bool_decide_eq_true.
Qed.

(** X11. Every aggregate of the Copilot parser stands for at least one call,
    holds as many samples as it has calls, up to five, and has no error
    count; the classifier knows its name, every sample carries a structured
    payload of the category the classifier gives, and that is the category
    the renderer detects. *)
Theorem copilot_summary_invariants events tool :
  tool ∈ (Copilot.extractCopilotToolSummaries classifyToolName stringify events).1 ->
  1 <= count tool
  /\ Z.of_nat (length (samples tool)) = Z.min (count tool) 5
  /\ errorCount tool = None
  /\ exists c,
       classifyToolName (name tool) = Some c
       /\ detectCategory classifyToolName tool = c
       /\ Forall (fun s => category <$> data s = Some c) (samples tool).
Proof.
  rewrite extract_spec. cbn [fst]. rewrite list_elem_of_fmap.
  intros (n & -> & Hn). apply elem_of_names in Hn as (tr0 & Htr0).
  cbn [Copilot.summaryFor count samples errorCount name].
  assert (Hpos : (1 <= length (callsOf n (Copilot.requestsOf events)))%nat).
  { destruct (callsOf n _); [by apply not_elem_of_nil in Htr0 | cbn; lia]. }
  pose proof Htr0 as Hc. apply elem_of_callsOf in Hc as (_ & _ & [c Hc]).
  assert (Hall : Forall (fun s => category <$> data s = Some c)
                   (map sampleOf (take 5 (callsOf n (Copilot.requestsOf events))))).
  { apply Forall_forall. intros s Hs. apply list_elem_of_fmap in Hs as (tr & -> & Htr).
    apply elem_of_take in Htr as (i & Htr & _). apply list_elem_of_lookup_2 in Htr.
    apply elem_of_callsOf in Htr as (_ & Hname & _).
    unfold Copilot.sampleOf, Copilot.requestSample. cbv zeta. cbn [data fmap option_fmap option_map].
    by rewrite category_buildCopilotSampleData, Hname, Hc. }
  repeat split; [lia | rewrite length_map, length_take; lia |].
  exists c. repeat split; [done | | done].
  unfold detectCategory.
  destruct (callsOf n (Copilot.requestsOf events)) as [|tr l] eqn:E; [cbn in Hpos; lia|].
  cbn [take map head] in *. apply List.Forall_cons_iff in Hall as [Hhead _].
  cbn [Copilot.summaryFor samples take map head mbind option_bind].
  destruct (data (sampleOf tr)) as [d|]; [|done].
  cbn in Hhead. by injection Hhead.
Qed.

End CopilotParser.

Section Tally.

Context {A : Type} (key : A -> string).

Local Abbreviation occurrences n l :=
  (Z.of_nat (length (List.filter (fun x => String.eqb (key x) n) l))).
Local Abbreviation tally l ks :=
  (fold_right Z.add 0 (map (fun n => occurrences n l) ks)).

Lemma tally_cons_other x l ks :
  key x ∉ ks -> tally (x :: l) ks = tally l ks.
Proof.
  induction ks as [|n ks IH]; intros Hout; [done|].
  apply not_elem_of_cons in Hout as [Hne Hout].
  cbn [map fold_right]. rewrite IH by done.
  cbn [List.filter]. destruct (String.eqb_spec (key x) n); done.
Qed.

Lemma tally_remove l ks k :
  NoDup ks ->
  tally l (List.filter (fun y => negb (String.eqb y k)) ks) =
  tally l ks - (if decide (k ∈ ks) then occurrences k l else 0).
Proof.
  induction 1 as [|n ks Hn Hnd IH]; cbn [List.filter map fold_right].
  - rewrite decide_False by apply not_elem_of_nil. lia.
  - destruct (String.eqb_spec n k) as [->|Hne]; cbn [negb map fold_right]; rewrite IH.
    + destruct (decide (k ∈ ks)); [done|].
      destruct (decide (k ∈ k :: ks)) as [|Hx]; [lia | destruct Hx; by left].
    + destruct (decide (k ∈ ks)) as [Hin|Hout].
      * rewrite decide_True by (by right). lia.
      * rewrite decide_False; [lia|]. rewrite elem_of_cons. intros [E|E]; done.
Qed.

Lemma tally_firstOccurrences l :
  tally l (firstOccurrences (map key l)) = Z.of_nat (length l).
Proof.
  induction l as [|x l IH]; [done|].
  cbn [map firstOccurrences fold_right]. rewrite tally_cons_other.
  - rewrite tally_remove by apply NoDup_firstOccurrences. rewrite IH.
    cbn [List.filter]. rewrite String.eqb_refl. cbn [length].
    destruct (decide (key x ∈ firstOccurrences (map key l))) as [Hin|Hout]; [lia|].
    rewrite (filter_none (fun y => String.eqb (key y) (key x)) l); [cbn [length]; lia|].
    apply Forall_forall. intros y Hy.
    destruct (String.eqb_spec (key y) (key x)) as [E|]; [|done].
    destruct Hout. apply (elem_of_firstOccurrences (fun _ => None)).
    apply list_elem_of_fmap. exists y. by rewrite E.
  - rewrite list_elem_of_In, List.filter_In. intros [_ H].
    by rewrite String.eqb_refl in H.
Qed.

End Tally.

Section CopilotCounts.

Context (classifyToolName : string -> option Category) (stringify : Copilot.Args -> string).

(** X12. The aggregates of the Copilot parser have pairwise distinct names,
    and their counts add up to the number of tool requests of the assistant
    messages whose tool the classifier knows: each such request is counted
    exactly once, whether or not a sample of it is kept. *)
Theorem copilot_counts_every_request events :
  let summaries :=
    (Copilot.extractCopilotToolSummaries classifyToolName stringify events).1 in
  NoDup (map name summaries)
  /\ totalCount summaries =
     Z.of_nat (length (Copilot.classified classifyToolName (Copilot.requestsOf events))).
Proof.
  cbv zeta. rewrite extract_spec. cbn [fst]. rewrite map_map. cbn [name Copilot.summaryFor].
  split.
  - rewrite map_id. apply NoDup_firstOccurrences.
  - unfold totalCount. rewrite map_map. cbn [count Copilot.summaryFor].
    apply (tally_firstOccurrences Copilot.nameOf).
Qed.

End CopilotCounts.

Lemma nonEmptyStr_true s : nonEmptyStr s = true -> s <> EmptyString.
Proof. by intros H ->. Qed.

Lemma length_slice_last {A} (n : Z) (l : list A) :
  0 < n -> (length (Js.slice (- n) None l) <= Z.to_nat n)%nat.
Proof. intros Hn. rewrite slice_last by done. rewrite length_drop. lia. Qed.

Lemma slice_last_app {A} (n : Z) (older last : list A) :
  0 < n -> length last = Z.to_nat n -> Js.slice (- n) None (older ++ last) = last.
Proof.
  intros Hn Hlen. rewrite slice_last by done. rewrite length_app, Hlen.
  replace (length older + Z.to_nat n - Z.to_nat n)%nat with (length older + 0)%nat by lia.
  by rewrite drop_app_add.
Qed.

Lemma messageStep_content (recentMessages : list ConversationMessage) event :
  Forall (fun m => content m <> EmptyString) recentMessages ->
  Forall (fun m => content m <> EmptyString) (Copilot.messageStep recentMessages event).
Proof.
  intros Hall. unfold Copilot.messageStep. cbv zeta.
  destruct (String.eqb (Copilot.type event) "user.message").
  - destruct (nonEmptyStr _) eqn:E; [|done].
    apply Forall_app. split; [done|]. repeat constructor. by apply nonEmptyStr_true.
  - destruct (String.eqb (Copilot.type event) "assistant.message"); [|done].
    destruct (nonEmptyStr _) eqn:E.
    + apply Forall_app. split; [done|]. repeat constructor. by apply nonEmptyStr_true.
    + destruct (0 <? _); [|done].
      apply Forall_app. split; [done|]. repeat constructor. done.
Qed.

(** X13. The recent messages of a Copilot context are at most ten, none of
    them has an empty content, and they are read off the last twenty events
    only: events before these change nothing. *)
Theorem copilot_recent_messages session events :
  let recent := Copilot.recentMessagesOf session events in
  (length recent <= 10)%nat
  /\ Forall (fun m => content m <> EmptyString) recent
  /\ (forall older,
        length events = 20%nat ->
        Copilot.recentMessagesOf session (older ++ events) = recent).
Proof.
  cbv zeta. unfold Copilot.recentMessagesOf. cbv zeta. repeat split.
  - apply (length_slice_last 10). lia.
  - rewrite (slice_last 10) by lia. apply Forall_drop.
    assert (Hloop : forall evs acc,
              Forall (fun m => content m <> EmptyString) acc ->
              Forall (fun m => content m <> EmptyString)
                (fold_left Copilot.messageStep evs acc)).
    { induction evs as [|e evs IH]; intros acc Hacc; [done|].
      cbn [fold_left]. by apply IH, messageStep_content. }
    destruct (_ && _) eqn:E.
    + apply andb_true_iff in E as [_ E]. apply Forall_app. split; [by apply Hloop|].
      repeat constructor; cbn [content]; [|done].
      destruct (sessionSummary session) as [[|]|]; done.
    + by apply Hloop.
  - intros older Hlen. rewrite (slice_last_app 20) by (lia || done).
    assert (H0 : Js.slice (-20) None events = events)
      by (apply (slice_last_app 20 [] events); [lia | done]).
    by rewrite H0.
Qed.

(** ** Amp *)

Lemma ledgerLoop_without_title events st :
  fold_left Amp.ledgerStep (List.filter (fun e => negb (Amp.isTitleGeneration e)) events) st =
  fold_left Amp.ledgerStep events st.
Proof.
  revert st. induction events as [|e events IH]; intros st; [done|].
  cbn [List.filter fold_left]. unfold Amp.isTitleGeneration at 1.
  destruct (bool_decide (Amp.operationType e = Some "title-generation")) eqn:E;
    cbn [negb fold_left]; rewrite IH; [|done].
  f_equal. unfold Amp.ledgerStep. destruct st as [[m i] o]. by rewrite E.
Qed.

(** X14. The title-generation events of the usage ledger count for nothing
    in the session notes of an Amp thread: neither their tokens nor their
    model are read. *)
Theorem amp_title_generation_ignored thread :
  Amp.extractSessionNotes (Amp.withoutTitleGeneration thread) = Amp.extractSessionNotes thread.
Proof.
  unfold Amp.extractSessionNotes, Amp.withoutTitleGeneration, Amp.extractModel.
  cbn [Amp.tags Amp.events]. destruct (Amp.events thread) as [events|]; [|done].
  cbn [fmap option_fmap option_map]. by rewrite ledgerLoop_without_title.
Qed.

Lemma ledgerLoop_model events m i o :
  (Js.truthy m = false -> m = None) ->
  (fold_left Amp.ledgerStep events (m, i, o)).1.1 =
  if Js.truthy m then m else ledgerModel events.
Proof.
  revert m i o. induction events as [|e events IH]; intros m i o Hm.
  - cbn [fold_left fst ledgerModel]. destruct (Js.truthy m); [done | by apply Hm].
  - cbn [fold_left ledgerModel]. unfold Amp.ledgerStep at 2, Amp.isTitleGeneration.
    destruct (bool_decide (Amp.operationType e = Some "title-generation"));
      cbn [negb andb]; [by apply IH|].
    destruct (Js.truthy m) eqn:Em; cbn [negb andb].
    + rewrite IH by (intros; congruence). by rewrite Em.
    + destruct (Js.truthy (Amp.eventModel e)) eqn:Ee.
      * rewrite IH by (intros; congruence). by rewrite Ee.
      * rewrite IH by (intros; auto). by rewrite Em.
Qed.

Lemma notesModel_extractSessionNotes thread :
  notesModel (Amp.extractSessionNotes thread) = ampModel thread.
Proof.
  unfold Amp.extractSessionNotes, ampModel. cbv zeta.
  destruct (Amp.events thread) as [events|]; cbn [default].
  - pose proof (ledgerLoop_model events
                  (if Js.truthy (Amp.extractModel thread) then Amp.extractModel thread else None)
                  0 0) as H.
    destruct (fold_left _ _ _) as [[m i] o]. cbn [fst notesModel] in *. rewrite H.
    + by destruct (Js.truthy (Amp.extractModel thread)) eqn:E; [rewrite E|].
    + by destruct (Js.truthy (Amp.extractModel thread)) eqn:E; [rewrite E|].
  - cbn [notesModel ledgerModel]. by destruct (Js.truthy (Amp.extractModel thread)).
Qed.

Lemma truthy_ledgerModel events :
  ledgerModel events = None \/ Js.truthy (ledgerModel events) = true.
Proof.
  induction events as [|e events IH]; [by left|]. cbn [ledgerModel].
  destruct (negb _); cbn [andb]; [|done].
  destruct (Js.truthy (Amp.eventModel e)) eqn:E; [by right | done].
Qed.

Section AmpHandoff.

Context (SHELL_TOOLS READ_TOOLS WRITE_TOOLS EDIT_TOOLS GREP_TOOLS GLOB_TOOLS
  SEARCH_TOOLS FETCH_TOOLS TASK_TOOLS TASK_OUTPUT_TOOLS ASK_TOOLS : list string)
  (classifyToolName : string -> option Category) (toLocaleString : Z -> string)
  (adapters : list (string * string))
  (hostSort : list ToolUsageSummary -> list ToolUsageSummary).

(** X15. The handoff of an Amp session whose model was read off the thread
    (as the session listing does) has at most one Model row in its overview:
    it shows the model of the [model:] tag, without one the model of the
    first ledger event that is not a title generation and names one, and no
    row when there is neither. *)
Theorem amp_single_model_row thread session messages filesModified pendingTasks
    toolSummaries mode :
  model session = Amp.extractModel thread ->
  modelRowsOf
    (generateHandoffLines SHELL_TOOLS READ_TOOLS WRITE_TOOLS EDIT_TOOLS GREP_TOOLS
       GLOB_TOOLS SEARCH_TOOLS FETCH_TOOLS TASK_TOOLS TASK_OUTPUT_TOOLS ASK_TOOLS
       classifyToolName toLocaleString adapters hostSort session messages filesModified
       pendingTasks toolSummaries (Some (Amp.extractSessionNotes thread)) mode) =
  match ampModel thread with
  | Some m => [modelRow m]
  | None => []
  end.
Proof.
  intros Hmodel. rewrite modelRowsOf_handoffLines. unfold modelRows.
  cbn [notesField]. rewrite notesModel_extractSessionNotes, Hmodel. unfold ampModel.
  destruct (Js.truthy (Amp.extractModel thread)) eqn:E.
  - rewrite E. rewrite bool_decide_eq_true_2 by done. cbn [negb andb app].
    destruct (Amp.extractModel thread) as [[|a m]|]; done.
  - cbn [app]. destruct (truthy_ledgerModel (default [] (Amp.events thread))) as [H|H].
    + by rewrite H.
    + rewrite H. rewrite bool_decide_eq_false_2.
      * destruct (ledgerModel _) as [[|a m]|]; done.
      * intros Heq. rewrite Heq in H. congruence.
Qed.

End AmpHandoff.

Section AmpMessages.

Context (trim : string -> string).

Lemma amp_messageStep_content (recentMessages : list ConversationMessage) msg :
  Forall (fun m => content m <> EmptyString) recentMessages ->
  Forall (fun m => content m <> EmptyString) (Amp.messageStep trim recentMessages msg).
Proof.
  intros Hall. unfold Amp.messageStep. cbv zeta.
  destruct (nonEmptyStr _) eqn:E; cbn [negb]; [|done].
  destruct (String.eqb _ "user").
  - apply Forall_app. split; [done|]. repeat constructor. by apply nonEmptyStr_true.
  - destruct (String.eqb _ "assistant"); [|done].
    apply Forall_app. split; [done|]. repeat constructor. by apply nonEmptyStr_true.
Qed.

(** X16. The recent messages of an Amp context never have an empty content;
    for a positive window they are at most as many as the window and are
    read off the last messages of the thread, twice the window, only; for a
    window of zero they are all the messages of the thread that have text. *)
Theorem amp_recent_window thread :
  (forall n, Forall (fun m => content m <> EmptyString) (Amp.trimmedMessages trim thread n))
  /\ (forall n, 0 < n -> (length (Amp.trimmedMessages trim thread n) <= Z.to_nat n)%nat)
  /\ (forall n older,
        0 < n -> length (Amp.messages thread) = Z.to_nat (2 * n) ->
        Amp.trimmedMessages trim
          {| Amp.messages := older ++ Amp.messages thread;
             Amp.tags := Amp.tags thread; Amp.events := Amp.events thread |} n =
        Amp.trimmedMessages trim thread n)
  /\ Amp.trimmedMessages trim thread 0 =
     fold_left (Amp.messageStep trim) (Amp.messages thread) [].
Proof.
  assert (Hloop : forall msgs acc,
            Forall (fun m => content m <> EmptyString) acc ->
            Forall (fun m => content m <> EmptyString)
              (fold_left (Amp.messageStep trim) msgs acc)).
  { induction msgs as [|e msgs IH]; intros acc Hacc; [done|].
    cbn [fold_left]. by apply IH, amp_messageStep_content. }
  unfold Amp.trimmedMessages. cbv zeta. repeat split.
  - intros n. unfold Js.slice. cbv zeta. apply Forall_take, Forall_drop. by apply Hloop.
  - intros n Hn. by apply length_slice_last.
  - intros n older Hn Hlen. cbn [Amp.messages].
    replace (- n * 2) with (- (2 * n)) by lia.
    rewrite (slice_last_app (2 * n)) by (lia || done).
    assert (H0 : Js.slice (- (2 * n)) None (Amp.messages thread) = Amp.messages thread)
      by (apply (slice_last_app (2 * n) [] (Amp.messages thread)); [lia | done]).
    by rewrite H0.
  - unfold Js.slice, Js.clampIndex. cbn [Z.opp Z.mul Z.ltb Z.compare Z.min].
    cbv zeta. change (Z.to_nat (Z.min 0 _)) with (Z.to_nat (Z.min 0 (Z.of_nat (length (Amp.messages thread))))).
    rewrite !Z.min_l by lia. change (Z.to_nat 0) with O. rewrite !drop_0, !Z.sub_0_r, !Nat2Z.id.
    by rewrite !firstn_all.
Qed.

End AmpMessages.

(** ** Cline *)

Section ClineParser.

Context (trim : string -> string) (truncate : string -> Z -> string).

Local Abbreviation conversationStep := (Cline.conversationStep trim).
Local Abbreviation keptChunk := (Cline.keptChunk trim).

Lemma conversationStep_chunk st msg :
  keptChunk msg = true ->
  exists result,
    conversationStep st msg = (result, Some "text", true)
    /\ last result =
       Some {| role := assistant; content := trim (default EmptyString (Cline.text msg)) |}
    /\ forall chunk,
         <[(length result - 1)%nat := chunk]> result =
         if (0 <? Z.of_nat (length st.1.1)) && Cline.lastIsAssistant st.1.1
            && bool_decide (st.1.2 = Some "text") && st.2
         then <[(length st.1.1 - 1)%nat := chunk]> st.1.1
         else st.1.1 ++ [chunk].
Proof.
  destruct st as [[result lastSay] lastPartial]. unfold Cline.keptChunk.
  rewrite !andb_true_iff. intros [[[[Htype Hsay] Hpartial] Htext] Htrim].
  unfold Cline.conversationStep, Cline.classifyRole.
  rewrite Htype, Htext, Htrim. cbn [negb fst snd].
  assert (Hsays : Cline.says msg "user_feedback" = false).
  { unfold Cline.says in *. destruct (Cline.say msg) as [s|]; [|done].
    apply String.eqb_eq in Hsay as ->. done. }
  rewrite Hsays, Hsay, Hpartial. cbn [Cline.isAssistant andb].
  assert (Hs : Cline.say msg = Some "text").
  { unfold Cline.says in Hsay. destruct (Cline.say msg) as [s|]; [|done].
    by apply String.eqb_eq in Hsay as ->. }
  rewrite Hs.
  destruct ((0 <? Z.of_nat (length result)) && Cline.lastIsAssistant result
            && bool_decide (lastSay = Some "text") && lastPartial) eqn:Hc.
  - eexists. split; [reflexivity|].
    apply andb_true_iff in Hc as [Hc _]. apply andb_true_iff in Hc as [Hc _].
    apply andb_true_iff in Hc as [Hlen _]. apply Z.ltb_lt in Hlen.
    split.
    + rewrite last_lookup, length_insert.
      replace (Nat.pred (length result)) with (length result - 1)%nat by lia.
      apply list_lookup_insert_eq. lia.
    + intros chunk. rewrite length_insert. apply list_insert_insert_eq.
  - eexists. split; [reflexivity|]. split; [apply last_snoc|].
    intros chunk. rewrite length_app. cbn [length].
    replace (length result + 1 - 1)%nat with (length result + 0)%nat by lia.
    by rewrite insert_app_r.
Qed.

(** X17. In the conversation built from the raw messages of a Cline task, of
    two streaming chunks of assistant text that follow each other only the
    later one is kept: the earlier one leaves no trace. *)
Theorem cline_streaming_chunks_collapse pre chunk1 chunk2 post :
  keptChunk chunk1 = true ->
  keptChunk chunk2 = true ->
  Cline.buildConversation trim (pre ++ chunk1 :: chunk2 :: post) =
  Cline.buildConversation trim (pre ++ chunk2 :: post).
Proof.
  intros H1 H2. unfold Cline.buildConversation.
  rewrite !fold_left_app. cbn [fold_left].
  set (st := fold_left conversationStep pre ([], None, false)).
  destruct (conversationStep_chunk st chunk1 H1) as (r1 & E1 & Hlast1 & Hins1).
  rewrite E1.
  destruct (conversationStep_chunk (r1, Some "text", true) chunk2 H2)
    as (r12 & E12 & Hlast12 & Hins12).
  destruct (conversationStep_chunk st chunk2 H2) as (r2 & E2 & Hlast2 & Hins2).
  rewrite E12, E2. do 3 f_equal.
  assert (Hr1 : (0 < length r1)%nat).
  { destruct r1; [done | cbn; lia]. }
  assert (Hr12 : (0 < length r12)%nat).
  { destruct r12; [done | cbn; lia]. }
  assert (Hr2 : (0 < length r2)%nat).
  { destruct r2; [done | cbn; lia]. }
  set (c2 := {| role := assistant; content := trim (default EmptyString (Cline.text chunk2)) |}) in *.
  assert (Hself : forall r, last r = Some c2 -> <[(length r - 1)%nat := c2]> r = r).
  { intros r Hr. apply list_insert_id. rewrite last_lookup in Hr.
    by replace (length r - 1)%nat with (Nat.pred (length r)) by lia. }
  rewrite <- (Hself r12 Hlast12), <- (Hself r2 Hlast2).
  rewrite Hins12, Hins2, <- Hins1. cbn [fst snd].
  unfold Cline.lastIsAssistant. rewrite Hlast1. cbn [role Cline.isAssistant].
  destruct (Z.ltb_spec 0 (Z.of_nat (length r1))); [|lia].
  rewrite bool_decide_eq_true_2 by done. cbn [andb]. done.
Qed.

Lemma reasoningLoop_cons max msg rest highlights :
  Cline.reasoningLoop trim truncate max (msg :: rest) highlights =
  if max <=? Z.of_nat (length highlights) then highlights
  else match Cline.highlightOf trim truncate msg with
       | Some h => Cline.reasoningLoop trim truncate max rest (highlights ++ [h])
       | None => Cline.reasoningLoop trim truncate max rest highlights
       end.
Proof.
  cbn [Cline.reasoningLoop]. unfold Cline.highlightOf.
  destruct (max <=? _); [done|].
  destruct (String.eqb (Cline.type msg) "say"); [|done].
  destruct (Cline.says msg "reasoning"); [|done].
  destruct (Js.truthy (Cline.text msg)); [|done].
  by destruct (Js.strLength _ <? 10).
Qed.

Lemma reasoningLoop_spec max messages highlights :
  Cline.reasoningLoop trim truncate max messages highlights =
  if max <=? Z.of_nat (length highlights) then highlights
  else highlights ++
       take (Z.to_nat max - length highlights) (omap (Cline.highlightOf trim truncate) messages).
Proof.
  revert highlights. induction messages as [|msg rest IH]; intros highlights.
  - cbn [Cline.reasoningLoop omap list_omap]. rewrite take_nil, app_nil_r.
    by destruct (max <=? _).
  - rewrite reasoningLoop_cons.
    destruct (Z.leb_spec max (Z.of_nat (length highlights))) as [Hle|Hgt]; [done|].
    cbn [omap list_omap]. destruct (Cline.highlightOf trim truncate msg) as [h|].
    + rewrite IH, length_app. cbn [length].
      destruct (Z.leb_spec max (Z.of_nat (length highlights + 1))) as [Hle'|Hgt'].
      * replace (Z.to_nat max - length highlights)%nat with 1%nat by lia. done.
      * destruct (Z.to_nat max - length highlights)%nat as [|k] eqn:E; [lia|].
        cbn [take]. rewrite <- app_assoc. cbn [app]. do 3 f_equal. lia.
    + rewrite IH. destruct (Z.leb_spec max (Z.of_nat (length highlights))); [lia | done].
Qed.

(** X18. The reasoning highlights of a Cline task are the highlights of the
    first [max] reasoning events that carry at least ten characters of text,
    in their order; there are at most [max] of them, none for a [max] that
    is not positive. *)
Theorem cline_reasoning_highlights messages max :
  Cline.extractReasoning trim truncate messages max =
  take (Z.to_nat max) (omap (Cline.highlightOf trim truncate) messages)
  /\ Z.of_nat (length (Cline.extractReasoning trim truncate messages max)) <= Z.max 0 max.
Proof.
  assert (H : Cline.extractReasoning trim truncate messages max =
              take (Z.to_nat max) (omap (Cline.highlightOf trim truncate) messages)).
  { unfold Cline.extractReasoning. rewrite reasoningLoop_spec. cbn [length app].
    change (Z.of_nat 0) with 0. destruct (Z.leb_spec max 0) as [Hle|Hgt].
    - by replace (Z.to_nat max) with O by lia.
    - by rewrite Nat.sub_0_r. }
  split; [exact H|]. rewrite H, length_take. lia.
Qed.

End ClineParser.

(** ** Crush *)

Lemma append_cons c s t : String c s +:+ t = String c (s +:+ t).
Proof. reflexivity. Qed.

Lemma readLiteral_sqlEscape value rest :
  Js.startsWith rest "'" = false ->
  Crush.readLiteral (Crush.sqlEscape value +:+ String Crush.quote rest) = Some (value, rest).
Proof.
  intros Hrest. induction value as [|c value IH].
  - change (Crush.sqlEscape EmptyString +:+ String Crush.quote rest)
      with (String Crush.quote rest).
    cbn [Crush.readLiteral]. rewrite Ascii.eqb_refl.
    destruct rest as [|c' rest']; [done|].
    destruct (Ascii.eqb_spec c' Crush.quote) as [->|_]; [|done].
    by vm_compute in Hrest.
  - cbn [Crush.sqlEscape]. destruct (Ascii.eqb_spec c Crush.quote) as [->|Hne].
    + rewrite !append_cons. cbn [Crush.readLiteral]. rewrite !Ascii.eqb_refl.
      by rewrite IH.
    + rewrite append_cons. cbn [Crush.readLiteral].
      destruct (Ascii.eqb_spec c Crush.quote) as [|_]; [done|]. by rewrite IH.
Qed.

(** X19. In each of the three queries of the Crush parser the session id
    stands in a string literal that SQL reads back as the id itself,
    whatever characters the id has, and the text of the query after the
    literal is the fixed one. *)
Theorem crush_queries_quote_the_id sessionId :
  (exists lit,
     Crush.firstUserMessageQuery sessionId =
       "SELECT role, parts, created_at, model, provider FROM messages WHERE session_id = '"
       +:+ lit
     /\ Crush.readLiteral lit =
        Some (sessionId, " AND role = 'user' ORDER BY created_at ASC LIMIT 1"))
  /\ (exists lit,
        Crush.messagesQuery sessionId =
          "SELECT role, parts, created_at, model, provider FROM messages WHERE session_id = '"
          +:+ lit
        /\ Crush.readLiteral lit = Some (sessionId, " ORDER BY created_at ASC"))
  /\ (exists lit,
        Crush.tokensQuery sessionId =
          "SELECT prompt_tokens, completion_tokens FROM sessions WHERE id = '" +:+ lit
        /\ Crush.readLiteral lit = Some (sessionId, EmptyString)).
Proof.
  repeat split; eexists; (split; [reflexivity|]);
    by apply (readLiteral_sqlEscape sessionId).
Qed.

Section CrushHandoff.

Context (SHELL_TOOLS READ_TOOLS WRITE_TOOLS EDIT_TOOLS GREP_TOOLS GLOB_TOOLS
  SEARCH_TOOLS FETCH_TOOLS TASK_TOOLS TASK_OUTPUT_TOOLS ASK_TOOLS : list string)
  (classifyToolName : string -> option Category) (toLocaleString : Z -> string)
  (adapters : list (string * string))
  (hostSort : list ToolUsageSummary -> list ToolUsageSummary)
  (parseParts : string -> option (list Crush.CrushPart)).

Lemma rowLoop_model msgRows acc m :
  (Js.truthy m = false -> m = None) ->
  (fold_left (Crush.rowStep parseParts) msgRows (acc, m)).2 =
  if Js.truthy m then m else Crush.firstAssistantModel parseParts msgRows.
Proof.
  revert acc m. induction msgRows as [|row rest IH]; intros acc m Hm.
  - cbn [fold_left snd Crush.firstAssistantModel]. destruct (Js.truthy m); [done | by apply Hm].
  - cbn [fold_left Crush.firstAssistantModel]. unfold Crush.rowStep at 2. cbv zeta.
    destruct (nonEmptyStr _); cbn [negb andb]; [|by apply IH].
    destruct (String.eqb (Crush.rowRole row) "user"); cbn [negb andb].
    + rewrite andb_false_r. by apply IH.
    + rewrite andb_true_r. destruct (Js.truthy m) eqn:Em; cbn [negb andb].
      * rewrite IH by (intros; congruence). by rewrite Em.
      * destruct (Js.truthy (Crush.rowModel row)) eqn:Er.
        -- rewrite IH by (intros; congruence). by rewrite Er.
        -- rewrite IH by (intros; auto). by rewrite Em.
Qed.

Lemma truthy_firstAssistantModel msgRows :
  Crush.firstAssistantModel parseParts msgRows = None
  \/ Js.truthy (Crush.firstAssistantModel parseParts msgRows) = true.
Proof.
  induction msgRows as [|row rest IH]; [by left|]. cbn [Crush.firstAssistantModel].
  destruct (nonEmptyStr _ && _); cbn [andb]; [|done].
  destruct (Js.truthy (Crush.rowModel row)) eqn:E; [by right | done].
Qed.

(** X20. The overview of the handoff of a Crush session has one Model row
    with the model of the first assistant message that has text and names a
    model, whatever model the session was listed with; when no message
    names one it has the row of the session's own model, if it has one. *)
Theorem crush_model_row session msgRows sessionRows recentMessages :
  modelRowsOf
    (Crush.extractCrushLines SHELL_TOOLS READ_TOOLS WRITE_TOOLS EDIT_TOOLS GREP_TOOLS
       GLOB_TOOLS SEARCH_TOOLS FETCH_TOOLS TASK_TOOLS TASK_OUTPUT_TOOLS ASK_TOOLS
       classifyToolName toLocaleString adapters hostSort parseParts
       session msgRows sessionRows recentMessages) =
  match Crush.firstAssistantModel parseParts msgRows with
  | Some m => [modelRow m]
  | None => if Js.truthy (model session) then [modelRow (default EmptyString (model session))] else []
  end.
Proof.
  unfold Crush.extractCrushLines.
  pose proof (rowLoop_model msgRows [] None (fun _ => eq_refl)) as Hm.
  destruct (fold_left _ _ _) as [allMessages m]. cbn [snd Js.truthy] in Hm. subst m.
  cbv zeta. rewrite modelRowsOf_handoffLines. unfold modelRows, Crush.crushNotes. cbv zeta.
  destruct (truthy_firstAssistantModel msgRows) as [H|H]; rewrite H.
  - cbn [Js.truthy orb]. destruct (_ || _); cbn [notesField notesModel andb]; by rewrite app_nil_r.
  - cbn [orb notesField notesModel Crush.withModel model].
    rewrite H, bool_decide_eq_true_2 by done. cbn [negb andb app].
    destruct (Crush.firstAssistantModel parseParts msgRows) as [[|a s]|]; done.
Qed.

End CrushHandoff.

(** ** Antigravity *)

Lemma list_ascii_of_string_app p s :
  list_ascii_of_string (p +:+ s) = list_ascii_of_string p ++ list_ascii_of_string s.
Proof. induction p as [|c p IH]; [done|]. rewrite append_cons. cbn. by rewrite IH. Qed.

Lemma length_list_ascii_of_string s : length (list_ascii_of_string s) = String.length s.
Proof. induction s as [|c s IH]; [done|]. cbn. by rewrite IH. Qed.

Lemma slice_from {A} (k : Z) (l : list A) :
  0 <= k -> Js.slice k None l = drop (Z.to_nat k) l.
Proof.
  intros Hk. unfold Js.slice, Js.clampIndex. cbv zeta.
  destruct (Z.ltb_spec k 0); [lia|].
  destruct (Z.min_spec k (Z.of_nat (length l))) as [[Hlt ->]|[Hge ->]].
  - apply take_ge. rewrite length_drop. lia.
  - rewrite Z.sub_diag, Nat2Z.id. change (Z.to_nat 0) with O.
    rewrite take_0, !drop_ge by lia. done.
Qed.

Lemma strSlice_after_prefix p s k :
  0 <= k -> Js.strSlice (Z.of_nat (String.length p) + k) None (p +:+ s) = Js.strSlice k None s.
Proof.
  intros Hk. unfold Js.strSlice. rewrite !slice_from by lia. f_equal.
  rewrite list_ascii_of_string_app, Z2Nat.inj_add, Nat2Z.id by lia.
  rewrite <- (length_list_ascii_of_string p). apply drop_app_add.
Qed.

Lemma strSlice_all s : Js.strSlice 0 None s = s.
Proof.
  unfold Js.strSlice. rewrite slice_from by lia. change (Z.to_nat 0) with O.
  rewrite drop_0. apply string_of_list_ascii_of_string.
Qed.

Lemma indexOfFrom_range c s i :
  0 <= i -> Antigravity.indexOfFrom c s i = -1 \/ i <= Antigravity.indexOfFrom c s i.
Proof.
  revert i. induction s as [|a s IH]; intros i Hi; [by left|].
  cbn [Antigravity.indexOfFrom]. destruct (Ascii.eqb a c); [right; lia|].
  destruct (IH (i + 1)) as [H|H]; [lia | by left | right; lia].
Qed.

Lemma indexOfFrom_none c s i j :
  0 <= i -> 0 <= j ->
  Antigravity.indexOfFrom c s i = -1 -> Antigravity.indexOfFrom c s j = -1.
Proof.
  revert i j. induction s as [|a s IH]; intros i j Hi Hj; [done|].
  cbn [Antigravity.indexOfFrom]. destruct (Ascii.eqb a c); [lia|].
  apply IH; lia.
Qed.

Lemma indexOfFrom_app_none c p s i :
  0 <= i -> Antigravity.indexOfFrom c p 0 = -1 ->
  Antigravity.indexOfFrom c (p +:+ s) i =
  Antigravity.indexOfFrom c s (i + Z.of_nat (String.length p)).
Proof.
  revert i. induction p as [|a p IH]; intros i Hi Hp.
  - change (EmptyString +:+ s) with s. cbn [String.length]. f_equal. lia.
  - rewrite append_cons. cbn [Antigravity.indexOfFrom String.length] in *.
    destruct (Ascii.eqb a c); [lia|].
    rewrite IH; [f_equal; lia | lia | by apply (indexOfFrom_none c p (0 + 1) 0)].
Qed.

Lemma indexOfFrom_split c s i :
  0 <= i -> Antigravity.indexOfFrom c s i <> -1 ->
  exists p rest,
    s = p +:+ String c rest
    /\ Antigravity.indexOfFrom c p 0 = -1
    /\ Antigravity.indexOfFrom c s i = i + Z.of_nat (String.length p).
Proof.
  revert i. induction s as [|a s IH]; intros i Hi Hs; [done|].
  cbn [Antigravity.indexOfFrom] in *. destruct (Ascii.eqb_spec a c) as [->|Hne].
  - exists EmptyString, s. repeat split. cbn [String.length]. lia.
  - destruct (IH (i + 1)) as (p & rest & -> & Hp & Hidx); [lia | done |].
    exists (String a p), rest. rewrite append_cons. repeat split.
    + cbn [Antigravity.indexOfFrom]. destruct (Ascii.eqb_spec a c) as [|_]; [done|].
      by apply (indexOfFrom_none c p 0 (0 + 1)).
    + rewrite Hidx. cbn [String.length]. lia.
Qed.

Lemma nonEmptyStr_append_cons p c s : nonEmptyStr (p +:+ String c s) = true.
Proof. by destruct p. Qed.

Lemma stripBinaryPrefix_brace prefix rest :
  Antigravity.indexOf Antigravity.brace prefix = -1 ->
  Antigravity.stripBinaryPrefix (prefix +:+ String Antigravity.brace rest) =
  Some (String Antigravity.brace rest).
Proof.
  intros Hp. unfold Antigravity.stripBinaryPrefix, Antigravity.indexOf in *. cbv zeta.
  rewrite indexOfFrom_app_none by (lia || done).
  cbn [Antigravity.indexOfFrom]. rewrite Ascii.eqb_refl.
  destruct (Z.eqb_spec (0 + Z.of_nat (String.length prefix)) (-1)) as [|_]; [lia|].
  f_equal. replace (0 + Z.of_nat (String.length prefix)) with (Z.of_nat (String.length prefix) + 0) by lia.
  rewrite strSlice_after_prefix by lia. apply strSlice_all.
Qed.

(** X21. Whatever precedes the first opening brace of a line is dropped by
    [stripBinaryPrefix], which returns the line from that brace on; a line
    without a brace gives nothing, and only such a line does. *)
Theorem antigravity_strip_prefix line :
  (forall prefix rest,
     Antigravity.indexOf Antigravity.brace prefix = -1 ->
     line = prefix +:+ String Antigravity.brace rest ->
     Antigravity.stripBinaryPrefix line = Some (String Antigravity.brace rest))
  /\ (Antigravity.stripBinaryPrefix line = None <->
      Antigravity.indexOf Antigravity.brace line = -1).
Proof.
  split.
  - intros prefix rest Hp ->. by apply stripBinaryPrefix_brace.
  - unfold Antigravity.stripBinaryPrefix. cbv zeta.
    destruct (Z.eqb_spec (Antigravity.indexOf Antigravity.brace line) (-1)); split; done.
Qed.

Section AntigravityParser.

Context (parseJson : string -> option Antigravity.Json).

(** X22. The bytes before the first opening brace of a line count for
    nothing in its parsing: a line parses as it does with any text without a
    brace put in front of it. *)
Theorem antigravity_prefix_ignored prefix line :
  Antigravity.indexOf Antigravity.brace prefix = -1 ->
  Antigravity.parseLine parseJson (prefix +:+ line) = Antigravity.parseLine parseJson line.
Proof.
  intros Hp. unfold Antigravity.parseLine.
  destruct (Z.eq_dec (Antigravity.indexOf Antigravity.brace line) (-1)) as [Hnone|Hsome].
  - assert (H1 : Antigravity.stripBinaryPrefix line = None).
    { unfold Antigravity.stripBinaryPrefix. cbv zeta. by rewrite Hnone. }
    assert (H2 : Antigravity.stripBinaryPrefix (prefix +:+ line) = None).
    { unfold Antigravity.stripBinaryPrefix, Antigravity.indexOf in *. cbv zeta.
      rewrite indexOfFrom_app_none by (lia || done).
      rewrite (indexOfFrom_none _ line 0 (0 + Z.of_nat (String.length prefix))) by (lia || done).
      done. }
    rewrite H1, H2. by do 2 destruct (negb _).
  - destruct (indexOfFrom_split Antigravity.brace line 0) as (p & rest & -> & Hq & _);
      [lia | done |].
    assert (Hpq : Antigravity.indexOf Antigravity.brace (prefix +:+ p) = -1).
    { unfold Antigravity.indexOf in *. rewrite indexOfFrom_app_none by (lia || done).
      apply (indexOfFrom_none _ p 0); [lia | lia | done]. }
    rewrite (stripBinaryPrefix_brace p rest Hq).
    rewrite <- append_assoc, (stripBinaryPrefix_brace (prefix +:+ p) rest Hpq).
    by rewrite !nonEmptyStr_append_cons.
Qed.

End AntigravityParser.

(** ** The overview rows and the conversation window *)

Lemma replaceChar_first a b p rest :
  absentFrom a p ->
  Js.replaceChar a b (p +:+ String a rest) = p +:+ String b rest.
Proof.
  unfold absentFrom, Antigravity.indexOf. induction p as [|c p IH]; intros Hp.
  - change (EmptyString +:+ String a rest) with (String a rest).
    cbn [Js.replaceChar]. by rewrite Ascii.eqb_refl.
  - rewrite !append_cons. cbn [Js.replaceChar Antigravity.indexOfFrom] in *.
    destruct (Ascii.eqb c a); [lia|]. f_equal. apply IH.
    by apply (indexOfFrom_none a p (0 + 1) 0).
Qed.

Lemma string_of_list_ascii_app l1 l2 :
  string_of_list_ascii (l1 ++ l2) = string_of_list_ascii l1 +:+ string_of_list_ascii l2.
Proof. induction l1 as [|c l1 IH]; [done|]. cbn. by rewrite IH. Qed.

Lemma strSlice_date_time date time :
  String.length date = 10%nat ->
  Js.strSlice 0 (Some 16) (date +:+ String "T" time) =
  date +:+ String "T" (Js.strSlice 0 (Some 5) time).
Proof.
  intros Hlen. unfold Js.strSlice. rewrite !slice_from_start by lia.
  rewrite list_ascii_of_string_app. cbn [list_ascii_of_string].
  rewrite take_app_ge by (rewrite length_list_ascii_of_string; lia).
  rewrite length_list_ascii_of_string, Hlen.
  change (Z.to_nat 16 - 10)%nat with 6%nat. cbn [take].
  rewrite string_of_list_ascii_app, string_of_list_ascii_of_string. done.
Qed.

Section Overview.

Context (SHELL_TOOLS READ_TOOLS WRITE_TOOLS EDIT_TOOLS GREP_TOOLS GLOB_TOOLS
  SEARCH_TOOLS FETCH_TOOLS TASK_TOOLS TASK_OUTPUT_TOOLS ASK_TOOLS : list string)
  (classifyToolName : string -> option Category) (toLocaleString : Z -> string)
  (adapters : list (string * string))
  (hostSort : list ToolUsageSummary -> list ToolUsageSummary).

Local Abbreviation linesOfHandoff :=
  (generateHandoffLines SHELL_TOOLS READ_TOOLS WRITE_TOOLS EDIT_TOOLS GREP_TOOLS GLOB_TOOLS
     SEARCH_TOOLS FETCH_TOOLS TASK_TOOLS TASK_OUTPUT_TOOLS ASK_TOOLS classifyToolName
     toLocaleString adapters hostSort).

(** X23. The overview has exactly one Last Active row; for a time stamp
    made of a date of ten characters, a [T] and a time, it shows the date, a
    space and the first five characters of the time. *)
Theorem last_active_row session messages filesModified pendingTasks toolSummaries
    sessionNotes mode :
  let rows :=
    List.filter isLastActiveRow
      (overviewTableOf
         (linesOfHandoff session messages filesModified pendingTasks toolSummaries
            sessionNotes mode)) in
  length rows = 1%nat
  /\ (forall date time,
        updatedAtISO session = date +:+ String "T" time ->
        String.length date = 10%nat ->
        absentFrom "T" date ->
        rows = ["| **Last Active** | " +:+ date +:+ " " +:+ Js.strSlice 0 (Some 5) time +:+ " |"]).
Proof.
  cbv zeta. rewrite overviewTableOf_handoffLines, !List.filter_app.
  assert (Hbefore : List.filter isLastActiveRow (rowsBeforeModel adapters session) = []).
  { unfold rowsBeforeModel. by destruct (Js.truthy (repo session)). }
  assert (Hmodel : List.filter isLastActiveRow (modelRows session sessionNotes) = []).
  { unfold modelRows. by destruct (Js.truthy (model session)), (_ && _). }
  assert (Hafter :
    List.filter isLastActiveRow
      (rowsAfterModel toLocaleString session messages filesModified sessionNotes) =
    [ "| **Last Active** | " +:+
      Js.replaceChar "T" " " (Js.strSlice 0 (Some 16) (updatedAtISO session)) +:+ " |" ]).
  { unfold rowsAfterModel.
    by destruct (notesField tokenUsage sessionNotes), (notesField cacheTokens sessionNotes),
      (Js.truthyNum (notesField thinkingTokens sessionNotes)),
      (Js.truthyNum (notesField activeTimeMs sessionNotes)). }
  rewrite Hbefore, Hmodel, Hafter. cbn [app]. split; [done|].
  intros date time Hiso Hlen Habsent.
  rewrite Hiso, strSlice_date_time, replaceChar_first by done.
  by rewrite append_assoc.
Qed.

Lemma rowsAfterModel_messages session filesModified sessionNotes :
  exists front,
    forall msgs,
      rowsAfterModel toLocaleString session msgs filesModified sessionNotes =
      front ++ [messagesRow (length msgs)].
Proof.
  unfold rowsAfterModel, messagesRow. eexists. intros msgs.
  match goal with
  | |- context [ [?a; ?b] ] => change [a; b] with ([a] ++ [b])
  end.
  rewrite !app_assoc. reflexivity.
Qed.

Lemma handoffLines_messages session filesModified pendingTasks toolSummaries
    sessionNotes mode :
  exists pre post,
    forall msgs,
      linesOfHandoff session msgs filesModified pendingTasks toolSummaries sessionNotes mode =
      pre ++ [messagesRow (length msgs)] ++ post ++ recentBlock msgs ++
      filesBlock filesModified ++ tasksBlock pendingTasks ++ closingBlock.
Proof.
  destruct (rowsAfterModel_messages session filesModified sessionNotes) as (front & Hfront).
  exists (titleBlock ++ rowsBeforeModel adapters session ++ modelRows session sessionNotes ++ front),
    ([EmptyString; EmptyString] ++ summaryBlock session ++ compactedBlock sessionNotes ++
     activityBlock SHELL_TOOLS READ_TOOLS WRITE_TOOLS EDIT_TOOLS GREP_TOOLS GLOB_TOOLS
       SEARCH_TOOLS FETCH_TOOLS TASK_TOOLS TASK_OUTPUT_TOOLS ASK_TOOLS classifyToolName hostSort
       toolSummaries mode ++ decisionsBlock sessionNotes).
  intros msgs. rewrite handoffLines_blocks, Hfront. by rewrite <- !app_assoc.
Qed.

(** X24. The Recent Conversation section shows the last ten messages only,
    while the Messages row counts all of them: a handoff for ten messages
    and a handoff for the same ten with older ones before them differ in the
    Messages row only. *)
Theorem recent_conversation_window session older recent filesModified pendingTasks
    toolSummaries sessionNotes mode :
  length recent = 10%nat ->
  exists pre post,
    linesOfHandoff session (older ++ recent) filesModified pendingTasks toolSummaries
      sessionNotes mode =
    pre ++ [messagesRow (length older + 10)] ++ post
    /\ linesOfHandoff session recent filesModified pendingTasks toolSummaries
         sessionNotes mode =
       pre ++ [messagesRow 10] ++ post.
Proof.
  intros Hlen.
  destruct (handoffLines_messages session filesModified pendingTasks toolSummaries
              sessionNotes mode) as (pre & post & Hlines).
  exists pre, (post ++ recentBlock recent ++ filesBlock filesModified ++
               tasksBlock pendingTasks ++ closingBlock).
  rewrite !Hlines, length_app, Hlen. split; [|reflexivity].
  do 3 f_equal. unfold recentBlock. rewrite length_app, Hlen.
  replace (length older + 10 - 10)%nat with (length older + 0)%nat by lia.
  rewrite drop_app_add, drop_0.
  replace (10 - 10)%nat with O by done. rewrite drop_0.
  destruct recent as [|m recent']; [done|]. by destruct older.
Qed.

End Overview.

Section ClineTokens.

Context (parseMeta : string -> option Cline.ApiReqMeta).

Local Abbreviation metasOf messages := (omap (Cline.metaOf parseMeta) messages).

Lemma truthyNum_default o : (if Js.truthyNum o then default 0 o else 0) = default 0 o.
Proof.
  destruct o as [n|]; [|done]. cbn [Js.truthyNum default from_option id].
  by destruct (Z.eqb_spec n 0) as [->|].
Qed.

Lemma tokenStep_meta st msg :
  Cline.tokenStep parseMeta st msg =
  match Cline.metaOf parseMeta msg with
  | None => st
  | Some m =>
      (st.1.1.1.1.1 + default 0 (Cline.tokensIn m),
       st.1.1.1.1.2 + default 0 (Cline.tokensOut m),
       st.1.1.1.2 + default 0 (Cline.cacheWrites m),
       st.1.1.2 + default 0 (Cline.cacheReads m),
       st.1.2 + default 0 (Cline.cost m),
       st.2 || Cline.statesTokens m)
  end.
Proof.
  destruct st as [[[[[i o] w] r] c] f]. unfold Cline.tokenStep, Cline.metaOf.
  destruct (String.eqb (Cline.type msg) "say"); cbn [negb orb andb]; [|done].
  destruct (Cline.says msg "api_req_started"); cbn [negb orb andb]; [|done].
  destruct (Js.truthy (Cline.text msg)); cbn [negb]; [|done].
  destruct (parseMeta _) as [m|]; [|done]. cbv zeta. cbn [fst snd].
  unfold Cline.statesTokens.
  rewrite <- (truthyNum_default (Cline.tokensIn m)), <- (truthyNum_default (Cline.tokensOut m)),
    <- (truthyNum_default (Cline.cacheWrites m)), <- (truthyNum_default (Cline.cacheReads m)),
    <- (truthyNum_default (Cline.cost m)).
  destruct (Js.truthyNum (Cline.tokensIn m)), (Js.truthyNum (Cline.tokensOut m)),
    (Js.truthyNum (Cline.cacheWrites m)), (Js.truthyNum (Cline.cacheReads m)),
    (Js.truthyNum (Cline.cost m)), f; cbn [orb]; rewrite ?Z.add_0_r; reflexivity.
Qed.

Lemma tokenLoop_spec messages i o w r c f :
  fold_left (Cline.tokenStep parseMeta) messages (i, o, w, r, c, f) =
  (i + Cline.sumOf Cline.tokensIn (metasOf messages),
   o + Cline.sumOf Cline.tokensOut (metasOf messages),
   w + Cline.sumOf Cline.cacheWrites (metasOf messages),
   r + Cline.sumOf Cline.cacheReads (metasOf messages),
   c + Cline.sumOf Cline.cost (metasOf messages),
   f || existsb Cline.statesTokens (metasOf messages)).
Proof.
  revert i o w r c f. induction messages as [|msg rest IH]; intros i o w r c f.
  - cbn [fold_left omap list_omap existsb Cline.sumOf map fold_right].
    by rewrite !Z.add_0_r, orb_false_r.
  - cbn [fold_left omap list_omap]. rewrite tokenStep_meta.
    destruct (Cline.metaOf parseMeta msg) as [m|]; [|apply IH].
    cbn [fst snd]. rewrite IH. unfold Cline.sumOf. cbn [map fold_right existsb].
    rewrite !Z.add_assoc, orb_assoc. reflexivity.
Qed.

(** X26. The token notes of a Cline task are sums over the
    [api_req_started] events whose text parses: the tokens used are there as
    soon as one event states a number of tokens that is not zero, were it
    only of the cache, and then are the sums of the input and of the output
    tokens; the cache tokens are there when one of their two sums is
    positive. Every other message, and every event whose text does not
    parse, counts for nothing. *)
Theorem cline_token_usage messages :
  let metas := metasOf messages in
  tokenUsage (Cline.extractTokenUsage parseMeta messages) =
    (if existsb Cline.statesTokens metas
     then Some {| input := Cline.sumOf Cline.tokensIn metas;
                  output := Cline.sumOf Cline.tokensOut metas |}
     else None)
  /\ cacheTokens (Cline.extractTokenUsage parseMeta messages) =
     (if (0 <? Cline.sumOf Cline.cacheWrites metas) || (0 <? Cline.sumOf Cline.cacheReads metas)
      then Some {| cacheRead := Cline.sumOf Cline.cacheReads metas;
                   cacheCreation := Cline.sumOf Cline.cacheWrites metas |}
      else None)
  /\ notesModel (Cline.extractTokenUsage parseMeta messages) = None
  /\ reasoning (Cline.extractTokenUsage parseMeta messages) = None.
Proof.
  cbv zeta. unfold Cline.extractTokenUsage. rewrite tokenLoop_spec.
  cbn [tokenUsage cacheTokens notesModel reasoning orb]. rewrite !Z.add_0_l. done.
Qed.

End ClineTokens.

(** * The further properties on sample inputs *)

Lemma grouping_keeps_total_errors_witness :
  Forall (fun t => 0 <= Js.orNum (errorCount t) 0) Trace.withErrors
  /\ totalErrors (groupMcpByNamespace Sample.noClassifier Trace.withErrors) =
     totalErrors Trace.withErrors.
Proof.
  assert (H : Forall (fun t => 0 <= Js.orNum (errorCount t) 0) Trace.withErrors)
    by (repeat constructor; vm_compute; discriminate).
  split; [exact H|].
  exact (grouping_keeps_total_errors Sample.noClassifier Trace.withErrors H).
Defined.

Lemma grouping_identity_without_candidates_witness :
  Forall (fun t => detectCategory Sample.noClassifier t <> mcp
                   \/ Js.startsWith (name t) "mcp__" = false) [Sample.bash; Trace.readTool]
  /\ groupMcpByNamespace Sample.noClassifier [Sample.bash; Trace.readTool] =
     [Sample.bash; Trace.readTool].
Proof.
  assert (H : Forall (fun t => detectCategory Sample.noClassifier t <> mcp
                               \/ Js.startsWith (name t) "mcp__" = false)
                [Sample.bash; Trace.readTool]).
  { apply List.Forall_cons; [left; intros E; vm_compute in E; discriminate E|].
    apply List.Forall_cons; [right; reflexivity|]. apply List.Forall_nil. }
  split; [exact H|].
  exact (proj1 (grouping_identity_without_candidates Sample.noClassifier _) H).
Defined.

Lemma grouping_entries_from_input_witness :
  Sample.githubMerged ∈ groupMcpByNamespace Sample.noClassifier Sample.githubThenJira
  /\ (Sample.githubMerged ∈ Sample.githubThenJira
      \/ exists ns tools,
           Sample.githubMerged = mergedEntry ns tools
           /\ (2 <= length tools)%nat
           /\ (forall m, m ∈ tools ->
                 m ∈ Sample.githubThenJira /\ namespaceOf Sample.noClassifier m = Some ns)
           /\ (length (samples Sample.githubMerged) <= 5)%nat
           /\ (forall s, s ∈ samples Sample.githubMerged ->
                 exists m, m ∈ tools /\ s ∈ samples m)).
Proof.
  assert (H : Sample.githubMerged ∈
              groupMcpByNamespace Sample.noClassifier Sample.githubThenJira).
  { apply list_elem_of_In. vm_compute. left. reflexivity. }
  split; [exact H|].
  exact (grouping_entries_from_input Sample.noClassifier _ _ H).
Defined.

Lemma grouping_keeps_sample_bound_witness :
  Forall (fun t => Z.of_nat (length (samples t)) <= count t) Sample.githubThenJira
  /\ Forall (fun t => Z.of_nat (length (samples t)) <= count t)
       (groupMcpByNamespace Sample.noClassifier Sample.githubThenJira).
Proof.
  assert (H : Forall (fun t => Z.of_nat (length (samples t)) <= count t)
                Sample.githubThenJira)
    by (repeat constructor; vm_compute; discriminate).
  split; [exact H|].
  exact (grouping_keeps_sample_bound Sample.noClassifier _ H).
Defined.

Lemma category_sort_of_ranked_witness :
  allRanked Sample.priority [Trace.readTool; Sample.bash]
  /\ sortByCategoryOrder Sample.shellTools Sample.readTools Sample.writeTools
       Sample.editTools Sample.grepTools Sample.globTools Sample.searchTools
       Sample.fetchTools Sample.taskTools Sample.taskOutputTools Sample.askTools
       Sample.hostSort [Trace.readTool; Sample.bash] =
     [Sample.bash; Trace.readTool]
  /\ StronglySorted (rankLe Sample.priority)
       (sortByCategoryOrder Sample.shellTools Sample.readTools Sample.writeTools
          Sample.editTools Sample.grepTools Sample.globTools Sample.searchTools
          Sample.fetchTools Sample.taskTools Sample.taskOutputTools Sample.askTools
          Sample.hostSort [Trace.readTool; Sample.bash]).
Proof.
  assert (H : allRanked Sample.priority [Trace.readTool; Sample.bash]).
  { unfold allRanked.
    apply List.Forall_cons; [vm_compute; reflexivity|].
    apply List.Forall_cons; [vm_compute; reflexivity | apply List.Forall_nil]. }
  split; [exact H|]. split; [vm_compute; reflexivity|].
  pose proof (category_sort_of_ranked Sample.shellTools Sample.readTools Sample.writeTools
                Sample.editTools Sample.grepTools Sample.globTools Sample.searchTools
                Sample.fetchTools Sample.taskTools Sample.taskOutputTools Sample.askTools
                Sample.hostSort) as (_ & _ & _ & _ & _ & Hsort).
  exact (proj1 (proj2 (Hsort [Trace.readTool; Sample.bash] H))).
Defined.

Lemma sortByCategoryOrder_idempotent_witness :
  StronglySorted (rankLe Sample.priority) [Sample.bash; Trace.readTool]
  /\ sortByCategoryOrder Sample.shellTools Sample.readTools Sample.writeTools
       Sample.editTools Sample.grepTools Sample.globTools Sample.searchTools
       Sample.fetchTools Sample.taskTools Sample.taskOutputTools Sample.askTools Sample.hostSort
       [Sample.bash; Trace.readTool] =
     [Sample.bash; Trace.readTool].
Proof.
  assert (H : StronglySorted (rankLe Sample.priority) [Sample.bash; Trace.readTool]).
  { apply SSorted_cons; [apply SSorted_cons; [apply SSorted_nil | apply List.Forall_nil]|].
    apply List.Forall_cons; [|apply List.Forall_nil].
    exists 0, 3. split; [vm_compute; reflexivity|]. split; [vm_compute; reflexivity | lia]. }
  split; [exact H|].
  exact (proj1 (sortByCategoryOrder_idempotent Sample.shellTools Sample.readTools
                  Sample.writeTools Sample.editTools Sample.grepTools Sample.globTools
                  Sample.searchTools Sample.fetchTools Sample.taskTools
                  Sample.taskOutputTools Sample.askTools Sample.hostSort
                  [Sample.bash; Trace.readTool]) H).
Defined.

Lemma no_overflow_line_when_covered_witness :
  nonnegCaps INLINE_CAPS
  /\ count Sample.mixedSamples <=
       Z.min (Z.of_nat (length (samples Sample.mixedSamples))) (shellDetailed INLINE_CAPS)
  /\ List.filter isOverflowLine (renderShellSection Sample.mixedSamples INLINE_CAPS) = [].
Proof.
  assert (H1 : nonnegCaps INLINE_CAPS) by (unfold nonnegCaps; simpl; lia).
  assert (H2 : count Sample.mixedSamples <=
               Z.min (Z.of_nat (length (samples Sample.mixedSamples)))
                 (shellDetailed INLINE_CAPS)) by (simpl; lia).
  split; [exact H1|]. split; [exact H2|].
  exact (proj1 (no_overflow_line_when_covered Sample.mixedSamples INLINE_CAPS H1) H2).
Defined.

Lemma source_row_label_witness :
  (source Trace.ampSession ∉ map fst Sample.registry)
  /\ (Sample.handoffLines Trace.ampSession [] [] [] [] None "inline") !! 7%nat =
     Some ("| **Source** | " +:+ source Trace.ampSession +:+ " |")
  /\ (source Sample.session ∉ map fst [("codex", "Codex CLI")])
  /\ (Sample.handoffLines Sample.session [] [] [] [] None "inline") !! 7%nat =
     Some ("| **Source** | " +:+ "Claude Code" +:+ " |").
Proof.
  assert (H : source Trace.ampSession ∉ map fst Sample.registry).
  { intros Hin. apply list_elem_of_In in Hin. simpl in Hin.
    destruct Hin as [E|[E|[]]]; discriminate E. }
  assert (H' : source Sample.session ∉ map fst [("codex", "Codex CLI")]).
  { intros Hin. apply list_elem_of_In in Hin. simpl in Hin.
    destruct Hin as [E|[]]; discriminate E. }
  split; [exact H|]. split; [|split; [exact H'|]].
  - exact (proj1 (source_row_label Sample.shellTools Sample.readTools Sample.writeTools
                    Sample.editTools Sample.grepTools Sample.globTools Sample.searchTools
                    Sample.fetchTools Sample.taskTools Sample.taskOutputTools Sample.askTools
                    Sample.noClassifier Sample.localeString Sample.hostSort
                    Trace.ampSession [] [] [] [] None "inline") Sample.registry H).
  - exact (proj2 (source_row_label Sample.shellTools Sample.readTools Sample.writeTools
                    Sample.editTools Sample.grepTools Sample.globTools Sample.searchTools
                    Sample.fetchTools Sample.taskTools Sample.taskOutputTools Sample.askTools
                    Sample.noClassifier Sample.localeString Sample.hostSort
                    Sample.session [] [] [] [] None "inline")
             [] "Claude Code" [("codex", "Codex CLI")] H').
Defined.

Lemma tool_activity_headings_witness :
  nonnegCaps INLINE_CAPS
  /\ List.filter isToolHeading
       (renderToolActivity Sample.shellTools Sample.readTools Sample.writeTools
          Sample.editTools Sample.grepTools Sample.globTools Sample.searchTools
          Sample.fetchTools Sample.taskTools Sample.taskOutputTools Sample.askTools
          Sample.noClassifier Sample.hostSort Sample.githubThenJira INLINE_CAPS) =
     map (toolHeading Sample.noClassifier)
       (sortByCategoryOrder Sample.shellTools Sample.readTools Sample.writeTools
          Sample.editTools Sample.grepTools Sample.globTools Sample.searchTools
          Sample.fetchTools Sample.taskTools Sample.taskOutputTools Sample.askTools Sample.hostSort
          (groupMcpByNamespace Sample.noClassifier Sample.githubThenJira)).
Proof.
  assert (H : nonnegCaps INLINE_CAPS) by (unfold nonnegCaps; simpl; lia).
  split; [exact H|].
  exact (tool_activity_headings Sample.shellTools Sample.readTools Sample.writeTools
           Sample.editTools Sample.grepTools Sample.globTools Sample.searchTools
           Sample.fetchTools Sample.taskTools Sample.taskOutputTools Sample.askTools
           Sample.noClassifier Sample.hostSort Sample.githubThenJira INLINE_CAPS H).
Defined.

Lemma copilot_files_modified_witness :
  (exists tr c,
     tr ∈ Copilot.requestsOf Trace.events
     /\ Trace.classify (Copilot.nameOf tr) = Some c
     /\ (c = write \/ c = edit)
     /\ "src/a.ts" = Copilot.filePathOf (default [] (Copilot.reqArguments tr))
     /\ "src/a.ts" <> EmptyString)
  /\ "src/a.ts" ∈
       (Copilot.extractCopilotToolSummaries Trace.classify Trace.stringify Trace.events).2.
Proof.
  assert (H : exists tr c,
            tr ∈ Copilot.requestsOf Trace.events
            /\ Trace.classify (Copilot.nameOf tr) = Some c
            /\ (c = write \/ c = edit)
            /\ "src/a.ts" = Copilot.filePathOf (default [] (Copilot.reqArguments tr))
            /\ "src/a.ts" <> EmptyString).
  { exists Trace.editA, edit. split.
    - apply list_elem_of_In. simpl. right. left. reflexivity.
    - split; [reflexivity|]. split; [right; reflexivity|].
      split; [reflexivity | discriminate]. }
  split; [exact H|].
  exact (proj2 (proj2 (proj2 (copilot_files_modified Trace.classify Trace.stringify
                                Trace.events)) "src/a.ts") H).
Defined.

Lemma copilot_summary_invariants_witness :
  Trace.bashSummary ∈
    (Copilot.extractCopilotToolSummaries Trace.classify Trace.stringify Trace.events).1
  /\ 1 <= count Trace.bashSummary
  /\ Z.of_nat (length (samples Trace.bashSummary)) = Z.min (count Trace.bashSummary) 5
  /\ errorCount Trace.bashSummary = None
  /\ exists c,
       Trace.classify (name Trace.bashSummary) = Some c
       /\ detectCategory Trace.classify Trace.bashSummary = c
       /\ Forall (fun s => category <$> data s = Some c) (samples Trace.bashSummary).
Proof.
  assert (H : Trace.bashSummary ∈
              (Copilot.extractCopilotToolSummaries Trace.classify Trace.stringify
                 Trace.events).1).
  { apply list_elem_of_In. vm_compute. left. reflexivity. }
  split; [exact H|].
  exact (copilot_summary_invariants Trace.classify Trace.stringify Trace.events
           Trace.bashSummary H).
Defined.

Lemma copilot_recent_messages_witness :
  length Trace.twentyEvents = 20%nat
  /\ Copilot.recentMessagesOf Sample.session (Trace.events ++ Trace.twentyEvents) =
     Copilot.recentMessagesOf Sample.session Trace.twentyEvents.
Proof.
  assert (H : length Trace.twentyEvents = 20%nat) by reflexivity.
  split; [exact H|].
  exact (proj2 (proj2 (copilot_recent_messages Sample.session Trace.twentyEvents))
           Trace.events H).
Defined.

Lemma amp_single_model_row_witness :
  model Trace.ampSession = Amp.extractModel Trace.thread
  /\ modelRowsOf
       (Sample.handoffLines Trace.ampSession [] [] [] []
          (Some (Amp.extractSessionNotes Trace.thread)) "inline") =
     match ampModel Trace.thread with
     | Some m => [modelRow m]
     | None => []
     end.
Proof.
  assert (H : model Trace.ampSession = Amp.extractModel Trace.thread) by reflexivity.
  split; [exact H|].
  exact (amp_single_model_row Sample.shellTools Sample.readTools Sample.writeTools
           Sample.editTools Sample.grepTools Sample.globTools Sample.searchTools
           Sample.fetchTools Sample.taskTools Sample.taskOutputTools Sample.askTools
           Sample.noClassifier Sample.localeString Sample.registry Sample.hostSort
           Trace.thread Trace.ampSession [] [] [] [] "inline" H).
Defined.

Lemma amp_recent_window_witness :
  0 < 1
  /\ (length (Amp.trimmedMessages Trace.trim Trace.thread 1) <= Z.to_nat 1)%nat
  /\ length (Amp.messages Trace.thread) = Z.to_nat (2 * 1)
  /\ Amp.trimmedMessages Trace.trim
       {| Amp.messages := Amp.messages Trace.thread ++ Amp.messages Trace.thread;
          Amp.tags := Amp.tags Trace.thread;
          Amp.events := Amp.events Trace.thread |} 1 =
     Amp.trimmedMessages Trace.trim Trace.thread 1.
Proof.
  assert (H : 0 < 1) by lia.
  assert (H' : length (Amp.messages Trace.thread) = Z.to_nat (2 * 1)) by reflexivity.
  split; [exact H|]. split; [|split; [exact H'|]].
  - exact (proj1 (proj2 (amp_recent_window Trace.trim Trace.thread)) 1 H).
  - exact (proj1 (proj2 (proj2 (amp_recent_window Trace.trim Trace.thread)))
             1 (Amp.messages Trace.thread) H H').
Defined.

Lemma cline_streaming_chunks_collapse_witness :
  Cline.keptChunk Trace.trim (Trace.chunk "Let me") = true
  /\ Cline.keptChunk Trace.trim (Trace.chunk "Let me look") = true
  /\ Cline.buildConversation Trace.trim
       ([Trace.feedback "fix it"] ++
        Trace.chunk "Let me" :: Trace.chunk "Let me look" :: [Trace.feedback "thanks"]) =
     Cline.buildConversation Trace.trim
       ([Trace.feedback "fix it"] ++
        Trace.chunk "Let me look" :: [Trace.feedback "thanks"]).
Proof.
  assert (H1 : Cline.keptChunk Trace.trim (Trace.chunk "Let me") = true) by reflexivity.
  assert (H2 : Cline.keptChunk Trace.trim (Trace.chunk "Let me look") = true)
    by reflexivity.
  split; [exact H1|]. split; [exact H2|].
  exact (cline_streaming_chunks_collapse Trace.trim [Trace.feedback "fix it"]
           (Trace.chunk "Let me") (Trace.chunk "Let me look") [Trace.feedback "thanks"]
           H1 H2).
Defined.

Lemma antigravity_strip_prefix_witness :
  Antigravity.indexOf Antigravity.brace Trace.binaryPrefix = -1
  /\ Trace.binaryPrefix +:+ "{entry}" =
     Trace.binaryPrefix +:+ String Antigravity.brace "entry}"
  /\ Antigravity.stripBinaryPrefix (Trace.binaryPrefix +:+ "{entry}") =
     Some (String Antigravity.brace "entry}").
Proof.
  assert (H1 : Antigravity.indexOf Antigravity.brace Trace.binaryPrefix = -1)
    by reflexivity.
  assert (H2 : Trace.binaryPrefix +:+ "{entry}" =
               Trace.binaryPrefix +:+ String Antigravity.brace "entry}") by reflexivity.
  split; [exact H1|]. split; [exact H2|].
  exact (proj1 (antigravity_strip_prefix (Trace.binaryPrefix +:+ "{entry}"))
           Trace.binaryPrefix "entry}" H1 H2).
Defined.

Lemma antigravity_prefix_ignored_witness :
  Antigravity.indexOf Antigravity.brace Trace.binaryPrefix = -1
  /\ Antigravity.parseLine Trace.parseJson (Trace.binaryPrefix +:+ "{entry}") =
     Antigravity.parseLine Trace.parseJson "{entry}".
Proof.
  assert (H : Antigravity.indexOf Antigravity.brace Trace.binaryPrefix = -1)
    by reflexivity.
  split; [exact H|].
  exact (antigravity_prefix_ignored Trace.parseJson Trace.binaryPrefix "{entry}" H).
Defined.

Lemma last_active_row_witness :
  updatedAtISO Sample.session = "2026-01-02" +:+ String "T" "03:04:05.000Z"
  /\ String.length "2026-01-02" = 10%nat
  /\ absentFrom "T" "2026-01-02"
  /\ List.filter isLastActiveRow
       (overviewTableOf (Sample.handoffLines Sample.session [] [] [] [] None "inline")) =
     ["| **Last Active** | " +:+ "2026-01-02" +:+ " " +:+
      Js.strSlice 0 (Some 5) "03:04:05.000Z" +:+ " |"].
Proof.
  assert (H1 : updatedAtISO Sample.session = "2026-01-02" +:+ String "T" "03:04:05.000Z")
    by reflexivity.
  assert (H2 : String.length "2026-01-02" = 10%nat) by reflexivity.
  assert (H3 : absentFrom "T" "2026-01-02") by reflexivity.
  split; [exact H1|]. split; [exact H2|]. split; [exact H3|].
  exact (proj2 (last_active_row Sample.shellTools Sample.readTools Sample.writeTools
                  Sample.editTools Sample.grepTools Sample.globTools Sample.searchTools
                  Sample.fetchTools Sample.taskTools Sample.taskOutputTools Sample.askTools
                  Sample.noClassifier Sample.localeString Sample.registry Sample.hostSort
                  Sample.session [] [] [] [] None "inline")
           "2026-01-02" "03:04:05.000Z" H1 H2 H3).
Defined.

Lemma recent_conversation_window_witness :
  length Trace.tenMessages = 10%nat
  /\ exists pre post,
       Sample.handoffLines Sample.session ([Sample.headingMessage] ++ Trace.tenMessages)
         [] [] [] None "inline" =
       pre ++ [messagesRow (length [Sample.headingMessage] + 10)] ++ post
       /\ Sample.handoffLines Sample.session Trace.tenMessages [] [] [] None "inline" =
          pre ++ [messagesRow 10] ++ post.
Proof.
  assert (H : length Trace.tenMessages = 10%nat) by reflexivity.
  split; [exact H|].
  exact (recent_conversation_window Sample.shellTools Sample.readTools Sample.writeTools
           Sample.editTools Sample.grepTools Sample.globTools Sample.searchTools
           Sample.fetchTools Sample.taskTools Sample.taskOutputTools Sample.askTools
           Sample.noClassifier Sample.localeString Sample.registry Sample.hostSort
           Sample.session [Sample.headingMessage] Trace.tenMessages [] [] [] None "inline" H).
Defined.
